(** * USB Audio Class descriptor analyzer: model, parser and topology

    Shallow embedding of [uac_analyzer/model.py], [uac_analyzer/parser.py]
    and [uac_analyzer/topology.py].

    Conventions of the embedding:
    - Python [int] is [Z]; [str] is [string], read as a sequence of 7-bit
      ASCII characters; [Optional[T]] is [option T]; [list] is [list];
      [dict[int, T]] is [gmap Z T]; [set[int]] is [gset Z].
    - A dataclass is a record in a module of its own name, so that the
      Python attribute [unit.unit_id] reads [FeatureUnit.unit_id unit]; an
      attribute assignment [unit.unit_id = v] is [FeatureUnit.with_unit_id v unit].
    - A [while] loop becomes a [Fixpoint] on a step budget computed from the
      number of lines left; running out of budget is the distinct outcome
      [OutOfFuel], which is proved unreachable. *)

From Stdlib Require Import ZArith String Ascii DecimalString HexadecimalString Lia Sorted.
From Stdlib Require PrimFloat.
From stdpp Require Import gmap list strings.

Open Scope Z_scope.

Set Warnings "-clear-no-such-hyp".

(** ** model.py: enumerations *)

Inductive UACVersion := UAC_1_0 | UAC_2_0 | UAC_3_0 | UNKNOWN.

Inductive SyncType := SyncType_NONE | ASYNC | ADAPTIVE | SYNC.

Inductive UsageType := DATA | FEEDBACK | IMPLICIT_FEEDBACK.

#[global] Instance UACVersion_eq_dec : EqDecision UACVersion.
Proof. solve_decision. Defined.

#[global] Instance SyncType_eq_dec : EqDecision SyncType.
Proof. solve_decision. Defined.

#[global] Instance UsageType_eq_dec : EqDecision UsageType.
Proof. solve_decision. Defined.

(** ** model.py: descriptor records *)

(* USB Device Descriptor. *)
Module DeviceDescriptor.
Record t := mk {
  vendor_id : Z;
  product_id : Z;
  bcd_device : Z;
  manufacturer : string;
  product : string;
  serial_number : string;
  device_class : Z;
  device_subclass : Z;
  device_protocol : Z;
  max_packet_size_0 : Z;
  num_configurations : Z;
  usb_version : string
}.
Definition default : t :=
    {| vendor_id := 0; product_id := 0; bcd_device := 0; manufacturer := EmptyString; product :=
     EmptyString; serial_number := EmptyString; device_class := 0; device_subclass := 0;
     device_protocol := 0; max_packet_size_0 := 0; num_configurations := 0; usb_version :=
     EmptyString |}.
Definition with_vendor_id (v : Z) (r : t) : t :=
    {| vendor_id := v; product_id := product_id r; bcd_device := bcd_device r; manufacturer :=
     manufacturer r; product := product r; serial_number := serial_number r; device_class :=
     device_class r; device_subclass := device_subclass r; device_protocol := device_protocol r;
     max_packet_size_0 := max_packet_size_0 r; num_configurations := num_configurations r;
     usb_version := usb_version r |}.
Definition with_product_id (v : Z) (r : t) : t :=
    {| vendor_id := vendor_id r; product_id := v; bcd_device := bcd_device r; manufacturer :=
     manufacturer r; product := product r; serial_number := serial_number r; device_class :=
     device_class r; device_subclass := device_subclass r; device_protocol := device_protocol r;
     max_packet_size_0 := max_packet_size_0 r; num_configurations := num_configurations r;
     usb_version := usb_version r |}.
Definition with_bcd_device (v : Z) (r : t) : t :=
    {| vendor_id := vendor_id r; product_id := product_id r; bcd_device := v; manufacturer :=
     manufacturer r; product := product r; serial_number := serial_number r; device_class :=
     device_class r; device_subclass := device_subclass r; device_protocol := device_protocol r;
     max_packet_size_0 := max_packet_size_0 r; num_configurations := num_configurations r;
     usb_version := usb_version r |}.
Definition with_manufacturer (v : string) (r : t) : t :=
    {| vendor_id := vendor_id r; product_id := product_id r; bcd_device := bcd_device r;
     manufacturer := v; product := product r; serial_number := serial_number r; device_class :=
     device_class r; device_subclass := device_subclass r; device_protocol := device_protocol r;
     max_packet_size_0 := max_packet_size_0 r; num_configurations := num_configurations r;
     usb_version := usb_version r |}.
Definition with_product (v : string) (r : t) : t :=
    {| vendor_id := vendor_id r; product_id := product_id r; bcd_device := bcd_device r;
     manufacturer := manufacturer r; product := v; serial_number := serial_number r; device_class
     := device_class r; device_subclass := device_subclass r; device_protocol := device_protocol
     r; max_packet_size_0 := max_packet_size_0 r; num_configurations := num_configurations r;
     usb_version := usb_version r |}.
Definition with_serial_number (v : string) (r : t) : t :=
    {| vendor_id := vendor_id r; product_id := product_id r; bcd_device := bcd_device r;
     manufacturer := manufacturer r; product := product r; serial_number := v; device_class :=
     device_class r; device_subclass := device_subclass r; device_protocol := device_protocol r;
     max_packet_size_0 := max_packet_size_0 r; num_configurations := num_configurations r;
     usb_version := usb_version r |}.
Definition with_device_class (v : Z) (r : t) : t :=
    {| vendor_id := vendor_id r; product_id := product_id r; bcd_device := bcd_device r;
     manufacturer := manufacturer r; product := product r; serial_number := serial_number r;
     device_class := v; device_subclass := device_subclass r; device_protocol := device_protocol
     r; max_packet_size_0 := max_packet_size_0 r; num_configurations := num_configurations r;
     usb_version := usb_version r |}.
Definition with_device_subclass (v : Z) (r : t) : t :=
    {| vendor_id := vendor_id r; product_id := product_id r; bcd_device := bcd_device r;
     manufacturer := manufacturer r; product := product r; serial_number := serial_number r;
     device_class := device_class r; device_subclass := v; device_protocol := device_protocol r;
     max_packet_size_0 := max_packet_size_0 r; num_configurations := num_configurations r;
     usb_version := usb_version r |}.
Definition with_device_protocol (v : Z) (r : t) : t :=
    {| vendor_id := vendor_id r; product_id := product_id r; bcd_device := bcd_device r;
     manufacturer := manufacturer r; product := product r; serial_number := serial_number r;
     device_class := device_class r; device_subclass := device_subclass r; device_protocol := v;
     max_packet_size_0 := max_packet_size_0 r; num_configurations := num_configurations r;
     usb_version := usb_version r |}.
Definition with_max_packet_size_0 (v : Z) (r : t) : t :=
    {| vendor_id := vendor_id r; product_id := product_id r; bcd_device := bcd_device r;
     manufacturer := manufacturer r; product := product r; serial_number := serial_number r;
     device_class := device_class r; device_subclass := device_subclass r; device_protocol :=
     device_protocol r; max_packet_size_0 := v; num_configurations := num_configurations r;
     usb_version := usb_version r |}.
Definition with_num_configurations (v : Z) (r : t) : t :=
    {| vendor_id := vendor_id r; product_id := product_id r; bcd_device := bcd_device r;
     manufacturer := manufacturer r; product := product r; serial_number := serial_number r;
     device_class := device_class r; device_subclass := device_subclass r; device_protocol :=
     device_protocol r; max_packet_size_0 := max_packet_size_0 r; num_configurations := v;
     usb_version := usb_version r |}.
Definition with_usb_version (v : string) (r : t) : t :=
    {| vendor_id := vendor_id r; product_id := product_id r; bcd_device := bcd_device r;
     manufacturer := manufacturer r; product := product r; serial_number := serial_number r;
     device_class := device_class r; device_subclass := device_subclass r; device_protocol :=
     device_protocol r; max_packet_size_0 := max_packet_size_0 r; num_configurations :=
     num_configurations r; usb_version := v |}.
End DeviceDescriptor.

(* USB Endpoint Descriptor with audio extensions. *)
Module EndpointDescriptor.
Record t := mk {
  address : Z;
  direction : string;
  transfer_type : string;
  sync_type : SyncType;
  usage_type : UsageType;
  max_packet_size : Z;
  interval : Z;
  refresh : Z;
  synch_address : Z;
  lock_delay_units : Z;
  lock_delay : Z;
  max_packets_only : bool
}.
Definition default : t :=
    {| address := 0; direction := EmptyString; transfer_type := EmptyString; sync_type :=
     SyncType_NONE; usage_type := DATA; max_packet_size := 0; interval := 0; refresh := 0;
     synch_address := 0; lock_delay_units := 0; lock_delay := 0; max_packets_only := false |}.
Definition with_address (v : Z) (r : t) : t :=
    {| address := v; direction := direction r; transfer_type := transfer_type r; sync_type :=
     sync_type r; usage_type := usage_type r; max_packet_size := max_packet_size r; interval :=
     interval r; refresh := refresh r; synch_address := synch_address r; lock_delay_units :=
     lock_delay_units r; lock_delay := lock_delay r; max_packets_only := max_packets_only r |}.
Definition with_direction (v : string) (r : t) : t :=
    {| address := address r; direction := v; transfer_type := transfer_type r; sync_type :=
     sync_type r; usage_type := usage_type r; max_packet_size := max_packet_size r; interval :=
     interval r; refresh := refresh r; synch_address := synch_address r; lock_delay_units :=
     lock_delay_units r; lock_delay := lock_delay r; max_packets_only := max_packets_only r |}.
Definition with_transfer_type (v : string) (r : t) : t :=
    {| address := address r; direction := direction r; transfer_type := v; sync_type := sync_type
     r; usage_type := usage_type r; max_packet_size := max_packet_size r; interval := interval r;
     refresh := refresh r; synch_address := synch_address r; lock_delay_units := lock_delay_units
     r; lock_delay := lock_delay r; max_packets_only := max_packets_only r |}.
Definition with_sync_type (v : SyncType) (r : t) : t :=
    {| address := address r; direction := direction r; transfer_type := transfer_type r; sync_type
     := v; usage_type := usage_type r; max_packet_size := max_packet_size r; interval := interval
     r; refresh := refresh r; synch_address := synch_address r; lock_delay_units :=
     lock_delay_units r; lock_delay := lock_delay r; max_packets_only := max_packets_only r |}.
Definition with_usage_type (v : UsageType) (r : t) : t :=
    {| address := address r; direction := direction r; transfer_type := transfer_type r; sync_type
     := sync_type r; usage_type := v; max_packet_size := max_packet_size r; interval := interval
     r; refresh := refresh r; synch_address := synch_address r; lock_delay_units :=
     lock_delay_units r; lock_delay := lock_delay r; max_packets_only := max_packets_only r |}.
Definition with_max_packet_size (v : Z) (r : t) : t :=
    {| address := address r; direction := direction r; transfer_type := transfer_type r; sync_type
     := sync_type r; usage_type := usage_type r; max_packet_size := v; interval := interval r;
     refresh := refresh r; synch_address := synch_address r; lock_delay_units := lock_delay_units
     r; lock_delay := lock_delay r; max_packets_only := max_packets_only r |}.
Definition with_interval (v : Z) (r : t) : t :=
    {| address := address r; direction := direction r; transfer_type := transfer_type r; sync_type
     := sync_type r; usage_type := usage_type r; max_packet_size := max_packet_size r; interval :=
     v; refresh := refresh r; synch_address := synch_address r; lock_delay_units :=
     lock_delay_units r; lock_delay := lock_delay r; max_packets_only := max_packets_only r |}.
Definition with_refresh (v : Z) (r : t) : t :=
    {| address := address r; direction := direction r; transfer_type := transfer_type r; sync_type
     := sync_type r; usage_type := usage_type r; max_packet_size := max_packet_size r; interval :=
     interval r; refresh := v; synch_address := synch_address r; lock_delay_units :=
     lock_delay_units r; lock_delay := lock_delay r; max_packets_only := max_packets_only r |}.
Definition with_synch_address (v : Z) (r : t) : t :=
    {| address := address r; direction := direction r; transfer_type := transfer_type r; sync_type
     := sync_type r; usage_type := usage_type r; max_packet_size := max_packet_size r; interval :=
     interval r; refresh := refresh r; synch_address := v; lock_delay_units := lock_delay_units r;
     lock_delay := lock_delay r; max_packets_only := max_packets_only r |}.
Definition with_lock_delay_units (v : Z) (r : t) : t :=
    {| address := address r; direction := direction r; transfer_type := transfer_type r; sync_type
     := sync_type r; usage_type := usage_type r; max_packet_size := max_packet_size r; interval :=
     interval r; refresh := refresh r; synch_address := synch_address r; lock_delay_units := v;
     lock_delay := lock_delay r; max_packets_only := max_packets_only r |}.
Definition with_lock_delay (v : Z) (r : t) : t :=
    {| address := address r; direction := direction r; transfer_type := transfer_type r; sync_type
     := sync_type r; usage_type := usage_type r; max_packet_size := max_packet_size r; interval :=
     interval r; refresh := refresh r; synch_address := synch_address r; lock_delay_units :=
     lock_delay_units r; lock_delay := v; max_packets_only := max_packets_only r |}.
Definition with_max_packets_only (v : bool) (r : t) : t :=
    {| address := address r; direction := direction r; transfer_type := transfer_type r; sync_type
     := sync_type r; usage_type := usage_type r; max_packet_size := max_packet_size r; interval :=
     interval r; refresh := refresh r; synch_address := synch_address r; lock_delay_units :=
     lock_delay_units r; lock_delay := lock_delay r; max_packets_only := v |}.
End EndpointDescriptor.

(* USB Interface Descriptor. *)
Module InterfaceDescriptor.
Record t := mk {
  interface_number : Z;
  alternate_setting : Z;
  num_endpoints : Z;
  interface_class : Z;
  interface_subclass : Z;
  interface_protocol : Z;
  interface_name : string;
  endpoints : list EndpointDescriptor.t
}.
Definition default : t :=
    {| interface_number := 0; alternate_setting := 0; num_endpoints := 0; interface_class := 0;
     interface_subclass := 0; interface_protocol := 0; interface_name := EmptyString; endpoints :=
     [] |}.
Definition with_interface_number (v : Z) (r : t) : t :=
    {| interface_number := v; alternate_setting := alternate_setting r; num_endpoints :=
     num_endpoints r; interface_class := interface_class r; interface_subclass :=
     interface_subclass r; interface_protocol := interface_protocol r; interface_name :=
     interface_name r; endpoints := endpoints r |}.
Definition with_alternate_setting (v : Z) (r : t) : t :=
    {| interface_number := interface_number r; alternate_setting := v; num_endpoints :=
     num_endpoints r; interface_class := interface_class r; interface_subclass :=
     interface_subclass r; interface_protocol := interface_protocol r; interface_name :=
     interface_name r; endpoints := endpoints r |}.
Definition with_num_endpoints (v : Z) (r : t) : t :=
    {| interface_number := interface_number r; alternate_setting := alternate_setting r;
     num_endpoints := v; interface_class := interface_class r; interface_subclass :=
     interface_subclass r; interface_protocol := interface_protocol r; interface_name :=
     interface_name r; endpoints := endpoints r |}.
Definition with_interface_class (v : Z) (r : t) : t :=
    {| interface_number := interface_number r; alternate_setting := alternate_setting r;
     num_endpoints := num_endpoints r; interface_class := v; interface_subclass :=
     interface_subclass r; interface_protocol := interface_protocol r; interface_name :=
     interface_name r; endpoints := endpoints r |}.
Definition with_interface_subclass (v : Z) (r : t) : t :=
    {| interface_number := interface_number r; alternate_setting := alternate_setting r;
     num_endpoints := num_endpoints r; interface_class := interface_class r; interface_subclass :=
     v; interface_protocol := interface_protocol r; interface_name := interface_name r; endpoints
     := endpoints r |}.
Definition with_interface_protocol (v : Z) (r : t) : t :=
    {| interface_number := interface_number r; alternate_setting := alternate_setting r;
     num_endpoints := num_endpoints r; interface_class := interface_class r; interface_subclass :=
     interface_subclass r; interface_protocol := v; interface_name := interface_name r; endpoints
     := endpoints r |}.
Definition with_interface_name (v : string) (r : t) : t :=
    {| interface_number := interface_number r; alternate_setting := alternate_setting r;
     num_endpoints := num_endpoints r; interface_class := interface_class r; interface_subclass :=
     interface_subclass r; interface_protocol := interface_protocol r; interface_name := v;
     endpoints := endpoints r |}.
Definition with_endpoints (v : list EndpointDescriptor.t) (r : t) : t :=
    {| interface_number := interface_number r; alternate_setting := alternate_setting r;
     num_endpoints := num_endpoints r; interface_class := interface_class r; interface_subclass :=
     interface_subclass r; interface_protocol := interface_protocol r; interface_name :=
     interface_name r; endpoints := v |}.
End InterfaceDescriptor.

(* USB Configuration Descriptor. *)
Module ConfigurationDescriptor.
Record t := mk {
  config_value : Z;
  num_interfaces : Z;
  config_name : string;
  attributes : Z;
  max_power_ma : Z;
  interfaces : list InterfaceDescriptor.t
}.
Definition default : t :=
    {| config_value := 0; num_interfaces := 0; config_name := EmptyString; attributes := 0;
     max_power_ma := 0; interfaces := [] |}.
Definition with_config_value (v : Z) (r : t) : t :=
    {| config_value := v; num_interfaces := num_interfaces r; config_name := config_name r;
     attributes := attributes r; max_power_ma := max_power_ma r; interfaces := interfaces r |}.
Definition with_num_interfaces (v : Z) (r : t) : t :=
    {| config_value := config_value r; num_interfaces := v; config_name := config_name r;
     attributes := attributes r; max_power_ma := max_power_ma r; interfaces := interfaces r |}.
Definition with_config_name (v : string) (r : t) : t :=
    {| config_value := config_value r; num_interfaces := num_interfaces r; config_name := v;
     attributes := attributes r; max_power_ma := max_power_ma r; interfaces := interfaces r |}.
Definition with_attributes (v : Z) (r : t) : t :=
    {| config_value := config_value r; num_interfaces := num_interfaces r; config_name :=
     config_name r; attributes := v; max_power_ma := max_power_ma r; interfaces := interfaces r
     |}.
Definition with_max_power_ma (v : Z) (r : t) : t :=
    {| config_value := config_value r; num_interfaces := num_interfaces r; config_name :=
     config_name r; attributes := attributes r; max_power_ma := v; interfaces := interfaces r |}.
Definition with_interfaces (v : list InterfaceDescriptor.t) (r : t) : t :=
    {| config_value := config_value r; num_interfaces := num_interfaces r; config_name :=
     config_name r; attributes := attributes r; max_power_ma := max_power_ma r; interfaces := v
     |}.
End ConfigurationDescriptor.

(* AudioControl Interface Header Descriptor. *)
Module AudioControlHeader.
Record t := mk {
  uac_version : UACVersion;
  bcd_adc : Z;
  total_length : Z;
  in_collection : Z;
  interface_numbers : list Z;
  category : Z;
  controls : Z
}.
Definition default : t :=
    {| uac_version := UNKNOWN; bcd_adc := 0; total_length := 0; in_collection := 0;
     interface_numbers := []; category := 0; controls := 0 |}.
Definition with_uac_version (v : UACVersion) (r : t) : t :=
    {| uac_version := v; bcd_adc := bcd_adc r; total_length := total_length r; in_collection :=
     in_collection r; interface_numbers := interface_numbers r; category := category r; controls
     := controls r |}.
Definition with_bcd_adc (v : Z) (r : t) : t :=
    {| uac_version := uac_version r; bcd_adc := v; total_length := total_length r; in_collection
     := in_collection r; interface_numbers := interface_numbers r; category := category r;
     controls := controls r |}.
Definition with_total_length (v : Z) (r : t) : t :=
    {| uac_version := uac_version r; bcd_adc := bcd_adc r; total_length := v; in_collection :=
     in_collection r; interface_numbers := interface_numbers r; category := category r; controls
     := controls r |}.
Definition with_in_collection (v : Z) (r : t) : t :=
    {| uac_version := uac_version r; bcd_adc := bcd_adc r; total_length := total_length r;
     in_collection := v; interface_numbers := interface_numbers r; category := category r;
     controls := controls r |}.
Definition with_interface_numbers (v : list Z) (r : t) : t :=
    {| uac_version := uac_version r; bcd_adc := bcd_adc r; total_length := total_length r;
     in_collection := in_collection r; interface_numbers := v; category := category r; controls :=
     controls r |}.
Definition with_category (v : Z) (r : t) : t :=
    {| uac_version := uac_version r; bcd_adc := bcd_adc r; total_length := total_length r;
     in_collection := in_collection r; interface_numbers := interface_numbers r; category := v;
     controls := controls r |}.
Definition with_controls (v : Z) (r : t) : t :=
    {| uac_version := uac_version r; bcd_adc := bcd_adc r; total_length := total_length r;
     in_collection := in_collection r; interface_numbers := interface_numbers r; category :=
     category r; controls := v |}.
End AudioControlHeader.

(* Input Terminal Descriptor. *)
Module InputTerminal.
Record t := mk {
  terminal_id : Z;
  terminal_type : Z;
  assoc_terminal : Z;
  nr_channels : Z;
  channel_config : Z;
  channel_names : string;
  terminal_name : string;
  clock_source_id : Z;
  controls : Z
}.
Definition default : t :=
    {| terminal_id := 0; terminal_type := 0; assoc_terminal := 0; nr_channels := 0; channel_config
     := 0; channel_names := EmptyString; terminal_name := EmptyString; clock_source_id := 0;
     controls := 0 |}.
Definition with_terminal_id (v : Z) (r : t) : t :=
    {| terminal_id := v; terminal_type := terminal_type r; assoc_terminal := assoc_terminal r;
     nr_channels := nr_channels r; channel_config := channel_config r; channel_names :=
     channel_names r; terminal_name := terminal_name r; clock_source_id := clock_source_id r;
     controls := controls r |}.
Definition with_terminal_type (v : Z) (r : t) : t :=
    {| terminal_id := terminal_id r; terminal_type := v; assoc_terminal := assoc_terminal r;
     nr_channels := nr_channels r; channel_config := channel_config r; channel_names :=
     channel_names r; terminal_name := terminal_name r; clock_source_id := clock_source_id r;
     controls := controls r |}.
Definition with_assoc_terminal (v : Z) (r : t) : t :=
    {| terminal_id := terminal_id r; terminal_type := terminal_type r; assoc_terminal := v;
     nr_channels := nr_channels r; channel_config := channel_config r; channel_names :=
     channel_names r; terminal_name := terminal_name r; clock_source_id := clock_source_id r;
     controls := controls r |}.
Definition with_nr_channels (v : Z) (r : t) : t :=
    {| terminal_id := terminal_id r; terminal_type := terminal_type r; assoc_terminal :=
     assoc_terminal r; nr_channels := v; channel_config := channel_config r; channel_names :=
     channel_names r; terminal_name := terminal_name r; clock_source_id := clock_source_id r;
     controls := controls r |}.
Definition with_channel_config (v : Z) (r : t) : t :=
    {| terminal_id := terminal_id r; terminal_type := terminal_type r; assoc_terminal :=
     assoc_terminal r; nr_channels := nr_channels r; channel_config := v; channel_names :=
     channel_names r; terminal_name := terminal_name r; clock_source_id := clock_source_id r;
     controls := controls r |}.
Definition with_channel_names (v : string) (r : t) : t :=
    {| terminal_id := terminal_id r; terminal_type := terminal_type r; assoc_terminal :=
     assoc_terminal r; nr_channels := nr_channels r; channel_config := channel_config r;
     channel_names := v; terminal_name := terminal_name r; clock_source_id := clock_source_id r;
     controls := controls r |}.
Definition with_terminal_name (v : string) (r : t) : t :=
    {| terminal_id := terminal_id r; terminal_type := terminal_type r; assoc_terminal :=
     assoc_terminal r; nr_channels := nr_channels r; channel_config := channel_config r;
     channel_names := channel_names r; terminal_name := v; clock_source_id := clock_source_id r;
     controls := controls r |}.
Definition with_clock_source_id (v : Z) (r : t) : t :=
    {| terminal_id := terminal_id r; terminal_type := terminal_type r; assoc_terminal :=
     assoc_terminal r; nr_channels := nr_channels r; channel_config := channel_config r;
     channel_names := channel_names r; terminal_name := terminal_name r; clock_source_id := v;
     controls := controls r |}.
Definition with_controls (v : Z) (r : t) : t :=
    {| terminal_id := terminal_id r; terminal_type := terminal_type r; assoc_terminal :=
     assoc_terminal r; nr_channels := nr_channels r; channel_config := channel_config r;
     channel_names := channel_names r; terminal_name := terminal_name r; clock_source_id :=
     clock_source_id r; controls := v |}.
End InputTerminal.

(* Output Terminal Descriptor. *)
Module OutputTerminal.
Record t := mk {
  terminal_id : Z;
  terminal_type : Z;
  assoc_terminal : Z;
  source_id : Z;
  terminal_name : string;
  clock_source_id : Z;
  controls : Z
}.
Definition default : t :=
    {| terminal_id := 0; terminal_type := 0; assoc_terminal := 0; source_id := 0; terminal_name :=
     EmptyString; clock_source_id := 0; controls := 0 |}.
Definition with_terminal_id (v : Z) (r : t) : t :=
    {| terminal_id := v; terminal_type := terminal_type r; assoc_terminal := assoc_terminal r;
     source_id := source_id r; terminal_name := terminal_name r; clock_source_id :=
     clock_source_id r; controls := controls r |}.
Definition with_terminal_type (v : Z) (r : t) : t :=
    {| terminal_id := terminal_id r; terminal_type := v; assoc_terminal := assoc_terminal r;
     source_id := source_id r; terminal_name := terminal_name r; clock_source_id :=
     clock_source_id r; controls := controls r |}.
Definition with_assoc_terminal (v : Z) (r : t) : t :=
    {| terminal_id := terminal_id r; terminal_type := terminal_type r; assoc_terminal := v;
     source_id := source_id r; terminal_name := terminal_name r; clock_source_id :=
     clock_source_id r; controls := controls r |}.
Definition with_source_id (v : Z) (r : t) : t :=
    {| terminal_id := terminal_id r; terminal_type := terminal_type r; assoc_terminal :=
     assoc_terminal r; source_id := v; terminal_name := terminal_name r; clock_source_id :=
     clock_source_id r; controls := controls r |}.
Definition with_terminal_name (v : string) (r : t) : t :=
    {| terminal_id := terminal_id r; terminal_type := terminal_type r; assoc_terminal :=
     assoc_terminal r; source_id := source_id r; terminal_name := v; clock_source_id :=
     clock_source_id r; controls := controls r |}.
Definition with_clock_source_id (v : Z) (r : t) : t :=
    {| terminal_id := terminal_id r; terminal_type := terminal_type r; assoc_terminal :=
     assoc_terminal r; source_id := source_id r; terminal_name := terminal_name r; clock_source_id
     := v; controls := controls r |}.
Definition with_controls (v : Z) (r : t) : t :=
    {| terminal_id := terminal_id r; terminal_type := terminal_type r; assoc_terminal :=
     assoc_terminal r; source_id := source_id r; terminal_name := terminal_name r; clock_source_id
     := clock_source_id r; controls := v |}.
End OutputTerminal.

(* Feature Unit Descriptor. *)
Module FeatureUnit.
Record t := mk {
  unit_id : Z;
  source_id : Z;
  nr_channels : Z;
  controls : list Z;
  unit_name : string
}.
Definition default : t :=
  {| unit_id := 0; source_id := 0; nr_channels := 0; controls := []; unit_name := EmptyString |}.
Definition with_unit_id (v : Z) (r : t) : t :=
    {| unit_id := v; source_id := source_id r; nr_channels := nr_channels r; controls := controls
     r; unit_name := unit_name r |}.
Definition with_source_id (v : Z) (r : t) : t :=
    {| unit_id := unit_id r; source_id := v; nr_channels := nr_channels r; controls := controls r;
     unit_name := unit_name r |}.
Definition with_nr_channels (v : Z) (r : t) : t :=
    {| unit_id := unit_id r; source_id := source_id r; nr_channels := v; controls := controls r;
     unit_name := unit_name r |}.
Definition with_controls (v : list Z) (r : t) : t :=
    {| unit_id := unit_id r; source_id := source_id r; nr_channels := nr_channels r; controls :=
     v; unit_name := unit_name r |}.
Definition with_unit_name (v : string) (r : t) : t :=
    {| unit_id := unit_id r; source_id := source_id r; nr_channels := nr_channels r; controls :=
     controls r; unit_name := v |}.
End FeatureUnit.

(* Mixer Unit Descriptor. *)
Module MixerUnit.
Record t := mk {
  unit_id : Z;
  nr_in_pins : Z;
  source_ids : list Z;
  nr_channels : Z;
  channel_config : Z;
  channel_names : string;
  controls : list Z;
  unit_name : string
}.
Definition default : t :=
    {| unit_id := 0; nr_in_pins := 0; source_ids := []; nr_channels := 0; channel_config := 0;
     channel_names := EmptyString; controls := []; unit_name := EmptyString |}.
Definition with_unit_id (v : Z) (r : t) : t :=
    {| unit_id := v; nr_in_pins := nr_in_pins r; source_ids := source_ids r; nr_channels :=
     nr_channels r; channel_config := channel_config r; channel_names := channel_names r; controls
     := controls r; unit_name := unit_name r |}.
Definition with_nr_in_pins (v : Z) (r : t) : t :=
    {| unit_id := unit_id r; nr_in_pins := v; source_ids := source_ids r; nr_channels :=
     nr_channels r; channel_config := channel_config r; channel_names := channel_names r; controls
     := controls r; unit_name := unit_name r |}.
Definition with_source_ids (v : list Z) (r : t) : t :=
    {| unit_id := unit_id r; nr_in_pins := nr_in_pins r; source_ids := v; nr_channels :=
     nr_channels r; channel_config := channel_config r; channel_names := channel_names r; controls
     := controls r; unit_name := unit_name r |}.
Definition with_nr_channels (v : Z) (r : t) : t :=
    {| unit_id := unit_id r; nr_in_pins := nr_in_pins r; source_ids := source_ids r; nr_channels
     := v; channel_config := channel_config r; channel_names := channel_names r; controls :=
     controls r; unit_name := unit_name r |}.
Definition with_channel_config (v : Z) (r : t) : t :=
    {| unit_id := unit_id r; nr_in_pins := nr_in_pins r; source_ids := source_ids r; nr_channels
     := nr_channels r; channel_config := v; channel_names := channel_names r; controls := controls
     r; unit_name := unit_name r |}.
Definition with_channel_names (v : string) (r : t) : t :=
    {| unit_id := unit_id r; nr_in_pins := nr_in_pins r; source_ids := source_ids r; nr_channels
     := nr_channels r; channel_config := channel_config r; channel_names := v; controls :=
     controls r; unit_name := unit_name r |}.
Definition with_controls (v : list Z) (r : t) : t :=
    {| unit_id := unit_id r; nr_in_pins := nr_in_pins r; source_ids := source_ids r; nr_channels
     := nr_channels r; channel_config := channel_config r; channel_names := channel_names r;
     controls := v; unit_name := unit_name r |}.
Definition with_unit_name (v : string) (r : t) : t :=
    {| unit_id := unit_id r; nr_in_pins := nr_in_pins r; source_ids := source_ids r; nr_channels
     := nr_channels r; channel_config := channel_config r; channel_names := channel_names r;
     controls := controls r; unit_name := v |}.
End MixerUnit.

(* Selector Unit Descriptor. *)
Module SelectorUnit.
Record t := mk {
  unit_id : Z;
  nr_in_pins : Z;
  source_ids : list Z;
  selector_name : string
}.
Definition default : t :=
  {| unit_id := 0; nr_in_pins := 0; source_ids := []; selector_name := EmptyString |}.
Definition with_unit_id (v : Z) (r : t) : t :=
    {| unit_id := v; nr_in_pins := nr_in_pins r; source_ids := source_ids r; selector_name :=
     selector_name r |}.
Definition with_nr_in_pins (v : Z) (r : t) : t :=
    {| unit_id := unit_id r; nr_in_pins := v; source_ids := source_ids r; selector_name :=
     selector_name r |}.
Definition with_source_ids (v : list Z) (r : t) : t :=
    {| unit_id := unit_id r; nr_in_pins := nr_in_pins r; source_ids := v; selector_name :=
     selector_name r |}.
Definition with_selector_name (v : string) (r : t) : t :=
    {| unit_id := unit_id r; nr_in_pins := nr_in_pins r; source_ids := source_ids r; selector_name
     := v |}.
End SelectorUnit.

(* Processing Unit Descriptor. *)
Module ProcessingUnit.
Record t := mk {
  unit_id : Z;
  process_type : Z;
  nr_in_pins : Z;
  source_ids : list Z;
  nr_channels : Z;
  channel_config : Z;
  channel_names : string;
  controls : Z;
  unit_name : string
}.
Definition default : t :=
    {| unit_id := 0; process_type := 0; nr_in_pins := 0; source_ids := []; nr_channels := 0;
     channel_config := 0; channel_names := EmptyString; controls := 0; unit_name := EmptyString
     |}.
Definition with_unit_id (v : Z) (r : t) : t :=
    {| unit_id := v; process_type := process_type r; nr_in_pins := nr_in_pins r; source_ids :=
     source_ids r; nr_channels := nr_channels r; channel_config := channel_config r; channel_names
     := channel_names r; controls := controls r; unit_name := unit_name r |}.
Definition with_process_type (v : Z) (r : t) : t :=
    {| unit_id := unit_id r; process_type := v; nr_in_pins := nr_in_pins r; source_ids :=
     source_ids r; nr_channels := nr_channels r; channel_config := channel_config r; channel_names
     := channel_names r; controls := controls r; unit_name := unit_name r |}.
Definition with_nr_in_pins (v : Z) (r : t) : t :=
    {| unit_id := unit_id r; process_type := process_type r; nr_in_pins := v; source_ids :=
     source_ids r; nr_channels := nr_channels r; channel_config := channel_config r; channel_names
     := channel_names r; controls := controls r; unit_name := unit_name r |}.
Definition with_source_ids (v : list Z) (r : t) : t :=
    {| unit_id := unit_id r; process_type := process_type r; nr_in_pins := nr_in_pins r;
     source_ids := v; nr_channels := nr_channels r; channel_config := channel_config r;
     channel_names := channel_names r; controls := controls r; unit_name := unit_name r |}.
Definition with_nr_channels (v : Z) (r : t) : t :=
    {| unit_id := unit_id r; process_type := process_type r; nr_in_pins := nr_in_pins r;
     source_ids := source_ids r; nr_channels := v; channel_config := channel_config r;
     channel_names := channel_names r; controls := controls r; unit_name := unit_name r |}.
Definition with_channel_config (v : Z) (r : t) : t :=
    {| unit_id := unit_id r; process_type := process_type r; nr_in_pins := nr_in_pins r;
     source_ids := source_ids r; nr_channels := nr_channels r; channel_config := v; channel_names
     := channel_names r; controls := controls r; unit_name := unit_name r |}.
Definition with_channel_names (v : string) (r : t) : t :=
    {| unit_id := unit_id r; process_type := process_type r; nr_in_pins := nr_in_pins r;
     source_ids := source_ids r; nr_channels := nr_channels r; channel_config := channel_config r;
     channel_names := v; controls := controls r; unit_name := unit_name r |}.
Definition with_controls (v : Z) (r : t) : t :=
    {| unit_id := unit_id r; process_type := process_type r; nr_in_pins := nr_in_pins r;
     source_ids := source_ids r; nr_channels := nr_channels r; channel_config := channel_config r;
     channel_names := channel_names r; controls := v; unit_name := unit_name r |}.
Definition with_unit_name (v : string) (r : t) : t :=
    {| unit_id := unit_id r; process_type := process_type r; nr_in_pins := nr_in_pins r;
     source_ids := source_ids r; nr_channels := nr_channels r; channel_config := channel_config r;
     channel_names := channel_names r; controls := controls r; unit_name := v |}.
End ProcessingUnit.

(* Extension Unit Descriptor. *)
Module ExtensionUnit.
Record t := mk {
  unit_id : Z;
  extension_code : Z;
  nr_in_pins : Z;
  source_ids : list Z;
  nr_channels : Z;
  channel_config : Z;
  channel_names : string;
  controls : Z;
  unit_name : string
}.
Definition default : t :=
    {| unit_id := 0; extension_code := 0; nr_in_pins := 0; source_ids := []; nr_channels := 0;
     channel_config := 0; channel_names := EmptyString; controls := 0; unit_name := EmptyString
     |}.
Definition with_unit_id (v : Z) (r : t) : t :=
    {| unit_id := v; extension_code := extension_code r; nr_in_pins := nr_in_pins r; source_ids :=
     source_ids r; nr_channels := nr_channels r; channel_config := channel_config r; channel_names
     := channel_names r; controls := controls r; unit_name := unit_name r |}.
Definition with_extension_code (v : Z) (r : t) : t :=
    {| unit_id := unit_id r; extension_code := v; nr_in_pins := nr_in_pins r; source_ids :=
     source_ids r; nr_channels := nr_channels r; channel_config := channel_config r; channel_names
     := channel_names r; controls := controls r; unit_name := unit_name r |}.
Definition with_nr_in_pins (v : Z) (r : t) : t :=
    {| unit_id := unit_id r; extension_code := extension_code r; nr_in_pins := v; source_ids :=
     source_ids r; nr_channels := nr_channels r; channel_config := channel_config r; channel_names
     := channel_names r; controls := controls r; unit_name := unit_name r |}.
Definition with_source_ids (v : list Z) (r : t) : t :=
    {| unit_id := unit_id r; extension_code := extension_code r; nr_in_pins := nr_in_pins r;
     source_ids := v; nr_channels := nr_channels r; channel_config := channel_config r;
     channel_names := channel_names r; controls := controls r; unit_name := unit_name r |}.
Definition with_nr_channels (v : Z) (r : t) : t :=
    {| unit_id := unit_id r; extension_code := extension_code r; nr_in_pins := nr_in_pins r;
     source_ids := source_ids r; nr_channels := v; channel_config := channel_config r;
     channel_names := channel_names r; controls := controls r; unit_name := unit_name r |}.
Definition with_channel_config (v : Z) (r : t) : t :=
    {| unit_id := unit_id r; extension_code := extension_code r; nr_in_pins := nr_in_pins r;
     source_ids := source_ids r; nr_channels := nr_channels r; channel_config := v; channel_names
     := channel_names r; controls := controls r; unit_name := unit_name r |}.
Definition with_channel_names (v : string) (r : t) : t :=
    {| unit_id := unit_id r; extension_code := extension_code r; nr_in_pins := nr_in_pins r;
     source_ids := source_ids r; nr_channels := nr_channels r; channel_config := channel_config r;
     channel_names := v; controls := controls r; unit_name := unit_name r |}.
Definition with_controls (v : Z) (r : t) : t :=
    {| unit_id := unit_id r; extension_code := extension_code r; nr_in_pins := nr_in_pins r;
     source_ids := source_ids r; nr_channels := nr_channels r; channel_config := channel_config r;
     channel_names := channel_names r; controls := v; unit_name := unit_name r |}.
Definition with_unit_name (v : string) (r : t) : t :=
    {| unit_id := unit_id r; extension_code := extension_code r; nr_in_pins := nr_in_pins r;
     source_ids := source_ids r; nr_channels := nr_channels r; channel_config := channel_config r;
     channel_names := channel_names r; controls := controls r; unit_name := v |}.
End ExtensionUnit.

(* Clock Source Descriptor (UAC 2.0). *)
Module ClockSource.
Record t := mk {
  clock_id : Z;
  attributes : Z;
  controls : Z;
  assoc_terminal : Z;
  clock_source_name : string
}.
Definition default : t :=
    {| clock_id := 0; attributes := 0; controls := 0; assoc_terminal := 0; clock_source_name :=
     EmptyString |}.
Definition with_clock_id (v : Z) (r : t) : t :=
    {| clock_id := v; attributes := attributes r; controls := controls r; assoc_terminal :=
     assoc_terminal r; clock_source_name := clock_source_name r |}.
Definition with_attributes (v : Z) (r : t) : t :=
    {| clock_id := clock_id r; attributes := v; controls := controls r; assoc_terminal :=
     assoc_terminal r; clock_source_name := clock_source_name r |}.
Definition with_controls (v : Z) (r : t) : t :=
    {| clock_id := clock_id r; attributes := attributes r; controls := v; assoc_terminal :=
     assoc_terminal r; clock_source_name := clock_source_name r |}.
Definition with_assoc_terminal (v : Z) (r : t) : t :=
    {| clock_id := clock_id r; attributes := attributes r; controls := controls r; assoc_terminal
     := v; clock_source_name := clock_source_name r |}.
Definition with_clock_source_name (v : string) (r : t) : t :=
    {| clock_id := clock_id r; attributes := attributes r; controls := controls r; assoc_terminal
     := assoc_terminal r; clock_source_name := v |}.
End ClockSource.

(* Clock Selector Descriptor (UAC 2.0). *)
Module ClockSelector.
Record t := mk {
  clock_id : Z;
  nr_in_pins : Z;
  clock_pin_ids : list Z;
  controls : Z;
  clock_selector_name : string
}.
Definition default : t :=
    {| clock_id := 0; nr_in_pins := 0; clock_pin_ids := []; controls := 0; clock_selector_name :=
     EmptyString |}.
Definition with_clock_id (v : Z) (r : t) : t :=
    {| clock_id := v; nr_in_pins := nr_in_pins r; clock_pin_ids := clock_pin_ids r; controls :=
     controls r; clock_selector_name := clock_selector_name r |}.
Definition with_nr_in_pins (v : Z) (r : t) : t :=
    {| clock_id := clock_id r; nr_in_pins := v; clock_pin_ids := clock_pin_ids r; controls :=
     controls r; clock_selector_name := clock_selector_name r |}.
Definition with_clock_pin_ids (v : list Z) (r : t) : t :=
    {| clock_id := clock_id r; nr_in_pins := nr_in_pins r; clock_pin_ids := v; controls :=
     controls r; clock_selector_name := clock_selector_name r |}.
Definition with_controls (v : Z) (r : t) : t :=
    {| clock_id := clock_id r; nr_in_pins := nr_in_pins r; clock_pin_ids := clock_pin_ids r;
     controls := v; clock_selector_name := clock_selector_name r |}.
Definition with_clock_selector_name (v : string) (r : t) : t :=
    {| clock_id := clock_id r; nr_in_pins := nr_in_pins r; clock_pin_ids := clock_pin_ids r;
     controls := controls r; clock_selector_name := v |}.
End ClockSelector.

(* Clock Multiplier Descriptor (UAC 2.0). *)
Module ClockMultiplier.
Record t := mk {
  clock_id : Z;
  clock_source_id : Z;
  controls : Z;
  clock_multiplier_name : string
}.
Definition default : t :=
  {| clock_id := 0; clock_source_id := 0; controls := 0; clock_multiplier_name := EmptyString |}.
Definition with_clock_id (v : Z) (r : t) : t :=
    {| clock_id := v; clock_source_id := clock_source_id r; controls := controls r;
     clock_multiplier_name := clock_multiplier_name r |}.
Definition with_clock_source_id (v : Z) (r : t) : t :=
    {| clock_id := clock_id r; clock_source_id := v; controls := controls r; clock_multiplier_name
     := clock_multiplier_name r |}.
Definition with_controls (v : Z) (r : t) : t :=
    {| clock_id := clock_id r; clock_source_id := clock_source_id r; controls := v;
     clock_multiplier_name := clock_multiplier_name r |}.
Definition with_clock_multiplier_name (v : string) (r : t) : t :=
    {| clock_id := clock_id r; clock_source_id := clock_source_id r; controls := controls r;
     clock_multiplier_name := v |}.
End ClockMultiplier.

(* Format Type Descriptor. *)
Module FormatTypeDescriptor.
Record t := mk {
  format_type : Z;
  nr_channels : Z;
  subframe_size : Z;
  bit_resolution : Z;
  sample_frequencies : list Z;
  freq_min : Z;
  freq_max : Z
}.
Definition default : t :=
    {| format_type := 0; nr_channels := 0; subframe_size := 0; bit_resolution := 0;
     sample_frequencies := []; freq_min := 0; freq_max := 0 |}.
Definition with_format_type (v : Z) (r : t) : t :=
    {| format_type := v; nr_channels := nr_channels r; subframe_size := subframe_size r;
     bit_resolution := bit_resolution r; sample_frequencies := sample_frequencies r; freq_min :=
     freq_min r; freq_max := freq_max r |}.
Definition with_nr_channels (v : Z) (r : t) : t :=
    {| format_type := format_type r; nr_channels := v; subframe_size := subframe_size r;
     bit_resolution := bit_resolution r; sample_frequencies := sample_frequencies r; freq_min :=
     freq_min r; freq_max := freq_max r |}.
Definition with_subframe_size (v : Z) (r : t) : t :=
    {| format_type := format_type r; nr_channels := nr_channels r; subframe_size := v;
     bit_resolution := bit_resolution r; sample_frequencies := sample_frequencies r; freq_min :=
     freq_min r; freq_max := freq_max r |}.
Definition with_bit_resolution (v : Z) (r : t) : t :=
    {| format_type := format_type r; nr_channels := nr_channels r; subframe_size := subframe_size
     r; bit_resolution := v; sample_frequencies := sample_frequencies r; freq_min := freq_min r;
     freq_max := freq_max r |}.
Definition with_sample_frequencies (v : list Z) (r : t) : t :=
    {| format_type := format_type r; nr_channels := nr_channels r; subframe_size := subframe_size
     r; bit_resolution := bit_resolution r; sample_frequencies := v; freq_min := freq_min r;
     freq_max := freq_max r |}.
Definition with_freq_min (v : Z) (r : t) : t :=
    {| format_type := format_type r; nr_channels := nr_channels r; subframe_size := subframe_size
     r; bit_resolution := bit_resolution r; sample_frequencies := sample_frequencies r; freq_min
     := v; freq_max := freq_max r |}.
Definition with_freq_max (v : Z) (r : t) : t :=
    {| format_type := format_type r; nr_channels := nr_channels r; subframe_size := subframe_size
     r; bit_resolution := bit_resolution r; sample_frequencies := sample_frequencies r; freq_min
     := freq_min r; freq_max := v |}.
End FormatTypeDescriptor.

(* Audio Streaming Interface Descriptor; [_nr_channels] is the attribute that _parse_as_general attaches dynamically (None = attribute not set). *)
Module AudioStreamingInterface.
Record t := mk {
  interface_number : Z;
  alternate_setting : Z;
  terminal_link : Z;
  delay : Z;
  format_tag : Z;
  controls : Z;
  clock_source_id : Z;
  bm_formats : Z;
  format : option FormatTypeDescriptor.t;
  endpoint : option EndpointDescriptor.t;
  _nr_channels : option Z
}.
Definition default : t :=
    {| interface_number := 0; alternate_setting := 0; terminal_link := 0; delay := 0; format_tag
     := 0; controls := 0; clock_source_id := 0; bm_formats := 0; format := None; endpoint := None;
     _nr_channels := None |}.
Definition with_interface_number (v : Z) (r : t) : t :=
    {| interface_number := v; alternate_setting := alternate_setting r; terminal_link :=
     terminal_link r; delay := delay r; format_tag := format_tag r; controls := controls r;
     clock_source_id := clock_source_id r; bm_formats := bm_formats r; format := format r;
     endpoint := endpoint r; _nr_channels := _nr_channels r |}.
Definition with_alternate_setting (v : Z) (r : t) : t :=
    {| interface_number := interface_number r; alternate_setting := v; terminal_link :=
     terminal_link r; delay := delay r; format_tag := format_tag r; controls := controls r;
     clock_source_id := clock_source_id r; bm_formats := bm_formats r; format := format r;
     endpoint := endpoint r; _nr_channels := _nr_channels r |}.
Definition with_terminal_link (v : Z) (r : t) : t :=
    {| interface_number := interface_number r; alternate_setting := alternate_setting r;
     terminal_link := v; delay := delay r; format_tag := format_tag r; controls := controls r;
     clock_source_id := clock_source_id r; bm_formats := bm_formats r; format := format r;
     endpoint := endpoint r; _nr_channels := _nr_channels r |}.
Definition with_delay (v : Z) (r : t) : t :=
    {| interface_number := interface_number r; alternate_setting := alternate_setting r;
     terminal_link := terminal_link r; delay := v; format_tag := format_tag r; controls :=
     controls r; clock_source_id := clock_source_id r; bm_formats := bm_formats r; format :=
     format r; endpoint := endpoint r; _nr_channels := _nr_channels r |}.
Definition with_format_tag (v : Z) (r : t) : t :=
    {| interface_number := interface_number r; alternate_setting := alternate_setting r;
     terminal_link := terminal_link r; delay := delay r; format_tag := v; controls := controls r;
     clock_source_id := clock_source_id r; bm_formats := bm_formats r; format := format r;
     endpoint := endpoint r; _nr_channels := _nr_channels r |}.
Definition with_controls (v : Z) (r : t) : t :=
    {| interface_number := interface_number r; alternate_setting := alternate_setting r;
     terminal_link := terminal_link r; delay := delay r; format_tag := format_tag r; controls :=
     v; clock_source_id := clock_source_id r; bm_formats := bm_formats r; format := format r;
     endpoint := endpoint r; _nr_channels := _nr_channels r |}.
Definition with_clock_source_id (v : Z) (r : t) : t :=
    {| interface_number := interface_number r; alternate_setting := alternate_setting r;
     terminal_link := terminal_link r; delay := delay r; format_tag := format_tag r; controls :=
     controls r; clock_source_id := v; bm_formats := bm_formats r; format := format r; endpoint :=
     endpoint r; _nr_channels := _nr_channels r |}.
Definition with_bm_formats (v : Z) (r : t) : t :=
    {| interface_number := interface_number r; alternate_setting := alternate_setting r;
     terminal_link := terminal_link r; delay := delay r; format_tag := format_tag r; controls :=
     controls r; clock_source_id := clock_source_id r; bm_formats := v; format := format r;
     endpoint := endpoint r; _nr_channels := _nr_channels r |}.
Definition with_format (v : option FormatTypeDescriptor.t) (r : t) : t :=
    {| interface_number := interface_number r; alternate_setting := alternate_setting r;
     terminal_link := terminal_link r; delay := delay r; format_tag := format_tag r; controls :=
     controls r; clock_source_id := clock_source_id r; bm_formats := bm_formats r; format := v;
     endpoint := endpoint r; _nr_channels := _nr_channels r |}.
Definition with_endpoint (v : option EndpointDescriptor.t) (r : t) : t :=
    {| interface_number := interface_number r; alternate_setting := alternate_setting r;
     terminal_link := terminal_link r; delay := delay r; format_tag := format_tag r; controls :=
     controls r; clock_source_id := clock_source_id r; bm_formats := bm_formats r; format :=
     format r; endpoint := v; _nr_channels := _nr_channels r |}.
Definition with_nr_channels (v : option Z) (r : t) : t :=
    {| interface_number := interface_number r; alternate_setting := alternate_setting r;
     terminal_link := terminal_link r; delay := delay r; format_tag := format_tag r; controls :=
     controls r; clock_source_id := clock_source_id r; bm_formats := bm_formats r; format :=
     format r; endpoint := endpoint r; _nr_channels := v |}.
End AudioStreamingInterface.

(* Grouped alternate setting information for analysis. *)
Module AlternateSetting.
Record t := mk {
  interface_number : Z;
  alternate_setting : Z;
  streaming_interface : option AudioStreamingInterface.t;
  format : option FormatTypeDescriptor.t;
  endpoint : option EndpointDescriptor.t
}.
Definition default : t :=
    {| interface_number := 0; alternate_setting := 0; streaming_interface := None; format := None;
     endpoint := None |}.
Definition with_interface_number (v : Z) (r : t) : t :=
    {| interface_number := v; alternate_setting := alternate_setting r; streaming_interface :=
     streaming_interface r; format := format r; endpoint := endpoint r |}.
Definition with_alternate_setting (v : Z) (r : t) : t :=
    {| interface_number := interface_number r; alternate_setting := v; streaming_interface :=
     streaming_interface r; format := format r; endpoint := endpoint r |}.
Definition with_streaming_interface (v : option AudioStreamingInterface.t) (r : t) : t :=
    {| interface_number := interface_number r; alternate_setting := alternate_setting r;
     streaming_interface := v; format := format r; endpoint := endpoint r |}.
Definition with_format (v : option FormatTypeDescriptor.t) (r : t) : t :=
    {| interface_number := interface_number r; alternate_setting := alternate_setting r;
     streaming_interface := streaming_interface r; format := v; endpoint := endpoint r |}.
Definition with_endpoint (v : option EndpointDescriptor.t) (r : t) : t :=
    {| interface_number := interface_number r; alternate_setting := alternate_setting r;
     streaming_interface := streaming_interface r; format := format r; endpoint := v |}.
End AlternateSetting.

(* Complete Audio Control interface with all entities. *)
Module AudioControlInterface.
Record t := mk {
  header : option AudioControlHeader.t;
  input_terminals : list InputTerminal.t;
  output_terminals : list OutputTerminal.t;
  feature_units : list FeatureUnit.t;
  mixer_units : list MixerUnit.t;
  selector_units : list SelectorUnit.t;
  processing_units : list ProcessingUnit.t;
  extension_units : list ExtensionUnit.t;
  clock_sources : list ClockSource.t;
  clock_selectors : list ClockSelector.t;
  clock_multipliers : list ClockMultiplier.t
}.
Definition default : t :=
    {| header := None; input_terminals := []; output_terminals := []; feature_units := [];
     mixer_units := []; selector_units := []; processing_units := []; extension_units := [];
     clock_sources := []; clock_selectors := []; clock_multipliers := [] |}.
Definition with_header (v : option AudioControlHeader.t) (r : t) : t :=
    {| header := v; input_terminals := input_terminals r; output_terminals := output_terminals r;
     feature_units := feature_units r; mixer_units := mixer_units r; selector_units :=
     selector_units r; processing_units := processing_units r; extension_units := extension_units
     r; clock_sources := clock_sources r; clock_selectors := clock_selectors r; clock_multipliers
     := clock_multipliers r |}.
Definition with_input_terminals (v : list InputTerminal.t) (r : t) : t :=
    {| header := header r; input_terminals := v; output_terminals := output_terminals r;
     feature_units := feature_units r; mixer_units := mixer_units r; selector_units :=
     selector_units r; processing_units := processing_units r; extension_units := extension_units
     r; clock_sources := clock_sources r; clock_selectors := clock_selectors r; clock_multipliers
     := clock_multipliers r |}.
Definition with_output_terminals (v : list OutputTerminal.t) (r : t) : t :=
    {| header := header r; input_terminals := input_terminals r; output_terminals := v;
     feature_units := feature_units r; mixer_units := mixer_units r; selector_units :=
     selector_units r; processing_units := processing_units r; extension_units := extension_units
     r; clock_sources := clock_sources r; clock_selectors := clock_selectors r; clock_multipliers
     := clock_multipliers r |}.
Definition with_feature_units (v : list FeatureUnit.t) (r : t) : t :=
    {| header := header r; input_terminals := input_terminals r; output_terminals :=
     output_terminals r; feature_units := v; mixer_units := mixer_units r; selector_units :=
     selector_units r; processing_units := processing_units r; extension_units := extension_units
     r; clock_sources := clock_sources r; clock_selectors := clock_selectors r; clock_multipliers
     := clock_multipliers r |}.
Definition with_mixer_units (v : list MixerUnit.t) (r : t) : t :=
    {| header := header r; input_terminals := input_terminals r; output_terminals :=
     output_terminals r; feature_units := feature_units r; mixer_units := v; selector_units :=
     selector_units r; processing_units := processing_units r; extension_units := extension_units
     r; clock_sources := clock_sources r; clock_selectors := clock_selectors r; clock_multipliers
     := clock_multipliers r |}.
Definition with_selector_units (v : list SelectorUnit.t) (r : t) : t :=
    {| header := header r; input_terminals := input_terminals r; output_terminals :=
     output_terminals r; feature_units := feature_units r; mixer_units := mixer_units r;
     selector_units := v; processing_units := processing_units r; extension_units :=
     extension_units r; clock_sources := clock_sources r; clock_selectors := clock_selectors r;
     clock_multipliers := clock_multipliers r |}.
Definition with_processing_units (v : list ProcessingUnit.t) (r : t) : t :=
    {| header := header r; input_terminals := input_terminals r; output_terminals :=
     output_terminals r; feature_units := feature_units r; mixer_units := mixer_units r;
     selector_units := selector_units r; processing_units := v; extension_units := extension_units
     r; clock_sources := clock_sources r; clock_selectors := clock_selectors r; clock_multipliers
     := clock_multipliers r |}.
Definition with_extension_units (v : list ExtensionUnit.t) (r : t) : t :=
    {| header := header r; input_terminals := input_terminals r; output_terminals :=
     output_terminals r; feature_units := feature_units r; mixer_units := mixer_units r;
     selector_units := selector_units r; processing_units := processing_units r; extension_units
     := v; clock_sources := clock_sources r; clock_selectors := clock_selectors r;
     clock_multipliers := clock_multipliers r |}.
Definition with_clock_sources (v : list ClockSource.t) (r : t) : t :=
    {| header := header r; input_terminals := input_terminals r; output_terminals :=
     output_terminals r; feature_units := feature_units r; mixer_units := mixer_units r;
     selector_units := selector_units r; processing_units := processing_units r; extension_units
     := extension_units r; clock_sources := v; clock_selectors := clock_selectors r;
     clock_multipliers := clock_multipliers r |}.
Definition with_clock_selectors (v : list ClockSelector.t) (r : t) : t :=
    {| header := header r; input_terminals := input_terminals r; output_terminals :=
     output_terminals r; feature_units := feature_units r; mixer_units := mixer_units r;
     selector_units := selector_units r; processing_units := processing_units r; extension_units
     := extension_units r; clock_sources := clock_sources r; clock_selectors := v;
     clock_multipliers := clock_multipliers r |}.
Definition with_clock_multipliers (v : list ClockMultiplier.t) (r : t) : t :=
    {| header := header r; input_terminals := input_terminals r; output_terminals :=
     output_terminals r; feature_units := feature_units r; mixer_units := mixer_units r;
     selector_units := selector_units r; processing_units := processing_units r; extension_units
     := extension_units r; clock_sources := clock_sources r; clock_selectors := clock_selectors r;
     clock_multipliers := v |}.
End AudioControlInterface.

(* Complete USB Audio Device model. *)
Module USBAudioDevice.
Record t := mk {
  device : DeviceDescriptor.t;
  configuration : option ConfigurationDescriptor.t;
  audio_control : option AudioControlInterface.t;
  streaming_interfaces : list AudioStreamingInterface.t;
  alternate_settings : list AlternateSetting.t
}.
Definition default : t :=
    {| device := DeviceDescriptor.default; configuration := None; audio_control := None;
     streaming_interfaces := []; alternate_settings := [] |}.
Definition with_device (v : DeviceDescriptor.t) (r : t) : t :=
    {| device := v; configuration := configuration r; audio_control := audio_control r;
     streaming_interfaces := streaming_interfaces r; alternate_settings := alternate_settings r
     |}.
Definition with_configuration (v : option ConfigurationDescriptor.t) (r : t) : t :=
    {| device := device r; configuration := v; audio_control := audio_control r;
     streaming_interfaces := streaming_interfaces r; alternate_settings := alternate_settings r
     |}.
Definition with_audio_control (v : option AudioControlInterface.t) (r : t) : t :=
    {| device := device r; configuration := configuration r; audio_control := v;
     streaming_interfaces := streaming_interfaces r; alternate_settings := alternate_settings r
     |}.
Definition with_streaming_interfaces (v : list AudioStreamingInterface.t) (r : t) : t :=
    {| device := device r; configuration := configuration r; audio_control := audio_control r;
     streaming_interfaces := v; alternate_settings := alternate_settings r |}.
Definition with_alternate_settings (v : list AlternateSetting.t) (r : t) : t :=
    {| device := device r; configuration := configuration r; audio_control := audio_control r;
     streaming_interfaces := streaming_interfaces r; alternate_settings := v |}.
End USBAudioDevice.
(** ** Python built-ins used by the model *)

(* str(n) for an int, as used by f-strings: f"{n}". *)
Definition str_of_int (n : Z) : string :=
  DecimalString.NilZero.string_of_int (Z.to_int n).

(* The upper-case form of a hexadecimal digit: a..f become A..F. *)
Definition upper_hex_digit (c : ascii) : ascii :=
  let n := nat_of_ascii c in
  if ((97 <=? n) && (n <=? 102))%nat then ascii_of_nat (n - 32) else c.

Fixpoint str_map (f : ascii -> ascii) (s : string) : string :=
  match s with
  | String c rest => String (f c) (str_map f rest)
  | EmptyString => EmptyString
  end.

Fixpoint zeros (n : nat) : string :=
  match n with
  | O => EmptyString
  | S n' => String "0" (zeros n')
  end.

(* format(n, "0<width>X"): upper-case hexadecimal, zero-padded to [width]
   characters, the sign of a negative number counting in the width. *)
Definition format_0X (width : nat) (n : Z) : string :=
  let digits :=
    str_map upper_hex_digit
      (HexadecimalString.NilZero.string_of_uint (N.to_hex_uint (Z.abs_N n))) in
  if n <? 0
  then String "-" (zeros (width - 1 - String.length digits) ++ digits)
  else (zeros (width - String.length digits) ++ digits)%string.

(* [a or b] on strings: the empty string is falsy. *)
Definition str_or (a b : string) : string :=
  match a with
  | EmptyString => b
  | _ => a
  end.

(* [for x in xs: body], the body updating one accumulated state. *)
Definition for_each {A S : Type} (xs : list A) (body : S -> A -> S) (s : S) : S :=
  foldl body s xs.

(* [k in d] for a dict. *)
Definition dict_contains {V : Type} (d : gmap Z V) (k : Z) : bool :=
  bool_decide (is_Some (d !! k)).

(** ** model.py: terminal type names and entity properties *)

Definition TERMINAL_TYPE_NAMES : list (Z * string) :=
  [ (0x0100, "USB Undefined"); (0x0101, "USB Streaming"); (0x01FF, "USB Vendor Specific");
    (0x0200, "Input Undefined"); (0x0201, "Microphone"); (0x0202, "Desktop Microphone");
    (0x0203, "Personal Microphone"); (0x0204, "Omni-directional Microphone");
    (0x0205, "Microphone Array"); (0x0206, "Processing Microphone Array");
    (0x0300, "Output Undefined"); (0x0301, "Speaker"); (0x0302, "Headphones");
    (0x0303, "Head Mounted Display Audio"); (0x0304, "Desktop Speaker");
    (0x0305, "Room Speaker"); (0x0306, "Communication Speaker");
    (0x0307, "Low Frequency Effects Speaker");
    (0x0400, "Bi-directional Undefined"); (0x0401, "Handset"); (0x0402, "Headset");
    (0x0403, "Speakerphone (no echo reduction)"); (0x0404, "Echo-suppressing Speakerphone");
    (0x0405, "Echo-canceling Speakerphone");
    (0x0500, "Telephony Undefined"); (0x0501, "Phone Line"); (0x0502, "Telephone");
    (0x0503, "Down Line Phone");
    (0x0600, "External Undefined"); (0x0601, "Analog Connector");
    (0x0602, "Digital Audio Interface"); (0x0603, "Line Connector");
    (0x0604, "Legacy Audio Connector"); (0x0605, "S/PDIF Interface");
    (0x0606, "1394 DA Stream"); (0x0607, "1394 DV Stream");
    (0x0700, "Embedded Undefined"); (0x0701, "Level Calibration Noise Source");
    (0x0702, "Equalization Noise"); (0x0703, "CD Player"); (0x0704, "DAT"); (0x0705, "DCC");
    (0x0706, "MiniDisk"); (0x0707, "Analog Tape"); (0x0708, "Phonograph");
    (0x0709, "VCR Audio"); (0x070A, "Video Disc Audio"); (0x070B, "DVD Audio");
    (0x070C, "TV Tuner Audio"); (0x070D, "Satellite Receiver Audio");
    (0x070E, "Cable Tuner Audio"); (0x070F, "DSS Audio"); (0x0710, "Radio Receiver");
    (0x0711, "Radio Transmitter"); (0x0712, "Multi-track Recorder"); (0x0713, "Synthesizer");
    (0x0714, "Piano"); (0x0715, "Guitar"); (0x0716, "Drums/Rhythm");
    (0x0717, "Other Musical Instrument") ]%string.

(* dict.get(key, default) on a literal table. *)
Fixpoint table_get (table : list (Z * string)) (key : Z) (default : string) : string :=
  match table with
  | [] => default
  | (k, v) :: rest => if k =? key then v else table_get rest key default
  end.

Fixpoint table_mem (table : list (Z * string)) (key : Z) : bool :=
  match table with
  | [] => false
  | (k, _) :: rest => (k =? key) || table_mem rest key
  end.

Definition get_terminal_type_name (type_code : Z) : string :=
  if table_mem TERMINAL_TYPE_NAMES type_code
  then table_get TERMINAL_TYPE_NAMES type_code EmptyString
  else
    let category := Z.land (Z.shiftr type_code 8) 0xFF in
    let categories :=
      [ (0x01, "USB"); (0x02, "Input"); (0x03, "Output"); (0x04, "Bi-directional");
        (0x05, "Telephony"); (0x06, "External"); (0x07, "Embedded") ]%string in
    let cat_name := table_get categories category "Unknown"%string in
    (cat_name ++ " (0x" ++ format_0X 4 type_code ++ ")")%string.

(* InputTerminal.is_usb_streaming / OutputTerminal.is_usb_streaming *)
Definition InputTerminal_is_usb_streaming (t : InputTerminal.t) : bool :=
  InputTerminal.terminal_type t =? 0x0101.

Definition OutputTerminal_is_usb_streaming (t : OutputTerminal.t) : bool :=
  OutputTerminal.terminal_type t =? 0x0101.

(* FeatureUnit.get_control_names *)
Definition FeatureUnit_get_control_names (u : FeatureUnit.t) : list string :=
  match FeatureUnit.controls u with
  | [] => []
  | master :: _ =>
      let bit (mask : Z) (label : string) : list string :=
        if Z.land master mask =? 0 then [] else [label] in
      bit 0x01 "Mute"%string ++ bit 0x02 "Volume"%string ++ bit 0x04 "Bass"%string
      ++ bit 0x08 "Mid"%string ++ bit 0x10 "Treble"%string ++ bit 0x20 "Graphic EQ"%string
      ++ bit 0x40 "AGC"%string ++ bit 0x80 "Delay"%string ++ bit 0x100 "Bass Boost"%string
      ++ bit 0x200 "Loudness"%string
  end.

(* ClockSource.clock_type *)
Definition ClockSource_clock_type (c : ClockSource.t) : string :=
  table_get
    [ (0, "External"); (1, "Internal Fixed"); (2, "Internal Variable");
      (3, "Internal Programmable") ]%string
    (Z.land (ClockSource.attributes c) 0x03) "Unknown"%string.

(* USBAudioDevice.uac_version *)
Definition USBAudioDevice_uac_version (d : USBAudioDevice.t) : UACVersion :=
  match USBAudioDevice.audio_control d with
  | Some ac =>
      match AudioControlInterface.header ac with
      | Some h => AudioControlHeader.uac_version h
      | None => UNKNOWN
      end
  | None => UNKNOWN
  end.

(** ** topology.py *)

Module Topology.

Inductive NodeType :=
  | INPUT_TERMINAL | OUTPUT_TERMINAL | FEATURE_UNIT | MIXER_UNIT | SELECTOR_UNIT
  | PROCESSING_UNIT | EXTENSION_UNIT | CLOCK_SOURCE | CLOCK_SELECTOR | CLOCK_MULTIPLIER.

#[global] Instance NodeType_eq_dec : EqDecision NodeType.
Proof. solve_decision. Defined.

(* Union[InputTerminal, OutputTerminal, AudioUnit, ClockEntity] *)
Inductive Entity :=
  | EInputTerminal (e : InputTerminal.t)
  | EOutputTerminal (e : OutputTerminal.t)
  | EFeatureUnit (e : FeatureUnit.t)
  | EMixerUnit (e : MixerUnit.t)
  | ESelectorUnit (e : SelectorUnit.t)
  | EProcessingUnit (e : ProcessingUnit.t)
  | EExtensionUnit (e : ExtensionUnit.t)
  | EClockSource (e : ClockSource.t)
  | EClockSelector (e : ClockSelector.t)
  | EClockMultiplier (e : ClockMultiplier.t).

Record TopologyNode := {
  id : Z;
  node_type : NodeType;
  name : string;
  description : string;
  channels : Z;
  entity : option Entity;
  is_usb_streaming : bool;
  controls : list string
}.

Record TopologyEdge := {
  source_id : Z;
  target_id : Z;
  edge_channels : Z;
  is_clock : bool
}.

Record SignalPath := {
  path_nodes : list TopologyNode;
  path_description : string
}.

Record TopologyGraph := {
  nodes : gmap Z TopologyNode;
  edges : list TopologyEdge;
  signal_paths : list SignalPath;
  input_terminals : list TopologyNode;
  output_terminals : list TopologyNode;
  units : list TopologyNode;
  clock_entities : list TopologyNode;
  usb_input_terminals : list TopologyNode;
  usb_output_terminals : list TopologyNode
}.

(* TopologyGraph() *)
Definition empty_graph : TopologyGraph :=
  {| nodes := ∅; edges := []; signal_paths := []; input_terminals := [];
     output_terminals := []; units := []; clock_entities := [];
     usb_input_terminals := []; usb_output_terminals := [] |}.

(* graph.nodes[key] = node, followed by the appends to the category lists
   that the _add_* functions make: each takes the lists to extend as
   functions, the identity where the source leaves a list alone. *)
Definition add_node (key : Z) (node : TopologyNode)
    (its ots us cs uits uots : list TopologyNode -> list TopologyNode)
    (graph : TopologyGraph) : TopologyGraph :=
  {| nodes := <[key := node]> (nodes graph);
     edges := edges graph;
     signal_paths := signal_paths graph;
     input_terminals := its (input_terminals graph);
     output_terminals := ots (output_terminals graph);
     units := us (units graph);
     clock_entities := cs (clock_entities graph);
     usb_input_terminals := uits (usb_input_terminals graph);
     usb_output_terminals := uots (usb_output_terminals graph) |}.

(* lst.append(x) *)
Definition list_append {A : Type} (x : A) (l : list A) : list A := l ++ [x].

Definition keep {A : Type} (l : list A) : list A := l.

(* graph.edges = es *)
Definition with_edges (es : list TopologyEdge) (graph : TopologyGraph) : TopologyGraph :=
  {| nodes := nodes graph;
     edges := es;
     signal_paths := signal_paths graph;
     input_terminals := input_terminals graph;
     output_terminals := output_terminals graph;
     units := units graph;
     clock_entities := clock_entities graph;
     usb_input_terminals := usb_input_terminals graph;
     usb_output_terminals := usb_output_terminals graph |}.

(* graph.edges.append(edge) *)
Definition append_edge (edge : TopologyEdge) (graph : TopologyGraph) : TopologyGraph :=
  with_edges (list_append edge (edges graph)) graph.

(* graph.signal_paths = paths *)
Definition with_signal_paths (paths : list SignalPath) (graph : TopologyGraph)
    : TopologyGraph :=
  {| nodes := nodes graph;
     edges := edges graph;
     signal_paths := paths;
     input_terminals := input_terminals graph;
     output_terminals := output_terminals graph;
     units := units graph;
     clock_entities := clock_entities graph;
     usb_input_terminals := usb_input_terminals graph;
     usb_output_terminals := usb_output_terminals graph |}.

(* TopologyGraph.get_node *)
Definition get_node (graph : TopologyGraph) (node_id : Z) : option TopologyNode :=
  nodes graph !! node_id.

(* TopologyGraph.get_sources *)
Definition get_sources (graph : TopologyGraph) (node_id : Z) : list TopologyNode :=
  for_each (edges graph)
    (fun sources edge =>
       if (target_id edge =? node_id) && negb (is_clock edge)
       then match nodes graph !! source_id edge with
            | Some n => list_append n sources
            | None => sources
            end
       else sources)
    [].

(* TopologyGraph.get_targets *)
Definition get_targets (graph : TopologyGraph) (node_id : Z) : list TopologyNode :=
  for_each (edges graph)
    (fun targets edge =>
       if (source_id edge =? node_id) && negb (is_clock edge)
       then match nodes graph !! target_id edge with
            | Some n => list_append n targets
            | None => targets
            end
       else targets)
    [].

Definition _add_input_terminals (graph : TopologyGraph) (ac : AudioControlInterface.t)
    : TopologyGraph :=
  for_each (AudioControlInterface.input_terminals ac)
    (fun graph terminal =>
       let node :=
         {| id := InputTerminal.terminal_id terminal;
            node_type := INPUT_TERMINAL;
            name := str_or (InputTerminal.terminal_name terminal)
                      (get_terminal_type_name (InputTerminal.terminal_type terminal));
            description := get_terminal_type_name (InputTerminal.terminal_type terminal);
            channels := InputTerminal.nr_channels terminal;
            entity := Some (EInputTerminal terminal);
            is_usb_streaming := InputTerminal_is_usb_streaming terminal;
            controls := [] |} in
       add_node (InputTerminal.terminal_id terminal) node
         (list_append node) keep keep keep
         (if InputTerminal_is_usb_streaming terminal then list_append node else keep) keep
         graph)
    graph.

Definition _add_output_terminals (graph : TopologyGraph) (ac : AudioControlInterface.t)
    : TopologyGraph :=
  for_each (AudioControlInterface.output_terminals ac)
    (fun graph terminal =>
       let node :=
         {| id := OutputTerminal.terminal_id terminal;
            node_type := OUTPUT_TERMINAL;
            name := str_or (OutputTerminal.terminal_name terminal)
                      (get_terminal_type_name (OutputTerminal.terminal_type terminal));
            description := get_terminal_type_name (OutputTerminal.terminal_type terminal);
            channels := 0;
            entity := Some (EOutputTerminal terminal);
            is_usb_streaming := OutputTerminal_is_usb_streaming terminal;
            controls := [] |} in
       add_node (OutputTerminal.terminal_id terminal) node
         keep (list_append node) keep keep keep
         (if OutputTerminal_is_usb_streaming terminal then list_append node else keep)
         graph)
    graph.

Definition _add_feature_units (graph : TopologyGraph) (ac : AudioControlInterface.t)
    : TopologyGraph :=
  for_each (AudioControlInterface.feature_units ac)
    (fun graph unit =>
       let node :=
         {| id := FeatureUnit.unit_id unit;
            node_type := FEATURE_UNIT;
            name := str_or (FeatureUnit.unit_name unit)
                      ("Feature Unit " ++ str_of_int (FeatureUnit.unit_id unit))%string;
            description := "Feature Unit";
            channels := FeatureUnit.nr_channels unit;
            entity := Some (EFeatureUnit unit);
            is_usb_streaming := false;
            controls := FeatureUnit_get_control_names unit |} in
       add_node (FeatureUnit.unit_id unit) node keep keep (list_append node) keep keep keep graph)
    graph.

Definition _add_mixer_units (graph : TopologyGraph) (ac : AudioControlInterface.t)
    : TopologyGraph :=
  for_each (AudioControlInterface.mixer_units ac)
    (fun graph unit =>
       let node :=
         {| id := MixerUnit.unit_id unit;
            node_type := MIXER_UNIT;
            name := str_or (MixerUnit.unit_name unit)
                      ("Mixer Unit " ++ str_of_int (MixerUnit.unit_id unit))%string;
            description := ("Mixer (" ++ str_of_int (MixerUnit.nr_in_pins unit)
                            ++ " inputs)")%string;
            channels := MixerUnit.nr_channels unit;
            entity := Some (EMixerUnit unit);
            is_usb_streaming := false;
            controls := [] |} in
       add_node (MixerUnit.unit_id unit) node keep keep (list_append node) keep keep keep graph)
    graph.

Definition _add_selector_units (graph : TopologyGraph) (ac : AudioControlInterface.t)
    : TopologyGraph :=
  for_each (AudioControlInterface.selector_units ac)
    (fun graph unit =>
       let node :=
         {| id := SelectorUnit.unit_id unit;
            node_type := SELECTOR_UNIT;
            name := str_or (SelectorUnit.selector_name unit)
                      ("Selector Unit " ++ str_of_int (SelectorUnit.unit_id unit))%string;
            description := ("Selector (" ++ str_of_int (SelectorUnit.nr_in_pins unit)
                            ++ " inputs)")%string;
            channels := 0;
            entity := Some (ESelectorUnit unit);
            is_usb_streaming := false;
            controls := [] |} in
       add_node (SelectorUnit.unit_id unit) node keep keep (list_append node) keep keep keep graph)
    graph.

Definition _add_processing_units (graph : TopologyGraph) (ac : AudioControlInterface.t)
    : TopologyGraph :=
  let process_types :=
    [ (0x00, "Undefined"); (0x01, "Up/Downmix"); (0x02, "Dolby Prologic");
      (0x03, "Stereo Extender") ]%string in
  for_each (AudioControlInterface.processing_units ac)
    (fun graph unit =>
       let process_name :=
         table_get process_types (ProcessingUnit.process_type unit)
           ("Process 0x" ++ format_0X 2 (ProcessingUnit.process_type unit))%string in
       let node :=
         {| id := ProcessingUnit.unit_id unit;
            node_type := PROCESSING_UNIT;
            name := str_or (ProcessingUnit.unit_name unit)
                      ("Processing Unit " ++ str_of_int (ProcessingUnit.unit_id unit))%string;
            description := process_name;
            channels := ProcessingUnit.nr_channels unit;
            entity := Some (EProcessingUnit unit);
            is_usb_streaming := false;
            controls := [] |} in
       add_node (ProcessingUnit.unit_id unit) node keep keep (list_append node) keep keep keep graph)
    graph.

Definition _add_extension_units (graph : TopologyGraph) (ac : AudioControlInterface.t)
    : TopologyGraph :=
  for_each (AudioControlInterface.extension_units ac)
    (fun graph unit =>
       let node :=
         {| id := ExtensionUnit.unit_id unit;
            node_type := EXTENSION_UNIT;
            name := str_or (ExtensionUnit.unit_name unit)
                      ("Extension Unit " ++ str_of_int (ExtensionUnit.unit_id unit))%string;
            description := ("Extension (0x" ++ format_0X 4 (ExtensionUnit.extension_code unit)
                            ++ ")")%string;
            channels := ExtensionUnit.nr_channels unit;
            entity := Some (EExtensionUnit unit);
            is_usb_streaming := false;
            controls := [] |} in
       add_node (ExtensionUnit.unit_id unit) node keep keep (list_append node) keep keep keep graph)
    graph.

Definition _add_clock_entities (graph : TopologyGraph) (ac : AudioControlInterface.t)
    : TopologyGraph :=
  let graph :=
    for_each (AudioControlInterface.clock_sources ac)
      (fun graph clock =>
         let node :=
           {| id := ClockSource.clock_id clock;
              node_type := CLOCK_SOURCE;
              name := str_or (ClockSource.clock_source_name clock)
                        ("Clock Source " ++ str_of_int (ClockSource.clock_id clock))%string;
              description := ClockSource_clock_type clock;
              channels := 0;
              entity := Some (EClockSource clock);
              is_usb_streaming := false;
              controls := [] |} in
         add_node (ClockSource.clock_id clock) node keep keep keep (list_append node) keep keep
           graph)
      graph in
  let graph :=
    for_each (AudioControlInterface.clock_selectors ac)
      (fun graph clock =>
         let node :=
           {| id := ClockSelector.clock_id clock;
              node_type := CLOCK_SELECTOR;
              name := str_or (ClockSelector.clock_selector_name clock)
                        ("Clock Selector " ++ str_of_int (ClockSelector.clock_id clock))%string;
              description := ("Clock Selector ("
                              ++ str_of_int (ClockSelector.nr_in_pins clock)
                              ++ " inputs)")%string;
              channels := 0;
              entity := Some (EClockSelector clock);
              is_usb_streaming := false;
              controls := [] |} in
         add_node (ClockSelector.clock_id clock) node keep keep keep (list_append node) keep keep
           graph)
      graph in
  for_each (AudioControlInterface.clock_multipliers ac)
    (fun graph clock =>
       let node :=
         {| id := ClockMultiplier.clock_id clock;
            node_type := CLOCK_MULTIPLIER;
            name := str_or (ClockMultiplier.clock_multiplier_name clock)
                      ("Clock Multiplier "
                       ++ str_of_int (ClockMultiplier.clock_id clock))%string;
            description := "Clock Multiplier";
            channels := 0;
            entity := Some (EClockMultiplier clock);
            is_usb_streaming := false;
            controls := [] |} in
       add_node (ClockMultiplier.clock_id clock) node keep keep keep (list_append node) keep keep
         graph)
    graph.

(* source_node.channels if source_node else 0 *)
Definition channels_or_0 (source_node : option TopologyNode) : Z :=
  match source_node with
  | Some n => channels n
  | None => 0
  end.

(* TopologyEdge(source_id=.., target_id=.., channels=..) for an audio reference *)
Definition signal_edge (graph : TopologyGraph) (source target : Z) : TopologyEdge :=
  let source_node := nodes graph !! source in
  {| source_id := source; target_id := target;
     edge_channels := channels_or_0 source_node; is_clock := false |}.

(* TopologyEdge(source_id=.., target_id=.., is_clock=True) *)
Definition clock_edge (source target : Z) : TopologyEdge :=
  {| source_id := source; target_id := target; edge_channels := 0; is_clock := true |}.

(* The inner loop shared by mixer, selector, processing and extension units:
     for source_id in unit.source_ids:
         if source_id in graph.nodes: graph.edges.append(edge) *)
Definition add_source_list_edges (source_ids : list Z) (target : Z) (graph : TopologyGraph)
    : TopologyGraph :=
  for_each source_ids
    (fun graph source_id =>
       if dict_contains (nodes graph) source_id
       then append_edge (signal_edge graph source_id target) graph
       else graph)
    graph.

Definition _build_edges (graph : TopologyGraph) (ac : AudioControlInterface.t)
    : TopologyGraph :=
  (* Output terminals have a source_id *)
  let graph :=
    for_each (AudioControlInterface.output_terminals ac)
      (fun graph terminal =>
         if negb (OutputTerminal.source_id terminal =? 0)
            && dict_contains (nodes graph) (OutputTerminal.source_id terminal)
         then append_edge
                (signal_edge graph (OutputTerminal.source_id terminal)
                   (OutputTerminal.terminal_id terminal)) graph
         else graph)
      graph in
  (* Feature units have a source_id *)
  let graph :=
    for_each (AudioControlInterface.feature_units ac)
      (fun graph unit =>
         if negb (FeatureUnit.source_id unit =? 0)
            && dict_contains (nodes graph) (FeatureUnit.source_id unit)
         then append_edge
                (signal_edge graph (FeatureUnit.source_id unit) (FeatureUnit.unit_id unit))
                graph
         else graph)
      graph in
  (* Mixer units have multiple source_ids *)
  let graph :=
    for_each (AudioControlInterface.mixer_units ac)
      (fun graph unit =>
         add_source_list_edges (MixerUnit.source_ids unit) (MixerUnit.unit_id unit) graph)
      graph in
  (* Selector units have multiple source_ids *)
  let graph :=
    for_each (AudioControlInterface.selector_units ac)
      (fun graph unit =>
         add_source_list_edges (SelectorUnit.source_ids unit) (SelectorUnit.unit_id unit)
           graph)
      graph in
  (* Processing units have multiple source_ids *)
  let graph :=
    for_each (AudioControlInterface.processing_units ac)
      (fun graph unit =>
         add_source_list_edges (ProcessingUnit.source_ids unit)
           (ProcessingUnit.unit_id unit) graph)
      graph in
  (* Extension units have multiple source_ids *)
  let graph :=
    for_each (AudioControlInterface.extension_units ac)
      (fun graph unit =>
         add_source_list_edges (ExtensionUnit.source_ids unit) (ExtensionUnit.unit_id unit)
           graph)
      graph in
  (* Clock selector has clock source inputs *)
  let graph :=
    for_each (AudioControlInterface.clock_selectors ac)
      (fun graph clock =>
         for_each (ClockSelector.clock_pin_ids clock)
           (fun graph source_id =>
              if dict_contains (nodes graph) source_id
              then append_edge (clock_edge source_id (ClockSelector.clock_id clock)) graph
              else graph)
           graph)
      graph in
  (* Clock multiplier has a clock source input *)
  for_each (AudioControlInterface.clock_multipliers ac)
    (fun graph clock =>
       if negb (ClockMultiplier.clock_source_id clock =? 0)
          && dict_contains (nodes graph) (ClockMultiplier.clock_source_id clock)
       then append_edge
              (clock_edge (ClockMultiplier.clock_source_id clock)
                 (ClockMultiplier.clock_id clock)) graph
       else graph)
    graph.

(* A [for] loop whose body may run out of recursion budget. *)
Definition for_each_opt {A S : Type} (xs : list A) (body : S -> A -> option S) (s : S)
    : option S :=
  foldl (fun acc x => match acc with Some s => body s x | None => None end) (Some s) xs.

(* _trace_back, with the recursion depth bounded by [fuel]; [None] is
   "budget exhausted", never a Python result. *)
Fixpoint _trace_back_rec (fuel : nat) (graph : TopologyGraph) (node_id : Z)
    (current_path : list Z) (visited : gset Z) : option (list (list Z)) :=
  match fuel with
  | O => None
  | S fuel =>
      if bool_decide (node_id ∈ visited)
      then (* Cycle detected *) Some []
      else
        let visited := visited ∪ {[node_id]} in
        let current_path := [node_id] ++ current_path in
        match nodes graph !! node_id with
        | None => Some []
        | Some node =>
            if bool_decide (node_type node = INPUT_TERMINAL)
            then Some [current_path]
            else
              let sources := get_sources graph node_id in
              match sources with
              | [] => (* Dead end - no sources *) Some []
              | _ =>
                  for_each_opt sources
                    (fun all_paths source =>
                       match _trace_back_rec fuel graph (id source) current_path visited
                       with
                       | Some paths => Some (all_paths ++ paths)
                       | None => None
                       end)
                    []
              end
        end
  end.

(* The recursion adds a fresh key of graph.nodes to [visited] at each level
   it descends, so one level per node and one more is a sufficient budget. *)
Definition _trace_back (graph : TopologyGraph) (node_id : Z) (current_path : list Z)
    (visited : gset Z) : option (list (list Z)) :=
  _trace_back_rec (S (size (nodes graph))) graph node_id current_path visited.

Definition _describe_path (path_nodes : list TopologyNode) : string :=
  match path_nodes with
  | [] => EmptyString
  | _ =>
      let parts :=
        for_each path_nodes
          (fun parts node =>
             match node_type node with
             | INPUT_TERMINAL => list_append (description node) parts
             | OUTPUT_TERMINAL => list_append (description node) parts
             | FEATURE_UNIT =>
                 match controls node with
                 | [] => list_append "Feature"%string parts
                 | _ => list_append ("Feature (" ++ String.concat ", " (controls node)
                                ++ ")")%string parts
                 end
             | MIXER_UNIT => list_append "Mixer"%string parts
             | SELECTOR_UNIT => list_append "Selector"%string parts
             | PROCESSING_UNIT => list_append (description node) parts
             | EXTENSION_UNIT => list_append "Extension"%string parts
             | _ => parts
             end)
          [] in
      String.concat " -> " parts
  end.

Definition _find_signal_paths (graph : TopologyGraph) : option (list SignalPath) :=
  for_each_opt (output_terminals graph)
    (fun paths output_terminal =>
       match _trace_back graph (id output_terminal) [] ∅ with
       | None => None
       | Some found_paths =>
           Some (for_each found_paths
                   (fun paths node_ids =>
                      let path_nodes := omap (fun nid => nodes graph !! nid) node_ids in
                      match path_nodes with
                      | [] => paths
                      | _ =>
                          list_append {| path_nodes := path_nodes;
                                    path_description := _describe_path path_nodes |} paths
                      end)
                   paths)
       end)
    [].

Definition build_topology (device : USBAudioDevice.t) : option TopologyGraph :=
  let graph := empty_graph in
  match USBAudioDevice.audio_control device with
  | None => Some graph
  | Some ac =>
      let graph := _add_input_terminals graph ac in
      let graph := _add_output_terminals graph ac in
      let graph := _add_feature_units graph ac in
      let graph := _add_mixer_units graph ac in
      let graph := _add_selector_units graph ac in
      let graph := _add_processing_units graph ac in
      let graph := _add_extension_units graph ac in
      let graph := _add_clock_entities graph ac in
      let graph := _build_edges graph ac in
      match _find_signal_paths graph with
      | Some paths => Some (with_signal_paths paths graph)
      | None => None
      end
  end.

(* SignalPath.input_node / SignalPath.output_node *)
Definition input_node (path : SignalPath) : option TopologyNode := head (path_nodes path).

Definition output_node (path : SignalPath) : option TopologyNode := last (path_nodes path).

Definition get_playback_paths (graph : TopologyGraph) : list SignalPath :=
  List.filter (fun path => match input_node path with
                           | Some n => is_usb_streaming n
                           | None => false
                           end) (signal_paths graph).

Definition get_capture_paths (graph : TopologyGraph) : list SignalPath :=
  List.filter (fun path => match output_node path with
                           | Some n => is_usb_streaming n
                           | None => false
                           end) (signal_paths graph).

Definition get_internal_paths (graph : TopologyGraph) : list SignalPath :=
  List.filter (fun path => match input_node path, output_node path with
                           | Some i, Some o =>
                               negb (is_usb_streaming i) && negb (is_usb_streaming o)
                           | _, _ => false
                           end) (signal_paths graph).

(* The id sequence of a signal path. *)
Definition path_ids (path : SignalPath) : list Z := id <$> path_nodes path.

End Topology.

(** ** model.py: the remaining properties and lookups *)

(* EndpointDescriptor.endpoint_number *)
Definition EndpointDescriptor_endpoint_number (ep : EndpointDescriptor.t) : Z :=
  Z.land (EndpointDescriptor.address ep) 0x0F.

(* EndpointDescriptor.is_input *)
Definition EndpointDescriptor_is_input (ep : EndpointDescriptor.t) : bool :=
  negb (Z.land (EndpointDescriptor.address ep) 0x80 =? 0).

(* FeatureUnit.has_mute *)
Definition FeatureUnit_has_mute (u : FeatureUnit.t) : bool :=
  match FeatureUnit.controls u with
  | [] => false
  | master :: _ => negb (Z.land master 0x01 =? 0)
  end.

(* FeatureUnit.has_volume *)
Definition FeatureUnit_has_volume (u : FeatureUnit.t) : bool :=
  match FeatureUnit.controls u with
  | [] => false
  | master :: _ => negb (Z.land master 0x02 =? 0)
  end.

(* min(lst) and max(lst) on a list with first element x *)
Definition list_min (x : Z) (rest : list Z) : Z := foldl Z.min x rest.

Definition list_max (x : Z) (rest : list Z) : Z := foldl Z.max x rest.

(* FormatTypeDescriptor.sample_rate_range *)
Definition FormatTypeDescriptor_sample_rate_range (fmt : FormatTypeDescriptor.t) : Z * Z :=
  match FormatTypeDescriptor.sample_frequencies fmt with
  | f :: rest => (list_min f rest, list_max f rest)
  | [] =>
      if negb (FormatTypeDescriptor.freq_min fmt =? 0)
         && negb (FormatTypeDescriptor.freq_max fmt =? 0)
      then (FormatTypeDescriptor.freq_min fmt, FormatTypeDescriptor.freq_max fmt)
      else (0, 0)
  end.

(* AlternateSetting.is_zero_bandwidth *)
Definition AlternateSetting_is_zero_bandwidth (alt : AlternateSetting.t) : bool :=
  match AlternateSetting.endpoint alt with
  | None => true
  | Some ep => EndpointDescriptor.max_packet_size ep =? 0
  end.

(* AlternateSetting.bandwidth_bytes_per_frame *)
Definition AlternateSetting_bandwidth_bytes_per_frame (alt : AlternateSetting.t) : Z :=
  match AlternateSetting.endpoint alt with
  | None => 0
  | Some ep => EndpointDescriptor.max_packet_size ep
  end.

(* USBAudioDevice.device_name *)
Definition USBAudioDevice_device_name (d : USBAudioDevice.t) : string :=
  match DeviceDescriptor.product (USBAudioDevice.device d) with
  | EmptyString =>
      ("USB Audio Device "
       ++ format_0X 4 (DeviceDescriptor.vendor_id (USBAudioDevice.device d)) ++ ":"
       ++ format_0X 4 (DeviceDescriptor.product_id (USBAudioDevice.device d)))%string
  | product => product
  end.

(* USBAudioDevice.manufacturer_name *)
Definition USBAudioDevice_manufacturer_name (d : USBAudioDevice.t) : string :=
  str_or (DeviceDescriptor.manufacturer (USBAudioDevice.device d)) "Unknown".

(* for x in xs: if key(x) == entity_id: return x *)
Definition first_with_id {A : Type} (key : A -> Z) (entity_id : Z) (xs : list A) : option A :=
  List.find (fun x => key x =? entity_id) xs.

(* return x when a loop has found one, else go on with the next loop *)
Definition or_else {A B : Type} (found : option A) (wrap : A -> B) (next : option B)
    : option B :=
  match found with
  | Some x => Some (wrap x)
  | None => next
  end.

(* AudioControlInterface.get_entity_by_id *)
Definition AudioControlInterface_get_entity_by_id (ac : AudioControlInterface.t)
    (entity_id : Z) : option Topology.Entity :=
  or_else (first_with_id InputTerminal.terminal_id entity_id
             (AudioControlInterface.input_terminals ac)) Topology.EInputTerminal
  (or_else (first_with_id OutputTerminal.terminal_id entity_id
              (AudioControlInterface.output_terminals ac)) Topology.EOutputTerminal
  (or_else (first_with_id FeatureUnit.unit_id entity_id
              (AudioControlInterface.feature_units ac)) Topology.EFeatureUnit
  (or_else (first_with_id MixerUnit.unit_id entity_id
              (AudioControlInterface.mixer_units ac)) Topology.EMixerUnit
  (or_else (first_with_id SelectorUnit.unit_id entity_id
              (AudioControlInterface.selector_units ac)) Topology.ESelectorUnit
  (or_else (first_with_id ProcessingUnit.unit_id entity_id
              (AudioControlInterface.processing_units ac)) Topology.EProcessingUnit
  (or_else (first_with_id ExtensionUnit.unit_id entity_id
              (AudioControlInterface.extension_units ac)) Topology.EExtensionUnit
  (or_else (first_with_id ClockSource.clock_id entity_id
              (AudioControlInterface.clock_sources ac)) Topology.EClockSource
  (or_else (first_with_id ClockSelector.clock_id entity_id
              (AudioControlInterface.clock_selectors ac)) Topology.EClockSelector
  (or_else (first_with_id ClockMultiplier.clock_id entity_id
              (AudioControlInterface.clock_multipliers ac)) Topology.EClockMultiplier
     None))))))))).

(** ** bandwidth.py: the interface summaries *)

Module FormatInfo.
Record t := mk {
  channels : Z;
  bit_depth : Z;
  sample_rates : list Z;
  sample_rate_range : Z * Z;
  format_name : string
}.
End FormatInfo.

Module BandwidthInfo.
Record t := mk {
  interface_number : Z;
  alternate_setting : Z;
  direction : string;
  format : option FormatInfo.t;
  endpoint_address : Z;
  max_packet_size : Z;
  sync_type : SyncType;
  usage_type : UsageType;
  bytes_per_frame : Z;
  bytes_per_second : Z;
  bandwidth_percent : PrimFloat.float;
  terminal_id : Z;
  terminal_type : string
}.
End BandwidthInfo.

Module InterfaceBandwidthSummary.
Record t := mk {
  interface_number : Z;
  direction : string;
  terminal_id : Z;
  terminal_type : string;
  alternate_settings : list BandwidthInfo.t
}.
End InterfaceBandwidthSummary.

(* BandwidthInfo.is_zero_bandwidth *)
Definition BandwidthInfo_is_zero_bandwidth (b : BandwidthInfo.t) : bool :=
  BandwidthInfo.max_packet_size b =? 0.

(* max(lst, key=key) on a list with first element x: a later element
   replaces the best one so far only when its key is strictly greater *)
Definition max_by {A : Type} (key : A -> Z) (x : A) (rest : list A) : A :=
  foldl (fun best y => if key best <? key y then y else best) x rest.

(* InterfaceBandwidthSummary.max_bandwidth_setting *)
Definition InterfaceBandwidthSummary_max_bandwidth_setting
    (summary : InterfaceBandwidthSummary.t) : option BandwidthInfo.t :=
  let active :=
    List.filter (fun s => negb (BandwidthInfo_is_zero_bandwidth s))
      (InterfaceBandwidthSummary.alternate_settings summary) in
  match active with
  | [] => None
  | s :: rest => Some (max_by BandwidthInfo.bytes_per_second s rest)
  end.

(* (format.channels, format.bit_depth, tuple(format.sample_rates)) *)
Definition format_key (f : FormatInfo.t) : Z * Z * list Z :=
  (FormatInfo.channels f, FormatInfo.bit_depth f, FormatInfo.sample_rates f).

(* One iteration of the loop of available_formats, on the pair of the
   [formats] list and the [seen] set. *)
Definition add_format (acc : list FormatInfo.t * gset (Z * Z * list Z))
    (setting : BandwidthInfo.t) : list FormatInfo.t * gset (Z * Z * list Z) :=
  let '(formats, seen) := acc in
  match BandwidthInfo.format setting with
  | Some fmt =>
      if negb (BandwidthInfo_is_zero_bandwidth setting) then
        let key := format_key fmt in
        if bool_decide (key ∈ seen) then (formats, seen)
        else (formats ++ [fmt], seen ∪ {[key]})
      else (formats, seen)
  | None => (formats, seen)
  end.

(* InterfaceBandwidthSummary.available_formats *)
Definition InterfaceBandwidthSummary_available_formats
    (summary : InterfaceBandwidthSummary.t) : list FormatInfo.t :=
  fst (for_each (InterfaceBandwidthSummary.alternate_settings summary) add_format ([], ∅)).

(** ** Python [str] methods and the [re] patterns of parser.py, on ASCII text *)

Module Py.

Definition code (c : ascii) : nat := nat_of_ascii c.

Definition in_range (lo hi : nat) (c : ascii) : bool :=
  ((lo <=? code c) && (code c <=? hi))%nat.

(* str.isspace: TAB LF VT FF CR, FS GS RS US, SPACE *)
Definition is_space (c : ascii) : bool := in_range 9 13 c || in_range 28 32 c.

(* the line boundaries of str.splitlines: LF VT FF CR, FS GS RS *)
Definition is_linebreak (c : ascii) : bool := in_range 10 13 c || in_range 28 30 c.

(* \d *)
Definition is_digit (c : ascii) : bool := in_range 48 57 c.

(* [0-9a-fA-F] *)
Definition is_hex (c : ascii) : bool := is_digit c || in_range 97 102 c || in_range 65 70 c.

(* \w *)
Definition is_word (c : ascii) : bool :=
  is_digit c || in_range 97 122 c || in_range 65 90 c || (code c =? 95)%nat.

(* . (no DOTALL flag) *)
Definition is_dot (c : ascii) : bool := negb (code c =? 10)%nat.

Definition lower (c : ascii) : ascii :=
  if in_range 65 90 c then ascii_of_nat (code c + 32) else c.

(* str.startswith *)
Definition startswith (s pre : string) : bool := String.prefix pre s.

(* str.lstrip() *)
Fixpoint lstrip (s : string) : string :=
  match s with
  | EmptyString => EmptyString
  | String c s' => if is_space c then lstrip s' else s
  end.

(* str.rstrip() *)
Fixpoint rstrip (s : string) : string :=
  match s with
  | EmptyString => EmptyString
  | String c s' =>
      match rstrip s' with
      | EmptyString => if is_space c then EmptyString else String c EmptyString
      | r => String c r
      end
  end.

(* str.strip() *)
Definition strip (s : string) : string := rstrip (lstrip s).

(* str.splitlines(): [cur] is the line being accumulated *)
Fixpoint splitlines_from (cur s : string) : list string :=
  match s with
  | EmptyString => match cur with EmptyString => [] | _ => [cur] end
  | String c s' =>
      if (code c =? 13)%nat
      then match s' with
           | String c' s'' =>
               if (code c' =? 10)%nat
               then cur :: splitlines_from EmptyString s''
               else cur :: splitlines_from EmptyString s'
           | EmptyString => cur :: splitlines_from EmptyString s'
           end
      else if is_linebreak c
      then cur :: splitlines_from EmptyString s'
      else splitlines_from (cur ++ String c EmptyString) s'
  end.

Definition splitlines (s : string) : list string := splitlines_from EmptyString s.

(* str.split(): the maximal runs of non-whitespace *)
Fixpoint split_from (cur s : string) : list string :=
  match s with
  | EmptyString => match cur with EmptyString => [] | _ => [cur] end
  | String c s' =>
      if is_space c
      then match cur with
           | EmptyString => split_from EmptyString s'
           | _ => cur :: split_from EmptyString s'
           end
      else split_from (cur ++ String c EmptyString) s'
  end.

Definition split (s : string) : list string := split_from EmptyString s.

(* s.split(sep)[-1] for a one-character separator: the text after the last
   occurrence of [sep], the whole of [s] when there is none *)
Fixpoint split_last_from (sep : ascii) (cur s : string) : string :=
  match s with
  | EmptyString => cur
  | String c s' =>
      if Ascii.eqb c sep
      then split_last_from sep EmptyString s'
      else split_last_from sep (cur ++ String c EmptyString) s'
  end.

Definition split_last (sep : ascii) (s : string) : string :=
  split_last_from sep EmptyString s.

Definition digit_val (c : ascii) : Z := Z.of_nat (code c - 48).

Definition hex_val (c : ascii) : Z :=
  if is_digit c then Z.of_nat (code c - 48)
  else if in_range 97 102 c then Z.of_nat (code c - 87)
  else Z.of_nat (code c - 55).

Fixpoint int_acc (base : Z) (val : ascii -> Z) (s : string) (acc : Z) : Z :=
  match s with
  | EmptyString => acc
  | String c s' => int_acc base val s' (acc * base + val c)
  end.

(* int(s) on a string of decimal digits (the interpreter's optional limit on
   the number of digits, sys.set_int_max_str_digits, is not modelled) *)
Definition int10 (s : string) : Z := int_acc 10 digit_val s 0.

(* int(s, 16) on a string of hexadecimal digits *)
Definition int16 (s : string) : Z := int_acc 16 hex_val s 0.

(** *** Regular expressions

    The patterns of parser.py are sequences of literals, one-character
    classes under [+] or [*], [\b], [^], [$] and capture groups that do not
    nest.  [match_here] is the backtracking matcher of [re] on such
    sequences: a repetition first takes the longest run and gives characters
    back one at a time while the rest of the pattern fails. *)

Inductive item :=
  | Lit (l : string)                        (* literal text *)
  | LitI (l : string)                       (* literal text under re.IGNORECASE *)
  | Rep (min : nat) (cls : ascii -> bool)   (* cls* when min = 0, cls+ when min = 1 *)
  | WordB                                   (* \b *)
  | Bos                                     (* ^ *)
  | Eos                                     (* $ *)
  | Open                                    (* ( *)
  | Close.                                  (* ) *)

Abbreviation Plus := (Rep 1).
Abbreviation Star := (Rep 0).

Fixpoint strip_lit (ignorecase : bool) (l s : string) : option string :=
  match l with
  | EmptyString => Some s
  | String a l' =>
      match s with
      | EmptyString => None
      | String b s' =>
          if (if ignorecase then Ascii.eqb (lower a) (lower b) else Ascii.eqb a b)
          then strip_lit ignorecase l' s'
          else None
      end
  end.

Fixpoint run (cls : ascii -> bool) (s : string) : nat :=
  match s with
  | EmptyString => O
  | String c s' => if cls c then S (run cls s') else O
  end.

Fixpoint drop_chars (k : nat) (s : string) : string :=
  match k, s with
  | S k', String _ s' => drop_chars k' s'
  | _, _ => s
  end.

Fixpoint take_chars (k : nat) (s : string) : string :=
  match k, s with
  | S k', String c s' => String c (take_chars k' s')
  | _, _ => EmptyString
  end.

(* the character before the position reached after consuming [k] characters
   of [s], [prev] being the character before [s] *)
Definition prev_after (k : nat) (prev : option ascii) (s : string) : option ascii :=
  match k with
  | O => prev
  | S k' => String.get k' s
  end.

Definition word_char (c : option ascii) : bool :=
  match c with
  | Some c => is_word c
  | None => false
  end.

Definition at_word_boundary (prev : option ascii) (s : string) : bool :=
  xorb (word_char prev) (word_char (String.get 0 s)).

Fixpoint match_here (its : list item) (prev : option ascii) (s : string)
    (opens caps : list string) : option (list string) :=
  match its with
  | [] => Some caps
  | Lit l :: its' =>
      match strip_lit false l s with
      | Some s' => match_here its' (prev_after (String.length l) prev s) s' opens caps
      | None => None
      end
  | LitI l :: its' =>
      match strip_lit true l s with
      | Some s' => match_here its' (prev_after (String.length l) prev s) s' opens caps
      | None => None
      end
  | Rep min cls :: its' =>
      (fix try (k : nat) : option (list string) :=
         let here :=
           if (min <=? k)%nat
           then match_here its' (prev_after k prev s) (drop_chars k s) opens caps
           else None in
         match here with
         | Some groups => Some groups
         | None => match k with
                   | O => None
                   | S k' => try k'
                   end
         end) (run cls s)
  | WordB :: its' =>
      if at_word_boundary prev s then match_here its' prev s opens caps else None
  | Bos :: its' =>
      match prev with
      | None => match_here its' prev s opens caps
      | Some _ => None
      end
  | Eos :: its' =>
      match s with
      | EmptyString => match_here its' prev s opens caps
      | String c EmptyString =>
          if (code c =? 10)%nat then match_here its' prev s opens caps else None
      | _ => None
      end
  | Open :: its' => match_here its' prev s (s :: opens) caps
  | Close :: its' =>
      match opens with
      | o :: opens' =>
          match_here its' prev s opens'
            (caps ++ [take_chars (String.length o - String.length s) o])
      | [] => None
      end
  end.

Fixpoint search_from (its : list item) (prev : option ascii) (s : string)
    : option (list string) :=
  match match_here its prev s [] [] with
  | Some groups => Some groups
  | None =>
      match s with
      | EmptyString => None
      | String c s' => search_from its (Some c) s'
      end
  end.

(* re.search(pattern, s): the groups of the leftmost match *)
Definition re_search (its : list item) (s : string) : option (list string) :=
  search_from its None s.

(* re.match(pattern, s): the groups of a match at the start of [s] *)
Definition re_match (its : list item) (s : string) : option (list string) :=
  match_here its None s [] [].

(* match.group(n), n >= 1 *)
Definition group (n : nat) (groups : list string) : string :=
  nth (n - 1) groups EmptyString.

End Py.

(** ** parser.py *)

Module Parser.

Import Py.

#[local] Open Scope string_scope.
#[local] Open Scope list_scope.
#[local] Open Scope Z_scope.

(* The exceptions the parser's code can raise. *)
Inductive exn :=
  | IndexError       (* list index out of range *)
  | AttributeError.  (* attribute access on None *)

(* How a call ends: with a value, with an exception, or with the step
   budget of the model exhausted (which is not a behaviour of the code). *)
Inductive outcome (A : Type) :=
  | Return (a : A)
  | Raise (e : exn)
  | OutOfFuel.

Arguments Return {A} a.
Arguments Raise {A} e.
Arguments OutOfFuel {A}.

(* class LsusbLine *)
Record LsusbLine := {
  raw : string;
  line_number : nat;
  indent : nat;
  content : string
}.

(* LsusbLine.__init__ *)
Definition LsusbLine_init (raw_line : string) (line_number : nat) : LsusbLine :=
  {| raw := raw_line;
     line_number := line_number;
     indent := (String.length raw_line - String.length (lstrip raw_line))%nat;
     content := strip raw_line |}.

(* class LsusbParser: the attributes of [self] *)
Record LsusbParser := {
  text : string;
  lines : list LsusbLine;
  pos : nat
}.

(* The objects a method call can mutate: the parser itself and the
   USBAudioDevice under construction, which parse() creates and hands to
   the methods that take a [device] argument. *)
Record state := {
  self : LsusbParser;
  device : USBAudioDevice.t
}.

Definition M (A : Type) : Type := state -> outcome (A * state).

Definition ret {A : Type} (a : A) : M A := fun st => Return (a, st).

Definition bind {A B : Type} (m : M A) (k : A -> M B) : M B :=
  fun st =>
    match m st with
    | Return (a, st') => k a st'
    | Raise e => Raise e
    | OutOfFuel => OutOfFuel
    end.

#[global] Instance M_ret : MRet M := fun A a => ret a.

#[global] Instance M_bind : MBind M := fun A B k m => bind m k.

Definition raise {A : Type} (e : exn) : M A := fun _ => Raise e.

Definition get_device : M USBAudioDevice.t := fun st => Return (device st, st).

Definition set_device (d : USBAudioDevice.t) : M unit :=
  fun st => Return (tt, {| self := self st; device := d |}).

Definition set_pos (p : nat) (st : state) : state :=
  {| self := {| text := text (self st); lines := lines (self st); pos := p |};
     device := device st |}.

(* LsusbParser._tokenize: enumerate(self.text.splitlines(), 1) *)
Fixpoint _tokenize_from (i : nat) (ls : list string) : list LsusbLine :=
  match ls with
  | [] => []
  | line :: rest =>
      match strip line with
      | EmptyString => _tokenize_from (S i) rest  (* Skip empty lines *)
      | _ => LsusbLine_init line i :: _tokenize_from (S i) rest
      end
  end.

Definition _tokenize (text : string) : list LsusbLine :=
  _tokenize_from 1 (splitlines text).

(* LsusbParser.__init__ *)
Definition LsusbParser_init (text : string) : LsusbParser :=
  {| text := text; lines := _tokenize text; pos := 0 |}.

(* LsusbParser._current *)
Definition current_line (st : state) : option LsusbLine :=
  lines (self st) !! pos (self st).

Definition _current : M (option LsusbLine) := fun st => Return (current_line st, st).

(* LsusbParser._advance *)
Definition _advance : M (option LsusbLine) :=
  fun st =>
    let st' := set_pos (pos (self st) + 1) st in
    Return (current_line st', st').

(* LsusbParser._peek *)
Definition _peek (offset : Z) : M (option LsusbLine) :=
  fun st =>
    let p := Z.of_nat (pos (self st)) + offset in
    if (0 <=? p) && (p <? Z.of_nat (length (lines (self st))))
    then Return (lines (self st) !! Z.to_nat p, st)
    else Return (None, st).

(* self._current().indent, where the caller stands on a header line *)
Definition current_indent : M nat :=
  cur ← _current;
  match cur with
  | Some line => mret (indent line)
  | None => raise AttributeError
  end.

(* r'0x([0-9a-fA-F]+)' *)
Definition re_0x_hex : list item := [Lit "0x"; Open; Plus is_hex; Close].

(* r'^[0-9a-fA-F]+$' *)
Definition re_hex_token : list item := [Bos; Plus is_hex; Eos].

(* r'(\d+)\.(\d+)' *)
Definition re_bcd : list item :=
  [Open; Plus is_digit; Close; Lit "."; Open; Plus is_digit; Close].

(* r'\b(\d+)\b' *)
Definition re_int : list item := [WordB; Open; Plus is_digit; Close; WordB].

(* rf'{re.escape(field_name)}\s+(.+)' under re.IGNORECASE *)
Definition re_field (field_name : string) : list item :=
  [LitI field_name; Plus is_space; Open; Plus is_dot; Close].

(* rf'{name}\s+\d+\s+(.+)': a string index followed by its label *)
Definition re_label (name : string) : list item :=
  [Lit name; Plus is_space; Plus is_digit; Plus is_space; Open; Plus is_dot; Close].

(* r'0x[0-9a-fA-F]+\s+(.+)' *)
Definition re_after_hex : list item :=
  [Lit "0x"; Plus is_hex; Plus is_space; Open; Plus is_dot; Close].

(* r'baInterfaceNr\(\d+\)\s+(\d+)' *)
Definition re_baInterfaceNr : list item :=
  [Lit "baInterfaceNr("; Plus is_digit; Lit ")"; Plus is_space;
   Open; Plus is_digit; Close].

(* rf'{name}\(\s*\d+\)', and with brackets for tSamFreq *)
Definition re_indexed (name : string) (lpar rpar : string) : list item :=
  [Lit name; Lit lpar; Star is_space; Plus is_digit; Lit rpar].

(* LsusbParser._parse_hex_value *)
Definition _parse_hex_value (text : string) : Z :=
  let text := strip text in
  (* First try explicit 0x prefix *)
  match re_search re_0x_hex text with
  | Some m => int16 (group 1 m)
  | None =>
      let parts := split text in
      match parts with
      | _ :: value_part :: _ =>
          match re_match re_hex_token value_part with
          | Some _ => int16 value_part
          | None => 0
          end
      | _ => 0
      end
  end.

(* LsusbParser._parse_bcd_value *)
Definition _parse_bcd_value (text : string) : Z :=
  match re_search re_bcd text with
  | Some m =>
      let major := int10 (group 1 m) in
      let minor := int10 (group 2 m) in
      Z.lor (Z.shiftl major 8) minor
  | None => 0
  end.

(* LsusbParser._parse_int_value *)
Definition _parse_int_value (text : string) : Z :=
  match re_search re_int text with
  | Some m => int10 (group 1 m)
  | None => 0
  end.

(* LsusbParser._parse_field *)
Definition _parse_field (line field_name : string) : string :=
  match re_search (re_field field_name) line with
  | Some m => strip (group 1 m)
  | None => EmptyString
  end.

(* match = re.search(rf'{name}\s+\d+\s+(.+)', content), then
   match.group(1).strip() when there is a match *)
Definition label_after (name content : string) : option string :=
  match re_search (re_label name) content with
  | Some m => Some (strip (group 1 m))
  | None => None
  end.

(* match = re.search(r'0x[0-9a-fA-F]+\s+(.+)', content), likewise *)
Definition name_after_hex (content : string) : option string :=
  match re_search re_after_hex content with
  | Some m => Some (strip (group 1 m))
  | None => None
  end.

(* if match: obj.attr = match.group(1).strip() *)
Definition assign_if {A : Type} (v : option string) (set : string -> A -> A) (a : A) : A :=
  match v with
  | Some s => set s a
  | None => a
  end.

(* How one iteration of a [while] loop ends. *)
Inductive flow := Continue | Break.

(* while self._current() and cond(self._current()): body *)
Fixpoint while_rec {A : Type} (fuel : nat) (cond : LsusbLine -> bool)
    (body : LsusbLine -> A -> M (flow * A)) (a : A) : M A :=
  match fuel with
  | O => fun _ => OutOfFuel
  | S fuel' =>
      cur ← _current;
      match cur with
      | Some line =>
          if cond line
          then r ← body line a;
               match r with
               | (Continue, a') => while_rec fuel' cond body a'
               | (Break, a') => mret a'
               end
          else mret a
      | None => mret a
      end
  end.

(* Every iteration that does not break moves the cursor forward, so the
   number of lines left, plus one for the final test, bounds the loop. *)
Definition budget (st : state) : nat :=
  S (length (lines (self st)) - pos (self st)).

Definition while_ {A : Type} (cond : LsusbLine -> bool)
    (body : LsusbLine -> A -> M (flow * A)) (a : A) : M A :=
  fun st => while_rec (budget st) cond body a st.

(* self._current().indent > start_indent *)
Definition in_block (start_indent : nat) (line : LsusbLine) : bool :=
  (start_indent <? indent line)%nat.

(* The loop shape of the leaf descriptors:
     while self._current() and self._current().indent > start_indent:
         <update obj from line.content>
         self._advance() *)
Definition field_loop {A : Type} (start_indent : nat) (field : string -> A -> A) (a : A)
    : M A :=
  while_ (in_block start_indent)
    (fun line a =>
       let a := field (content line) a in
       _advance;;
       mret (Continue, a))
    a.

(* LsusbParser._collect_block *)
Definition _collect_block (start_indent : nat) : M (list LsusbLine) :=
  while_ (in_block start_indent)
    (fun line block =>
       let block := block ++ [line] in
       _advance;;
       mret (Continue, block))
    [].

(* Interface class codes and descriptor subtypes *)
Definition AC_HEADER : Z := 0x01.
Definition AC_INPUT_TERMINAL : Z := 0x02.
Definition AC_OUTPUT_TERMINAL : Z := 0x03.
Definition AC_MIXER_UNIT : Z := 0x04.
Definition AC_SELECTOR_UNIT : Z := 0x05.
Definition AC_FEATURE_UNIT : Z := 0x06.
Definition AC_PROCESSING_UNIT : Z := 0x07.
Definition AC_EXTENSION_UNIT : Z := 0x08.
Definition AC_CLOCK_SOURCE : Z := 0x0A.
Definition AC_CLOCK_SELECTOR : Z := 0x0B.
Definition AC_CLOCK_MULTIPLIER : Z := 0x0C.
Definition AS_GENERAL : Z := 0x01.
Definition AS_FORMAT_TYPE : Z := 0x02.

(* The if/elif chain of _parse_device_descriptor on one body line; [Break]
   is the [break] at a nested Configuration Descriptor. *)
Definition device_descriptor_line (content : string) (desc : DeviceDescriptor.t)
    : M (flow * DeviceDescriptor.t) :=
  if startswith content "bcdUSB" then
    (* self._parse_field(content, "bcdUSB").split()[0] *)
    match split (_parse_field content "bcdUSB") with
    | v :: _ => mret (Continue, DeviceDescriptor.with_usb_version v desc)
    | [] => raise IndexError
    end
  else if startswith content "bDeviceClass" then
    mret (Continue, DeviceDescriptor.with_device_class (_parse_int_value content) desc)
  else if startswith content "bDeviceSubClass" then
    mret (Continue, DeviceDescriptor.with_device_subclass (_parse_int_value content) desc)
  else if startswith content "bDeviceProtocol" then
    mret (Continue, DeviceDescriptor.with_device_protocol (_parse_int_value content) desc)
  else if startswith content "bMaxPacketSize0" then
    mret (Continue, DeviceDescriptor.with_max_packet_size_0 (_parse_int_value content) desc)
  else if startswith content "idVendor" then
    let desc := DeviceDescriptor.with_vendor_id (_parse_hex_value content) desc in
    mret (Continue,
          assign_if (name_after_hex content) DeviceDescriptor.with_manufacturer desc)
  else if startswith content "idProduct" then
    let desc := DeviceDescriptor.with_product_id (_parse_hex_value content) desc in
    mret (Continue, assign_if (name_after_hex content) DeviceDescriptor.with_product desc)
  else if startswith content "bcdDevice" then
    mret (Continue, DeviceDescriptor.with_bcd_device (_parse_hex_value content) desc)
  else if startswith content "iManufacturer" then
    mret (Continue,
          assign_if (label_after "iManufacturer" content)
            DeviceDescriptor.with_manufacturer desc)
  else if startswith content "iProduct" then
    mret (Continue,
          assign_if (label_after "iProduct" content) DeviceDescriptor.with_product desc)
  else if startswith content "iSerial" then
    mret (Continue,
          assign_if (label_after "iSerial" content) DeviceDescriptor.with_serial_number desc)
  else if startswith content "bNumConfigurations" then
    mret (Continue,
          DeviceDescriptor.with_num_configurations (_parse_int_value content) desc)
  else if startswith content "Configuration Descriptor:" then
    (* Configuration is nested in lsusb output but should be parsed separately *)
    mret (Break, desc)
  else mret (Continue, desc).

(* LsusbParser._parse_device_descriptor *)
Definition _parse_device_descriptor : M DeviceDescriptor.t :=
  let desc := DeviceDescriptor.default in
  start_indent ← current_indent;
  _advance;;
  while_ (in_block start_indent)
    (fun line desc =>
       r ← device_descriptor_line (content line) desc;
       match r with
       | (Break, desc) => mret (Break, desc)
       | (Continue, desc) => _advance;; mret (Continue, desc)
       end)
    desc.

(* The body of _parse_audio_endpoint_descriptor on one line *)
Definition audio_endpoint_field (content : string) (ep : EndpointDescriptor.t)
    : EndpointDescriptor.t :=
  if startswith content "bmAttributes" then
    let attrs := _parse_hex_value content in
    EndpointDescriptor.with_max_packets_only (negb (Z.land attrs 0x80 =? 0)) ep
  else if startswith content "bLockDelayUnits" then
    EndpointDescriptor.with_lock_delay_units (_parse_int_value content) ep
  else if startswith content "wLockDelay" then
    EndpointDescriptor.with_lock_delay (_parse_int_value content) ep
  else ep.

(* LsusbParser._parse_audio_endpoint_descriptor *)
Definition _parse_audio_endpoint_descriptor (ep : EndpointDescriptor.t)
    : M EndpointDescriptor.t :=
  start_indent ← current_indent;
  _advance;;
  field_loop start_indent audio_endpoint_field ep.

(* lst[i] for an index known to be within 0..3 *)
Definition index4 {A : Type} (lst : list A) (i : Z) (default : A) : A :=
  nth (Z.to_nat i) lst default.

(* The bmAttributes branch of _parse_endpoint_descriptor *)
Definition endpoint_attributes (content : string) (ep : EndpointDescriptor.t)
    : EndpointDescriptor.t :=
  let attrs := _parse_int_value content in
  (* Transfer type (bits 0-1) *)
  let transfer_types := ["Control"; "Isochronous"; "Bulk"; "Interrupt"] in
  let ep :=
    EndpointDescriptor.with_transfer_type
      (index4 transfer_types (Z.land attrs 0x03) EmptyString) ep in
  (* Sync type (bits 2-3) for isochronous *)
  if String.eqb (EndpointDescriptor.transfer_type ep) "Isochronous" then
    let sync_types := [SyncType_NONE; ASYNC; ADAPTIVE; SYNC] in
    let ep :=
      EndpointDescriptor.with_sync_type
        (index4 sync_types (Z.land (Z.shiftr attrs 2) 0x03) SyncType_NONE) ep in
    (* Usage type (bits 4-5) *)
    let usage_types := [DATA; FEEDBACK; IMPLICIT_FEEDBACK; DATA] in
    EndpointDescriptor.with_usage_type
      (index4 usage_types (Z.land (Z.shiftr attrs 4) 0x03) DATA) ep
  else ep.

(* LsusbParser._parse_endpoint_descriptor *)
Definition _parse_endpoint_descriptor : M EndpointDescriptor.t :=
  let ep := EndpointDescriptor.default in
  start_indent ← current_indent;
  _advance;;
  while_ (in_block start_indent)
    (fun line ep =>
       let content := content line in
       if startswith content "bEndpointAddress" then
         let ep := EndpointDescriptor.with_address (_parse_hex_value content) ep in
         let ep :=
           EndpointDescriptor.with_direction
             (if Z.land (EndpointDescriptor.address ep) 0x80 =? 0 then "OUT" else "IN")
             ep in
         _advance;; mret (Continue, ep)
       else if startswith content "bmAttributes" then
         let ep := endpoint_attributes content ep in
         _advance;; mret (Continue, ep)
       else if startswith content "wMaxPacketSize" then
         (* Format may include transactions: "0x0200  1x 512 bytes" *)
         let ep :=
           match re_search re_0x_hex content with
           | Some m =>
               EndpointDescriptor.with_max_packet_size
                 (Z.land (int16 (group 1 m)) 0x7FF) ep
           | None => ep
           end in
         _advance;; mret (Continue, ep)
       else if startswith content "bInterval" then
         let ep := EndpointDescriptor.with_interval (_parse_int_value content) ep in
         _advance;; mret (Continue, ep)
       else if startswith content "bRefresh" then
         let ep := EndpointDescriptor.with_refresh (_parse_int_value content) ep in
         _advance;; mret (Continue, ep)
       else if startswith content "bSynchAddress" then
         let ep := EndpointDescriptor.with_synch_address (_parse_hex_value content) ep in
         _advance;; mret (Continue, ep)
       else if startswith content "AudioControl Endpoint Descriptor:" then
         (* Parse audio-specific endpoint extensions *)
         ep ← _parse_audio_endpoint_descriptor ep;
         mret (Continue, ep)
       else
         _advance;; mret (Continue, ep))
    ep.

(* The body of _parse_ac_header on one line *)
Definition ac_header_field (content : string) (header : AudioControlHeader.t)
    : AudioControlHeader.t :=
  if startswith content "bcdADC" then
    let header := AudioControlHeader.with_bcd_adc (_parse_bcd_value content) header in
    (* Determine UAC version from bcdADC *)
    if 0x0200 <=? AudioControlHeader.bcd_adc header
    then AudioControlHeader.with_uac_version UAC_2_0 header
    else AudioControlHeader.with_uac_version UAC_1_0 header
  else if startswith content "wTotalLength" then
    AudioControlHeader.with_total_length (_parse_int_value content) header
  else if startswith content "bInCollection" then
    AudioControlHeader.with_in_collection (_parse_int_value content) header
  else if startswith content "baInterfaceNr" then
    (* UAC 1.0 interface numbers - format: baInterfaceNr(0)  1 *)
    match re_search re_baInterfaceNr content with
    | Some m =>
        let iface_nr := int10 (group 1 m) in
        AudioControlHeader.with_interface_numbers
          (AudioControlHeader.interface_numbers header ++ [iface_nr]) header
    | None => header
    end
  else if startswith content "bCategory" then
    AudioControlHeader.with_category (_parse_hex_value content) header
  else if startswith content "bmControls" then
    AudioControlHeader.with_controls (_parse_hex_value content) header
  else header.

(* LsusbParser._parse_ac_header *)
Definition _parse_ac_header (ac : AudioControlInterface.t) (start_indent : nat)
    : M AudioControlInterface.t :=
  header ← field_loop start_indent ac_header_field AudioControlHeader.default;
  mret (AudioControlInterface.with_header (Some header) ac).

Definition input_terminal_field (content : string) (terminal : InputTerminal.t)
    : InputTerminal.t :=
  if startswith content "bTerminalID" then
    InputTerminal.with_terminal_id (_parse_int_value content) terminal
  else if startswith content "wTerminalType" then
    InputTerminal.with_terminal_type (_parse_hex_value content) terminal
  else if startswith content "bAssocTerminal" then
    InputTerminal.with_assoc_terminal (_parse_int_value content) terminal
  else if startswith content "bNrChannels" then
    InputTerminal.with_nr_channels (_parse_int_value content) terminal
  else if startswith content "wChannelConfig" then
    InputTerminal.with_channel_config (_parse_hex_value content) terminal
  else if startswith content "iChannelNames" then
    assign_if (label_after "iChannelNames" content) InputTerminal.with_channel_names terminal
  else if startswith content "iTerminal" then
    assign_if (label_after "iTerminal" content) InputTerminal.with_terminal_name terminal
  else if startswith content "bCSourceID" then
    InputTerminal.with_clock_source_id (_parse_int_value content) terminal
  else if startswith content "bmControls" then
    InputTerminal.with_controls (_parse_hex_value content) terminal
  else terminal.

(* LsusbParser._parse_input_terminal *)
Definition _parse_input_terminal (ac : AudioControlInterface.t) (start_indent : nat)
    : M AudioControlInterface.t :=
  terminal ← field_loop start_indent input_terminal_field InputTerminal.default;
  mret (AudioControlInterface.with_input_terminals
          (AudioControlInterface.input_terminals ac ++ [terminal]) ac).

Definition output_terminal_field (content : string) (terminal : OutputTerminal.t)
    : OutputTerminal.t :=
  if startswith content "bTerminalID" then
    OutputTerminal.with_terminal_id (_parse_int_value content) terminal
  else if startswith content "wTerminalType" then
    OutputTerminal.with_terminal_type (_parse_hex_value content) terminal
  else if startswith content "bAssocTerminal" then
    OutputTerminal.with_assoc_terminal (_parse_int_value content) terminal
  else if startswith content "bSourceID" then
    OutputTerminal.with_source_id (_parse_int_value content) terminal
  else if startswith content "iTerminal" then
    assign_if (label_after "iTerminal" content) OutputTerminal.with_terminal_name terminal
  else if startswith content "bCSourceID" then
    OutputTerminal.with_clock_source_id (_parse_int_value content) terminal
  else if startswith content "bmControls" then
    OutputTerminal.with_controls (_parse_hex_value content) terminal
  else terminal.

(* LsusbParser._parse_output_terminal *)
Definition _parse_output_terminal (ac : AudioControlInterface.t) (start_indent : nat)
    : M AudioControlInterface.t :=
  terminal ← field_loop start_indent output_terminal_field OutputTerminal.default;
  mret (AudioControlInterface.with_output_terminals
          (AudioControlInterface.output_terminals ac ++ [terminal]) ac).

(* re.match(rf'{name}\(\s*\d+\)', content) is not None *)
Definition is_indexed (name content : string) : bool :=
  match re_match (re_indexed name "(" ")") content with
  | Some _ => true
  | None => false
  end.

Definition feature_unit_field (content : string) (unit : FeatureUnit.t) : FeatureUnit.t :=
  if startswith content "bUnitID" then
    FeatureUnit.with_unit_id (_parse_int_value content) unit
  else if startswith content "bSourceID" then
    FeatureUnit.with_source_id (_parse_int_value content) unit
  else if startswith content "bControlSize" then
    (* UAC 1.0 control size *)
    unit
  else if is_indexed "bmaControls" content then
    (* Format: bmaControls( 0)  0x03 *)
    let ctrl := _parse_hex_value content in
    FeatureUnit.with_controls (FeatureUnit.controls unit ++ [ctrl]) unit
  else if startswith content "iFeature" then
    assign_if (label_after "iFeature" content) FeatureUnit.with_unit_name unit
  else unit.

(* LsusbParser._parse_feature_unit *)
Definition _parse_feature_unit (ac : AudioControlInterface.t) (start_indent : nat)
    : M AudioControlInterface.t :=
  unit ← field_loop start_indent feature_unit_field FeatureUnit.default;
  mret (AudioControlInterface.with_feature_units
          (AudioControlInterface.feature_units ac ++ [unit]) ac).

(* self._parse_int_value(content.split(')')[-1]) *)
Definition indexed_value (content : string) : Z :=
  _parse_int_value (split_last ")" content).

Definition mixer_unit_field (content : string) (unit : MixerUnit.t) : MixerUnit.t :=
  if startswith content "bUnitID" then
    MixerUnit.with_unit_id (_parse_int_value content) unit
  else if startswith content "bNrInPins" then
    MixerUnit.with_nr_in_pins (_parse_int_value content) unit
  else if is_indexed "baSourceID" content then
    let src_id := indexed_value content in
    MixerUnit.with_source_ids (MixerUnit.source_ids unit ++ [src_id]) unit
  else if startswith content "bNrChannels" then
    MixerUnit.with_nr_channels (_parse_int_value content) unit
  else if startswith content "wChannelConfig" then
    MixerUnit.with_channel_config (_parse_hex_value content) unit
  else if startswith content "iChannelNames" then
    assign_if (label_after "iChannelNames" content) MixerUnit.with_channel_names unit
  else if startswith content "iMixer" then
    assign_if (label_after "iMixer" content) MixerUnit.with_unit_name unit
  else unit.

(* LsusbParser._parse_mixer_unit *)
Definition _parse_mixer_unit (ac : AudioControlInterface.t) (start_indent : nat)
    : M AudioControlInterface.t :=
  unit ← field_loop start_indent mixer_unit_field MixerUnit.default;
  mret (AudioControlInterface.with_mixer_units
          (AudioControlInterface.mixer_units ac ++ [unit]) ac).

Definition selector_unit_field (content : string) (unit : SelectorUnit.t)
    : SelectorUnit.t :=
  if startswith content "bUnitID" then
    SelectorUnit.with_unit_id (_parse_int_value content) unit
  else if startswith content "bNrInPins" then
    SelectorUnit.with_nr_in_pins (_parse_int_value content) unit
  else if is_indexed "baSourceID" content then
    let src_id := indexed_value content in
    SelectorUnit.with_source_ids (SelectorUnit.source_ids unit ++ [src_id]) unit
  else if startswith content "iSelector" then
    assign_if (label_after "iSelector" content) SelectorUnit.with_selector_name unit
  else unit.

(* LsusbParser._parse_selector_unit *)
Definition _parse_selector_unit (ac : AudioControlInterface.t) (start_indent : nat)
    : M AudioControlInterface.t :=
  unit ← field_loop start_indent selector_unit_field SelectorUnit.default;
  mret (AudioControlInterface.with_selector_units
          (AudioControlInterface.selector_units ac ++ [unit]) ac).

Definition processing_unit_field (content : string) (unit : ProcessingUnit.t)
    : ProcessingUnit.t :=
  if startswith content "bUnitID" then
    ProcessingUnit.with_unit_id (_parse_int_value content) unit
  else if startswith content "wProcessType" then
    ProcessingUnit.with_process_type (_parse_hex_value content) unit
  else if startswith content "bNrInPins" then
    ProcessingUnit.with_nr_in_pins (_parse_int_value content) unit
  else if is_indexed "baSourceID" content then
    let src_id := indexed_value content in
    ProcessingUnit.with_source_ids (ProcessingUnit.source_ids unit ++ [src_id]) unit
  else if startswith content "bNrChannels" then
    ProcessingUnit.with_nr_channels (_parse_int_value content) unit
  else if startswith content "wChannelConfig" then
    ProcessingUnit.with_channel_config (_parse_hex_value content) unit
  else if startswith content "iChannelNames" then
    assign_if (label_after "iChannelNames" content) ProcessingUnit.with_channel_names unit
  else if startswith content "bmControls" then
    ProcessingUnit.with_controls (_parse_hex_value content) unit
  else if startswith content "iProcessing" then
    assign_if (label_after "iProcessing" content) ProcessingUnit.with_unit_name unit
  else unit.

(* LsusbParser._parse_processing_unit *)
Definition _parse_processing_unit (ac : AudioControlInterface.t) (start_indent : nat)
    : M AudioControlInterface.t :=
  unit ← field_loop start_indent processing_unit_field ProcessingUnit.default;
  mret (AudioControlInterface.with_processing_units
          (AudioControlInterface.processing_units ac ++ [unit]) ac).

Definition extension_unit_field (content : string) (unit : ExtensionUnit.t)
    : ExtensionUnit.t :=
  if startswith content "bUnitID" then
    ExtensionUnit.with_unit_id (_parse_int_value content) unit
  else if startswith content "wExtensionCode" then
    ExtensionUnit.with_extension_code (_parse_hex_value content) unit
  else if startswith content "bNrInPins" then
    ExtensionUnit.with_nr_in_pins (_parse_int_value content) unit
  else if is_indexed "baSourceID" content then
    let src_id := indexed_value content in
    ExtensionUnit.with_source_ids (ExtensionUnit.source_ids unit ++ [src_id]) unit
  else if startswith content "bNrChannels" then
    ExtensionUnit.with_nr_channels (_parse_int_value content) unit
  else if startswith content "wChannelConfig" then
    ExtensionUnit.with_channel_config (_parse_hex_value content) unit
  else if startswith content "iChannelNames" then
    assign_if (label_after "iChannelNames" content) ExtensionUnit.with_channel_names unit
  else if startswith content "bmControls" then
    ExtensionUnit.with_controls (_parse_hex_value content) unit
  else if startswith content "iExtension" then
    assign_if (label_after "iExtension" content) ExtensionUnit.with_unit_name unit
  else unit.

(* LsusbParser._parse_extension_unit *)
Definition _parse_extension_unit (ac : AudioControlInterface.t) (start_indent : nat)
    : M AudioControlInterface.t :=
  unit ← field_loop start_indent extension_unit_field ExtensionUnit.default;
  mret (AudioControlInterface.with_extension_units
          (AudioControlInterface.extension_units ac ++ [unit]) ac).

Definition clock_source_field (content : string) (clock : ClockSource.t) : ClockSource.t :=
  if startswith content "bClockID" then
    ClockSource.with_clock_id (_parse_int_value content) clock
  else if startswith content "bmAttributes" then
    ClockSource.with_attributes (_parse_hex_value content) clock
  else if startswith content "bmControls" then
    ClockSource.with_controls (_parse_hex_value content) clock
  else if startswith content "bAssocTerminal" then
    ClockSource.with_assoc_terminal (_parse_int_value content) clock
  else if startswith content "iClockSource" then
    assign_if (label_after "iClockSource" content) ClockSource.with_clock_source_name clock
  else clock.

(* LsusbParser._parse_clock_source *)
Definition _parse_clock_source (ac : AudioControlInterface.t) (start_indent : nat)
    : M AudioControlInterface.t :=
  clock ← field_loop start_indent clock_source_field ClockSource.default;
  mret (AudioControlInterface.with_clock_sources
          (AudioControlInterface.clock_sources ac ++ [clock]) ac).

Definition clock_selector_field (content : string) (clock : ClockSelector.t)
    : ClockSelector.t :=
  if startswith content "bClockID" then
    ClockSelector.with_clock_id (_parse_int_value content) clock
  else if startswith content "bNrInPins" then
    ClockSelector.with_nr_in_pins (_parse_int_value content) clock
  else if is_indexed "baCSourceID" content then
    let src_id := indexed_value content in
    ClockSelector.with_clock_pin_ids (ClockSelector.clock_pin_ids clock ++ [src_id]) clock
  else if startswith content "bmControls" then
    ClockSelector.with_controls (_parse_hex_value content) clock
  else if startswith content "iClockSelector" then
    assign_if (label_after "iClockSelector" content)
      ClockSelector.with_clock_selector_name clock
  else clock.

(* LsusbParser._parse_clock_selector *)
Definition _parse_clock_selector (ac : AudioControlInterface.t) (start_indent : nat)
    : M AudioControlInterface.t :=
  clock ← field_loop start_indent clock_selector_field ClockSelector.default;
  mret (AudioControlInterface.with_clock_selectors
          (AudioControlInterface.clock_selectors ac ++ [clock]) ac).

Definition clock_multiplier_field (content : string) (clock : ClockMultiplier.t)
    : ClockMultiplier.t :=
  if startswith content "bClockID" then
    ClockMultiplier.with_clock_id (_parse_int_value content) clock
  else if startswith content "bCSourceID" then
    ClockMultiplier.with_clock_source_id (_parse_int_value content) clock
  else if startswith content "bmControls" then
    ClockMultiplier.with_controls (_parse_hex_value content) clock
  else if startswith content "iClockMultiplier" then
    assign_if (label_after "iClockMultiplier" content)
      ClockMultiplier.with_clock_multiplier_name clock
  else clock.

(* LsusbParser._parse_clock_multiplier *)
Definition _parse_clock_multiplier (ac : AudioControlInterface.t) (start_indent : nat)
    : M AudioControlInterface.t :=
  clock ← field_loop start_indent clock_multiplier_field ClockMultiplier.default;
  mret (AudioControlInterface.with_clock_multipliers
          (AudioControlInterface.clock_multipliers ac ++ [clock]) ac).

(* The scan that both _parse_audio_control_descriptor and
   _parse_audio_streaming_descriptor make for the subtype:
     subtype = 0
     while self._current() and self._current().indent > start_indent:
         if content.startswith("bDescriptorSubtype"):
             subtype = self._parse_int_value(content)
             break
         self._advance() *)
Definition read_subtype (start_indent : nat) : M Z :=
  while_ (in_block start_indent)
    (fun line subtype =>
       let content := content line in
       if startswith content "bDescriptorSubtype"
       then mret (Break, _parse_int_value content)
       else _advance;; mret (Continue, subtype))
    0.

(* Skip unknown descriptor *)
Definition skip_block (start_indent : nat) : M unit :=
  while_ (in_block start_indent) (fun _ u => _advance;; mret (Continue, u)) tt.

(* A call p(device.audio_control, start_indent): [p] works on the object
   that device.audio_control refers to. *)
Definition on_audio_control (p : AudioControlInterface.t -> M AudioControlInterface.t)
    : M unit :=
  device ← get_device;
  match USBAudioDevice.audio_control device with
  | Some ac =>
      ac ← p ac;
      device ← get_device;
      set_device (USBAudioDevice.with_audio_control (Some ac) device)
  | None => raise AttributeError
  end.

(* LsusbParser._parse_audio_control_descriptor *)
Definition _parse_audio_control_descriptor : M unit :=
  device ← get_device;
  match USBAudioDevice.audio_control device with
  | None =>
      set_device
        (USBAudioDevice.with_audio_control (Some AudioControlInterface.default) device)
  | Some _ => mret tt
  end;;
  start_indent ← current_indent;
  _advance;;
  (* Read descriptor subtype *)
  subtype ← read_subtype start_indent;
  if subtype =? AC_HEADER then
    on_audio_control (fun ac => _parse_ac_header ac start_indent)
  else if subtype =? AC_INPUT_TERMINAL then
    on_audio_control (fun ac => _parse_input_terminal ac start_indent)
  else if subtype =? AC_OUTPUT_TERMINAL then
    on_audio_control (fun ac => _parse_output_terminal ac start_indent)
  else if subtype =? AC_FEATURE_UNIT then
    on_audio_control (fun ac => _parse_feature_unit ac start_indent)
  else if subtype =? AC_MIXER_UNIT then
    on_audio_control (fun ac => _parse_mixer_unit ac start_indent)
  else if subtype =? AC_SELECTOR_UNIT then
    on_audio_control (fun ac => _parse_selector_unit ac start_indent)
  else if subtype =? AC_PROCESSING_UNIT then
    on_audio_control (fun ac => _parse_processing_unit ac start_indent)
  else if subtype =? AC_EXTENSION_UNIT then
    on_audio_control (fun ac => _parse_extension_unit ac start_indent)
  else if subtype =? AC_CLOCK_SOURCE then
    on_audio_control (fun ac => _parse_clock_source ac start_indent)
  else if subtype =? AC_CLOCK_SELECTOR then
    on_audio_control (fun ac => _parse_clock_selector ac start_indent)
  else if subtype =? AC_CLOCK_MULTIPLIER then
    on_audio_control (fun ac => _parse_clock_multiplier ac start_indent)
  else
    skip_block start_indent.

Definition as_general_field (content : string) (streaming : AudioStreamingInterface.t)
    : AudioStreamingInterface.t :=
  if startswith content "bTerminalLink" then
    AudioStreamingInterface.with_terminal_link (_parse_int_value content) streaming
  else if startswith content "bDelay" then
    AudioStreamingInterface.with_delay (_parse_int_value content) streaming
  else if startswith content "wFormatTag" then
    AudioStreamingInterface.with_format_tag (_parse_hex_value content) streaming
  else if startswith content "bmControls" then
    AudioStreamingInterface.with_controls (_parse_hex_value content) streaming
  else if startswith content "bFormatType" then
    (* UAC 2.0 format type in AS general *)
    streaming
  else if startswith content "bNrChannels" then
    (* UAC 2.0: channel count is in AS General, store temporarily *)
    AudioStreamingInterface.with_nr_channels (Some (_parse_int_value content)) streaming
  else if startswith content "bClockSourceID" then
    AudioStreamingInterface.with_clock_source_id (_parse_int_value content) streaming
  else streaming.

(* LsusbParser._parse_as_general *)
Definition _parse_as_general (iface : InterfaceDescriptor.t) (start_indent : nat) : M unit :=
  let streaming := AudioStreamingInterface.default in
  let streaming :=
    AudioStreamingInterface.with_interface_number
      (InterfaceDescriptor.interface_number iface) streaming in
  let streaming :=
    AudioStreamingInterface.with_alternate_setting
      (InterfaceDescriptor.alternate_setting iface) streaming in
  streaming ← field_loop start_indent as_general_field streaming;
  device ← get_device;
  set_device
    (USBAudioDevice.with_streaming_interfaces
       (USBAudioDevice.streaming_interfaces device ++ [streaming]) device).

(* re.match(r'tSamFreq\[\s*\d+\]', content) is not None *)
Definition is_tSamFreq (content : string) : bool :=
  match re_match (re_indexed "tSamFreq" "[" "]") content with
  | Some _ => true
  | None => false
  end.

Definition as_format_type_field (content : string) (fmt : FormatTypeDescriptor.t)
    : FormatTypeDescriptor.t :=
  if startswith content "bFormatType" then
    FormatTypeDescriptor.with_format_type (_parse_int_value content) fmt
  else if startswith content "bNrChannels" then
    FormatTypeDescriptor.with_nr_channels (_parse_int_value content) fmt
  else if startswith content "bSubframeSize" then
    FormatTypeDescriptor.with_subframe_size (_parse_int_value content) fmt
  else if startswith content "bBitResolution" then
    FormatTypeDescriptor.with_bit_resolution (_parse_int_value content) fmt
  else if startswith content "bSubslotSize" then
    (* UAC 2.0 uses this instead of bSubframeSize *)
    FormatTypeDescriptor.with_subframe_size (_parse_int_value content) fmt
  else if startswith content "bSamFreqType" then
    (* Number of discrete sample frequencies (UAC 1.0) *)
    fmt
  else if is_tSamFreq content then
    (* Discrete sample frequencies *)
    let freq := _parse_int_value (split_last "]" content) in
    FormatTypeDescriptor.with_sample_frequencies
      (FormatTypeDescriptor.sample_frequencies fmt ++ [freq]) fmt
  else if startswith content "tLowerSamFreq" then
    FormatTypeDescriptor.with_freq_min (_parse_int_value content) fmt
  else if startswith content "tUpperSamFreq" then
    FormatTypeDescriptor.with_freq_max (_parse_int_value content) fmt
  else fmt.

(* lst[-1] = f(lst[-1]) on a non-empty list *)
Fixpoint update_last {A : Type} (f : A -> A) (l : list A) : list A :=
  match l with
  | [] => []
  | [x] => [f x]
  | x :: rest => x :: update_last f rest
  end.

(* The attachment at the end of _parse_as_format_type: [fmt] is stored in
   the streaming interface first and completed afterwards, both names
   denoting one object. *)
Definition attach_format (fmt : FormatTypeDescriptor.t)
    (streaming : AudioStreamingInterface.t) : AudioStreamingInterface.t :=
  let fmt :=
    (* UAC 2.0: copy channel count from AS General to format if not set *)
    match AudioStreamingInterface._nr_channels streaming with
    | Some n =>
        if FormatTypeDescriptor.nr_channels fmt =? 0
        then FormatTypeDescriptor.with_nr_channels n fmt
        else fmt
    | None => fmt
    end in
  AudioStreamingInterface.with_format (Some fmt) streaming.

(* LsusbParser._parse_as_format_type *)
Definition _parse_as_format_type (start_indent : nat) : M unit :=
  fmt ← field_loop start_indent as_format_type_field FormatTypeDescriptor.default;
  (* Attach format to most recent streaming interface *)
  device ← get_device;
  set_device
    (USBAudioDevice.with_streaming_interfaces
       (update_last (attach_format fmt) (USBAudioDevice.streaming_interfaces device))
       device).

(* LsusbParser._parse_audio_streaming_descriptor *)
Definition _parse_audio_streaming_descriptor (iface : InterfaceDescriptor.t) : M unit :=
  start_indent ← current_indent;
  _advance;;
  (* Check first field to determine descriptor type *)
  subtype ← read_subtype start_indent;
  if subtype =? AS_GENERAL then _parse_as_general iface start_indent
  else if subtype =? AS_FORMAT_TYPE then _parse_as_format_type start_indent
  else skip_block start_indent.

(* LsusbParser._parse_interface_descriptor *)
Definition _parse_interface_descriptor : M InterfaceDescriptor.t :=
  let iface := InterfaceDescriptor.default in
  start_indent ← current_indent;
  _advance;;
  while_ (in_block start_indent)
    (fun line iface =>
       let content := content line in
       if startswith content "bInterfaceNumber" then
         let iface :=
           InterfaceDescriptor.with_interface_number (_parse_int_value content) iface in
         _advance;; mret (Continue, iface)
       else if startswith content "bAlternateSetting" then
         let iface :=
           InterfaceDescriptor.with_alternate_setting (_parse_int_value content) iface in
         _advance;; mret (Continue, iface)
       else if startswith content "bNumEndpoints" then
         let iface :=
           InterfaceDescriptor.with_num_endpoints (_parse_int_value content) iface in
         _advance;; mret (Continue, iface)
       else if startswith content "bInterfaceClass" then
         let iface :=
           InterfaceDescriptor.with_interface_class (_parse_int_value content) iface in
         _advance;; mret (Continue, iface)
       else if startswith content "bInterfaceSubClass" then
         let iface :=
           InterfaceDescriptor.with_interface_subclass (_parse_int_value content) iface in
         _advance;; mret (Continue, iface)
       else if startswith content "bInterfaceProtocol" then
         let iface :=
           InterfaceDescriptor.with_interface_protocol (_parse_int_value content) iface in
         _advance;; mret (Continue, iface)
       else if startswith content "iInterface" then
         let iface :=
           assign_if (label_after "iInterface" content)
             InterfaceDescriptor.with_interface_name iface in
         _advance;; mret (Continue, iface)
       else if startswith content "Endpoint Descriptor:" then
         ep ← _parse_endpoint_descriptor;
         mret (Continue,
               InterfaceDescriptor.with_endpoints
                 (InterfaceDescriptor.endpoints iface ++ [ep]) iface)
       else if startswith content "AudioControl Interface Descriptor:" then
         _parse_audio_control_descriptor;;
         mret (Continue, iface)
       else if startswith content "AudioStreaming Interface Descriptor:" then
         _parse_audio_streaming_descriptor iface;;
         mret (Continue, iface)
       else
         _advance;; mret (Continue, iface))
    iface.

(* LsusbParser._parse_configuration_descriptor *)
Definition _parse_configuration_descriptor : M ConfigurationDescriptor.t :=
  let config := ConfigurationDescriptor.default in
  start_indent ← current_indent;
  _advance;;
  while_ (in_block start_indent)
    (fun line config =>
       let content := content line in
       if startswith content "bConfigurationValue" then
         let config :=
           ConfigurationDescriptor.with_config_value (_parse_int_value content) config in
         _advance;; mret (Continue, config)
       else if startswith content "bNumInterfaces" then
         let config :=
           ConfigurationDescriptor.with_num_interfaces (_parse_int_value content) config in
         _advance;; mret (Continue, config)
       else if startswith content "iConfiguration" then
         let config :=
           assign_if (label_after "iConfiguration" content)
             ConfigurationDescriptor.with_config_name config in
         _advance;; mret (Continue, config)
       else if startswith content "bmAttributes" then
         let config :=
           ConfigurationDescriptor.with_attributes (_parse_hex_value content) config in
         _advance;; mret (Continue, config)
       else if startswith content "MaxPower" then
         let config :=
           ConfigurationDescriptor.with_max_power_ma (_parse_int_value content) config in
         _advance;; mret (Continue, config)
       else if startswith content "Interface Descriptor:" then
         iface ← _parse_interface_descriptor;
         mret (Continue,
               ConfigurationDescriptor.with_interfaces
                 (ConfigurationDescriptor.interfaces config ++ [iface]) config)
       else
         _advance;; mret (Continue, config))
    config.

(* The endpoint that _build_alternate_settings pairs with a streaming
   interface: in the first interface descriptor with the same interface
   number and alternate setting (the loop breaks there), the first endpoint
   whose usage type is DATA, else the first endpoint; None when no interface
   matches or the matching one has no endpoint. *)
Definition data_endpoint (interfaces : list InterfaceDescriptor.t)
    (streaming : AudioStreamingInterface.t) : option EndpointDescriptor.t :=
  match
    List.find
      (fun iface =>
         (InterfaceDescriptor.interface_number iface
          =? AudioStreamingInterface.interface_number streaming)
         && (InterfaceDescriptor.alternate_setting iface
             =? AudioStreamingInterface.alternate_setting streaming))
      interfaces
  with
  | Some iface =>
      match
        List.find
          (fun ep => bool_decide (EndpointDescriptor.usage_type ep = DATA))
          (InterfaceDescriptor.endpoints iface)
      with
      | Some ep => Some ep
      | None => head (InterfaceDescriptor.endpoints iface)
      end
  | None => None
  end.

(* One iteration of the loop of _build_alternate_settings: the streaming
   interface as the iteration leaves it (streaming.endpoint = ep), and the
   AlternateSetting appended, whose streaming_interface is that object. *)
Definition alternate_setting_of (interfaces : list InterfaceDescriptor.t)
    (streaming : AudioStreamingInterface.t)
    : AudioStreamingInterface.t * AlternateSetting.t :=
  let found := data_endpoint interfaces streaming in
  let streaming :=
    match found with
    | Some ep => AudioStreamingInterface.with_endpoint (Some ep) streaming
    | None => streaming
    end in
  let alt := AlternateSetting.default in
  let alt :=
    AlternateSetting.with_interface_number
      (AudioStreamingInterface.interface_number streaming) alt in
  let alt :=
    AlternateSetting.with_alternate_setting
      (AudioStreamingInterface.alternate_setting streaming) alt in
  let alt := AlternateSetting.with_streaming_interface (Some streaming) alt in
  let alt := AlternateSetting.with_format (AudioStreamingInterface.format streaming) alt in
  let alt := AlternateSetting.with_endpoint found alt in
  (streaming, alt).

(* LsusbParser._build_alternate_settings: the list returned, and the device
   with the streaming interfaces as the loop has updated them *)
Definition _build_alternate_settings (device : USBAudioDevice.t)
    : list AlternateSetting.t * USBAudioDevice.t :=
  match USBAudioDevice.configuration device with
  | None => ([], device)
  | Some configuration =>
      let pairs :=
        alternate_setting_of (ConfigurationDescriptor.interfaces configuration)
          <$> USBAudioDevice.streaming_interfaces device in
      (snd <$> pairs, USBAudioDevice.with_streaming_interfaces (fst <$> pairs) device)
  end.

(* LsusbParser.parse *)
Definition parse : M USBAudioDevice.t :=
  while_ (fun _ => true)
    (fun line (u : unit) =>
       let content := content line in
       if startswith content "Bus " then
         (* Start of device - parse bus/device info if needed *)
         _advance;; mret (Continue, u)
       else if startswith content "Device Descriptor:" then
         desc ← _parse_device_descriptor;
         device ← get_device;
         set_device (USBAudioDevice.with_device desc device);;
         mret (Continue, u)
       else if startswith content "Configuration Descriptor:" then
         config ← _parse_configuration_descriptor;
         device ← get_device;
         set_device (USBAudioDevice.with_configuration (Some config) device);;
         mret (Continue, u)
       else
         _advance;; mret (Continue, u))
    tt;;
  (* Build alternate settings list from streaming interfaces *)
  device ← get_device;
  let '(alt_settings, device) := _build_alternate_settings device in
  let device := USBAudioDevice.with_alternate_settings alt_settings device in
  set_device device;;
  mret device.

(* parse_lsusb *)
Definition parse_lsusb (text : string) : outcome USBAudioDevice.t :=
  let parser := LsusbParser_init text in
  match parse {| self := parser; device := USBAudioDevice.default |} with
  | Return (device, _) => Return device
  | Raise e => Raise e
  | OutOfFuel => OutOfFuel
  end.

End Parser.

(** ** Notions used to state the properties of the topology graph *)

Module TopologySpec.

Import Topology.

(* The edge list a scalar reference contributes: the guard of the loops over
   output terminals, feature units and clock multipliers. *)
Definition scalar_ref_edges (g : TopologyGraph) (mk : Z -> Z -> TopologyEdge)
    (source target : Z) : list TopologyEdge :=
  if negb (source =? 0) && dict_contains (nodes g) source then [mk source target] else [].

(* The edge list a list of references contributes: the guard of the loops
   over source_ids and clock_pin_ids. *)
Definition list_ref_edges (g : TopologyGraph) (mk : Z -> Z -> TopologyEdge)
    (sources : list Z) (target : Z) : list TopologyEdge :=
  flat_map (fun source => if dict_contains (nodes g) source then [mk source target] else [])
    sources.

(* All the edges one call of _build_edges appends, in order. *)
Definition new_edges (g : TopologyGraph) (ac : AudioControlInterface.t)
    : list TopologyEdge :=
  flat_map
    (fun t => scalar_ref_edges g (signal_edge g)
                (OutputTerminal.source_id t) (OutputTerminal.terminal_id t))
    (AudioControlInterface.output_terminals ac)
  ++ flat_map
       (fun u => scalar_ref_edges g (signal_edge g)
                   (FeatureUnit.source_id u) (FeatureUnit.unit_id u))
       (AudioControlInterface.feature_units ac)
  ++ flat_map
       (fun u => list_ref_edges g (signal_edge g)
                   (MixerUnit.source_ids u) (MixerUnit.unit_id u))
       (AudioControlInterface.mixer_units ac)
  ++ flat_map
       (fun u => list_ref_edges g (signal_edge g)
                   (SelectorUnit.source_ids u) (SelectorUnit.unit_id u))
       (AudioControlInterface.selector_units ac)
  ++ flat_map
       (fun u => list_ref_edges g (signal_edge g)
                   (ProcessingUnit.source_ids u) (ProcessingUnit.unit_id u))
       (AudioControlInterface.processing_units ac)
  ++ flat_map
       (fun u => list_ref_edges g (signal_edge g)
                   (ExtensionUnit.source_ids u) (ExtensionUnit.unit_id u))
       (AudioControlInterface.extension_units ac)
  ++ flat_map
       (fun c => list_ref_edges g clock_edge
                   (ClockSelector.clock_pin_ids c) (ClockSelector.clock_id c))
       (AudioControlInterface.clock_selectors ac)
  ++ flat_map
       (fun c => scalar_ref_edges g clock_edge
                   (ClockMultiplier.clock_source_id c) (ClockMultiplier.clock_id c))
       (AudioControlInterface.clock_multipliers ac).

(* The SignalPath objects that _find_signal_paths makes of the id lists
   found for one output terminal. *)
Definition paths_of (g : TopologyGraph) (found_paths : list (list Z)) : list SignalPath :=
  flat_map
    (fun node_ids =>
       match omap (fun nid => nodes g !! nid) node_ids with
       | [] => []
       | n :: ns =>
           [{| path_nodes := n :: ns; path_description := _describe_path (n :: ns) |}]
       end)
    found_paths.

(* An AudioControlInterface with the given terminals and units and nothing
   else. *)
Definition interface_of (its : list InputTerminal.t) (ots : list OutputTerminal.t)
    (fus : list FeatureUnit.t) (mus : list MixerUnit.t) : AudioControlInterface.t :=
  AudioControlInterface.with_input_terminals its
    (AudioControlInterface.with_output_terminals ots
       (AudioControlInterface.with_feature_units fus
          (AudioControlInterface.with_mixer_units mus AudioControlInterface.default))).

Definition device_of (ac : AudioControlInterface.t) : USBAudioDevice.t :=
  USBAudioDevice.with_audio_control (Some ac) USBAudioDevice.default.

Definition input_terminal (tid : Z) : InputTerminal.t :=
  InputTerminal.with_terminal_id tid InputTerminal.default.

Definition output_terminal (tid source : Z) : OutputTerminal.t :=
  OutputTerminal.with_source_id source
    (OutputTerminal.with_terminal_id tid OutputTerminal.default).

Definition feature_unit (uid source : Z) : FeatureUnit.t :=
  FeatureUnit.with_source_id source (FeatureUnit.with_unit_id uid FeatureUnit.default).

Definition mixer_unit (uid : Z) (sources : list Z) : MixerUnit.t :=
  MixerUnit.with_source_ids sources (MixerUnit.with_unit_id uid MixerUnit.default).

(* The graph build_topology has assembled when it starts tracing paths. *)
Definition graph_before_paths (ac : AudioControlInterface.t) : TopologyGraph :=
  let graph := empty_graph in
  let graph := _add_input_terminals graph ac in
  let graph := _add_output_terminals graph ac in
  let graph := _add_feature_units graph ac in
  let graph := _add_mixer_units graph ac in
  let graph := _add_selector_units graph ac in
  let graph := _add_processing_units graph ac in
  let graph := _add_extension_units graph ac in
  let graph := _add_clock_entities graph ac in
  _build_edges graph ac.

(* What a caller reads off a built graph: number of nodes, number of edges,
   and the id sequences of the signal paths. *)
Definition summary (g : TopologyGraph) : nat * nat * list (list Z) :=
  (size (nodes g), length (edges g), path_ids <$> signal_paths g).

(* The (source, target, is_clock) triples of the edges. *)
Definition edge_triples (g : TopologyGraph) : list (Z * Z * bool) :=
  (fun e => (source_id e, target_id e, is_clock e)) <$> edges g.

(* Two feature units that name each other as source, behind output
   terminal 4; input terminal 1 feeds nothing. *)
Definition two_unit_cycle : USBAudioDevice.t :=
  device_of (interface_of [input_terminal 1] [output_terminal 4 3]
               [feature_unit 2 3; feature_unit 3 2] []).

(* A feedback loop next to a real route: mixer 2 takes input terminal 1 and
   feature unit 3, which itself takes mixer 2; output terminal 4 takes the
   mixer. *)
Definition mixer_feedback : USBAudioDevice.t :=
  device_of (interface_of [input_terminal 1] [output_terminal 4 2]
               [feature_unit 3 2] [mixer_unit 2 [1; 3]]).

(* Feature unit 5 names entity 9, which does not exist. *)
Definition dangling_source : USBAudioDevice.t :=
  device_of (interface_of [input_terminal 1] [output_terminal 6 5] [feature_unit 5 9] []).

(* An entity with id 0 exists (input terminal 0); output terminal 1 and
   feature unit 3 name it through their scalar source_id, mixer 2 through
   its source list. *)
Definition zero_sources : USBAudioDevice.t :=
  device_of (interface_of [input_terminal 0] [output_terminal 1 0] [feature_unit 3 0]
               [mixer_unit 2 [0]]).

(* A graph whose only node has id 0. *)
Definition node_zero_graph : TopologyGraph :=
  add_node 0
    {| id := 0; node_type := INPUT_TERMINAL; name := EmptyString;
       description := EmptyString; channels := 0; entity := None;
       is_usb_streaming := false; controls := [] |}
    keep keep keep keep keep keep empty_graph.

End TopologySpec.

(** ** Notions used to state the properties of the parser *)

Module ParserSpec.

Import Py Parser.

(* How a call may end: with a result satisfying [Q], or with an exception
   that [allowed] lets through; never with the model's budget exhausted. *)
Definition ends {A : Type} (allowed : exn -> Prop) (Q : A -> state -> Prop)
    (o : outcome (A * state)) : Prop :=
  match o with
  | Return (a, st') => Q a st'
  | Raise e => allowed e
  | OutOfFuel => False
  end.

Definition no_exn : exn -> Prop := fun _ => False.

Definition only_IndexError : exn -> Prop := fun e => e = IndexError.

(* The lines at indices p .. q-1 all satisfy [c]: the lines a loop with
   condition [c] has consumed when it moves the cursor from p to q. *)
Definition consumed (ls : list LsusbLine) (c : LsusbLine -> bool) (p q : nat) : Prop :=
  (p <= q)%nat /\ forall i l, (p <= i < q)%nat -> ls !! i = Some l -> c l = true.

(* The cursor q stands at the end of input or on a line that fails [c]. *)
Definition stops_at (ls : list LsusbLine) (c : LsusbLine -> bool) (q : nat) : Prop :=
  forall l, ls !! q = Some l -> c l = false.

(* The call changed nothing but the cursor. *)
Definition only_pos (st st' : state) : Prop := st' = set_pos (pos (self st')) st.

(* The call left the token list alone. *)
Definition same_lines (st st' : state) : Prop := lines (self st') = lines (self st).

(* What one iteration of a loop with condition [cond] does: it moves the
   cursor forward over lines that satisfy [cond], changing the state within
   [R], or it breaks on a line satisfying [brk] without touching the state. *)
Definition iteration {A : Type} (R : state -> state -> Prop) (cond : LsusbLine -> bool)
    (brk : LsusbLine -> Prop) (line : LsusbLine) (st : state) (r : flow * A) (st' : state)
    : Prop :=
  match fst r with
  | Continue =>
      R st st' /\ (pos (self st) < pos (self st'))%nat
      /\ consumed (lines (self st)) cond (pos (self st)) (pos (self st'))
  | Break => st' = st /\ brk line
  end.

(* What the loop does: it stops at the first line that fails [cond], at the
   end of input, or on the line at which the body broke. *)
Definition loop_exit (R : state -> state -> Prop) (cond : LsusbLine -> bool)
    (brk : LsusbLine -> Prop) (st st' : state) : Prop :=
  R st st'
  /\ consumed (lines (self st)) cond (pos (self st)) (pos (self st'))
  /\ (stops_at (lines (self st)) cond (pos (self st'))
      \/ exists l, current_line st' = Some l /\ cond l = true /\ brk l).

Definition never_breaks : LsusbLine -> Prop := fun _ => False.

(* The indentation boundary law for a method called on a header line: it
   returns, having consumed only lines indented deeper than the header, and
   leaves the cursor at the end of input or on the first line that is not
   indented deeper than the header. *)
Definition indentation_law {A : Type} (allowed : exn -> Prop) (p : M A) : Prop :=
  forall (st : state) (header : LsusbLine),
    current_line st = Some header ->
    ends allowed
      (fun _ st' =>
         same_lines st st'
         /\ consumed (lines (self st)) (in_block (indent header))
              (S (pos (self st))) (pos (self st'))
         /\ stops_at (lines (self st)) (in_block (indent header)) (pos (self st')))
      (p st).

(* The same with the exit that _parse_device_descriptor has: the cursor may
   also be left on a body line that starts a Configuration Descriptor. *)
Definition indentation_law_upto_configuration {A : Type} (allowed : exn -> Prop) (p : M A)
    : Prop :=
  forall (st : state) (header : LsusbLine),
    current_line st = Some header ->
    ends allowed
      (fun _ st' =>
         same_lines st st'
         /\ consumed (lines (self st)) (in_block (indent header))
              (S (pos (self st))) (pos (self st'))
         /\ (stops_at (lines (self st)) (in_block (indent header)) (pos (self st'))
             \/ exists l, current_line st' = Some l
                          /\ in_block (indent header) l = true
                          /\ startswith (content l) "Configuration Descriptor:" = true))
      (p st).

(* A leaf block read from the first body line: nothing moves but the
   cursor, which ends on the boundary. *)
Definition reads_block {A : Type} (start_indent : nat) (p : M A) : Prop :=
  forall st, exists a q,
    p st = Return (a, set_pos q st)
    /\ consumed (lines (self st)) (in_block start_indent) (pos (self st)) q
    /\ stops_at (lines (self st)) (in_block start_indent) q.

(* The last two statements of parse(), on the device as the main loop
   leaves it: device.alternate_settings = self._build_alternate_settings(device) *)
Definition finish (device : USBAudioDevice.t) : USBAudioDevice.t :=
  let '(alt_settings, device) := _build_alternate_settings device in
  USBAudioDevice.with_alternate_settings alt_settings device.

(* The state in which parse() starts on [text]. *)
Definition initial_state (text : string) : state :=
  {| self := LsusbParser_init text; device := USBAudioDevice.default |}.

(* The state with the cursor on line [p] of [text]. *)
Definition state_at (text : string) (p : nat) : state := set_pos p (initial_state text).

(* lines[p:q] *)
Definition slice (ls : list LsusbLine) (p q : nat) : list LsusbLine :=
  take (q - p) (drop p ls).

(* The (interface number, alternate setting) key of an AlternateSetting. *)
Definition alt_key (alt : AlternateSetting.t) : Z * Z :=
  (AlternateSetting.interface_number alt, AlternateSetting.alternate_setting alt).

(* Lexicographic order on keys. *)
Definition key_le (a b : Z * Z) : bool :=
  (fst a <? fst b) || ((fst a =? fst b) && (snd a <=? snd b)).

(* Every pair of consecutive keys is in order. *)
Fixpoint sorted_keys (ks : list (Z * Z)) : bool :=
  match ks with
  | a :: (b :: _) as rest => key_le a b && sorted_keys rest
  | _ => true
  end.

(* An AlternateSetting stands for a streaming interface: it refers to it and
   repeats its key, format and endpoint. *)
Definition alt_of_streaming (alt : AlternateSetting.t) (s : AudioStreamingInterface.t)
    : Prop :=
  AlternateSetting.streaming_interface alt = Some s
  /\ AlternateSetting.interface_number alt = AudioStreamingInterface.interface_number s
  /\ AlternateSetting.alternate_setting alt = AudioStreamingInterface.alternate_setting s
  /\ AlternateSetting.format alt = AudioStreamingInterface.format s.




(* The (interface number, alternate setting) key of a streaming interface. *)
Definition streaming_key (s : AudioStreamingInterface.t) : Z * Z :=
  (AudioStreamingInterface.interface_number s, AudioStreamingInterface.alternate_setting s).



(** *** Inputs *)

(* A Device Descriptor whose bcdUSB line carries no value. *)
Definition bcdUSB_without_value : string :=
  "Device Descriptor:
  bcdUSB".

(* A device with two configurations, one per audio class version, the way
   lsusb -v prints them. *)
Definition two_configurations : string :=
  "Device Descriptor:
  bNumConfigurations      2
  Configuration Descriptor:
    bConfigurationValue     1
    Interface Descriptor:
      bInterfaceNumber        0
      AudioControl Interface Descriptor:
        bDescriptorSubtype      1 (HEADER)
        bcdADC               1.00
      AudioControl Interface Descriptor:
        bDescriptorSubtype      2 (INPUT_TERMINAL)
        bTerminalID             1
  Configuration Descriptor:
    bConfigurationValue     2
    Interface Descriptor:
      bInterfaceNumber        0
      AudioControl Interface Descriptor:
        bDescriptorSubtype      1 (HEADER)
        bcdADC               2.00
      AudioControl Interface Descriptor:
        bDescriptorSubtype      2 (INPUT_TERMINAL)
        bTerminalID             2".

(* A configuration that lists streaming interface 2 before interface 1. *)
Definition interface_2_before_1 : string :=
  "Configuration Descriptor:
  Interface Descriptor:
    bInterfaceNumber        2
    bAlternateSetting       1
    AudioStreaming Interface Descriptor:
      bDescriptorSubtype      1 (AS_GENERAL)
      bTerminalLink           1
  Interface Descriptor:
    bInterfaceNumber        1
    bAlternateSetting       1
    AudioStreaming Interface Descriptor:
      bDescriptorSubtype      1 (AS_GENERAL)
      bTerminalLink           2".


(* The inputs of tests/test_parser.py::test_non_audio_device and
   ::test_partial_audio_device. *)
Definition non_audio_device : string :=
  "
Bus 001 Device 002: ID 0123:4567 Some Company
Device Descriptor:
  bLength                18
  bDescriptorType         1
  bcdUSB               2.00
  bDeviceClass            0
  bDeviceSubClass         0
  idVendor           0x0123
  idProduct          0x4567
  iManufacturer           1 Test Manufacturer
  iProduct                2 Test Product
  bNumConfigurations      1
        ".

Definition partial_audio_device : string :=
  "
Bus 001 Device 002: ID 0123:4567 Some Company
Device Descriptor:
  bLength                18
  bDescriptorType         1
  bcdUSB               2.00
  idVendor           0x0123
  idProduct          0x4567
  bNumConfigurations      1
  Configuration Descriptor:
    bLength                 9
    bDescriptorType         2
    bNumInterfaces          1
    Interface Descriptor:
      bLength                 9
      bDescriptorType         4
      bInterfaceNumber        0
      bAlternateSetting       0
      bNumEndpoints           0
      bInterfaceClass         1 Audio
      bInterfaceSubClass      1 Control Device
      AudioControl Interface Descriptor:
        bLength                10
        bDescriptorType        36
        bDescriptorSubtype      1 (HEADER)
        bcdADC               1.00
        wTotalLength       0x0020
        bInCollection           1
        baInterfaceNr(0)        1
        ".

(* What the tests read off a parsed device. *)
Definition device_summary (d : USBAudioDevice.t)
    : Z * string * string * string * UACVersion * option (Z * list Z) :=
  (DeviceDescriptor.vendor_id (USBAudioDevice.device d),
   DeviceDescriptor.manufacturer (USBAudioDevice.device d),
   DeviceDescriptor.product (USBAudioDevice.device d),
   DeviceDescriptor.usb_version (USBAudioDevice.device d),
   USBAudioDevice_uac_version d,
   match USBAudioDevice.audio_control d with
   | Some ac =>
       match AudioControlInterface.header ac with
       | Some h =>
           Some (AudioControlHeader.bcd_adc h, AudioControlHeader.interface_numbers h)
       | None => None
       end
   | None => None
   end).

Definition outcome_map {A B : Type} (f : A -> B) (o : outcome A) : outcome B :=
  match o with
  | Return a => Return (f a)
  | Raise e => Raise e
  | OutOfFuel => OutOfFuel
  end.

End ParserSpec.

(** ** Notions used to state further properties of the graph *)

Module GraphSpec.

Import Topology TopologySpec.

(* The id of an entity, whatever its kind. *)
Definition entity_id (e : Entity) : Z :=
  match e with
  | EInputTerminal t => InputTerminal.terminal_id t
  | EOutputTerminal t => OutputTerminal.terminal_id t
  | EFeatureUnit u => FeatureUnit.unit_id u
  | EMixerUnit u => MixerUnit.unit_id u
  | ESelectorUnit u => SelectorUnit.unit_id u
  | EProcessingUnit u => ProcessingUnit.unit_id u
  | EExtensionUnit u => ExtensionUnit.unit_id u
  | EClockSource c => ClockSource.clock_id c
  | EClockSelector c => ClockSelector.clock_id c
  | EClockMultiplier c => ClockMultiplier.clock_id c
  end.

(* The entities of an interface, in the order in which build_topology
   creates their nodes (which is also the search order of get_entity_by_id). *)
Definition entities (ac : AudioControlInterface.t) : list Entity :=
  (EInputTerminal <$> AudioControlInterface.input_terminals ac)
  ++ (EOutputTerminal <$> AudioControlInterface.output_terminals ac)
  ++ (EFeatureUnit <$> AudioControlInterface.feature_units ac)
  ++ (EMixerUnit <$> AudioControlInterface.mixer_units ac)
  ++ (ESelectorUnit <$> AudioControlInterface.selector_units ac)
  ++ (EProcessingUnit <$> AudioControlInterface.processing_units ac)
  ++ (EExtensionUnit <$> AudioControlInterface.extension_units ac)
  ++ (EClockSource <$> AudioControlInterface.clock_sources ac)
  ++ (EClockSelector <$> AudioControlInterface.clock_selectors ac)
  ++ (EClockMultiplier <$> AudioControlInterface.clock_multipliers ac).

(* The node type build_topology gives the node of an entity. *)
Definition kind (e : Entity) : NodeType :=
  match e with
  | EInputTerminal _ => INPUT_TERMINAL
  | EOutputTerminal _ => OUTPUT_TERMINAL
  | EFeatureUnit _ => FEATURE_UNIT
  | EMixerUnit _ => MIXER_UNIT
  | ESelectorUnit _ => SELECTOR_UNIT
  | EProcessingUnit _ => PROCESSING_UNIT
  | EExtensionUnit _ => EXTENSION_UNIT
  | EClockSource _ => CLOCK_SOURCE
  | EClockSelector _ => CLOCK_SELECTOR
  | EClockMultiplier _ => CLOCK_MULTIPLIER
  end.

(* The first and the last entity of a list with a given id. *)
Definition first_entity (k : Z) (l : list Entity) : option Entity :=
  List.find (fun e => entity_id e =? k) l.

Definition last_entity (k : Z) (l : list Entity) : option Entity :=
  first_entity k (reverse l).

(* A node that was made from entity [e] and stored under [k]. *)
Definition node_of (k : Z) (e : Entity) (n : TopologyNode) : Prop :=
  entity n = Some e /\ id n = k /\ entity_id e = k /\ node_type n = kind e.

(* The keys of graph.nodes follow an entity list: under each id sits a node
   made from the last entity of the list with that id. *)
Definition nodes_follow (g : TopologyGraph) (l : list Entity) : Prop :=
  forall k, match nodes g !! k with
            | Some n => exists e, last_entity k l = Some e /\ node_of k e n
            | None => last_entity k l = None
            end.

(* A category list of the graph holds the nodes made from a list of
   entities, one for one and in order. *)
Definition made_from (ns : list TopologyNode) (es : list Entity) : Prop :=
  Forall2 (fun n e => node_of (entity_id e) e n) ns es.

Definition entity_ids (ac : AudioControlInterface.t) : list Z := entity_id <$> entities ac.

(* The ids of the entities that refer to a source: the possible targets of
   an edge. *)
Definition consumer_ids (ac : AudioControlInterface.t) : list Z :=
  (OutputTerminal.terminal_id <$> AudioControlInterface.output_terminals ac)
  ++ (FeatureUnit.unit_id <$> AudioControlInterface.feature_units ac)
  ++ (MixerUnit.unit_id <$> AudioControlInterface.mixer_units ac)
  ++ (SelectorUnit.unit_id <$> AudioControlInterface.selector_units ac)
  ++ (ProcessingUnit.unit_id <$> AudioControlInterface.processing_units ac)
  ++ (ExtensionUnit.unit_id <$> AudioControlInterface.extension_units ac)
  ++ (ClockSelector.clock_id <$> AudioControlInterface.clock_selectors ac)
  ++ (ClockMultiplier.clock_id <$> AudioControlInterface.clock_multipliers ac).

(* A backward chain of the signal graph, written source first: it starts at
   an input terminal node and each further id has the node of the id before
   it among its sources (get_sources: a non-clock edge into it), every id
   but the first being that of a node that is not an input terminal. *)
Inductive signal_chain (g : TopologyGraph) : list Z -> Z -> Prop :=
  | chain_input (node_id : Z) (node : TopologyNode) :
      nodes g !! node_id = Some node ->
      node_type node = INPUT_TERMINAL ->
      signal_chain g [node_id] node_id
  | chain_step (node_id : Z) (node source : TopologyNode) (chain : list Z) :
      nodes g !! node_id = Some node ->
      node_type node <> INPUT_TERMINAL ->
      source ∈ get_sources g node_id ->
      signal_chain g chain (id source) ->
      signal_chain g (chain ++ [node_id]) node_id.

(* An interface in which input terminal 1 and feature unit 1 share an id. *)
Definition shared_id : AudioControlInterface.t :=
  interface_of [input_terminal 1] [] [feature_unit 1 0] [].

End GraphSpec.

(** ** Notions used to state further properties of the parser *)

Module ParserInvariants.

Import Py Parser ParserSpec.

#[local] Open Scope string_scope.
#[local] Open Scope list_scope.
#[local] Open Scope Z_scope.

(* The text holds a decimal digit. *)
Fixpoint has_digit (s : string) : bool :=
  match s with
  | EmptyString => false
  | String c s' => is_digit c || has_digit s'
  end.

(* A line that is not blank: the test of _tokenize. *)
Definition not_blank (line : string) : bool :=
  negb (String.eqb (strip line) EmptyString).

(* What an iteration of a loop keeps: the invariant [I] of the accumulator
   and the state, and, unless it breaks, the token list, with the cursor
   moved forward. *)
Definition keeps {A : Type} (I : A -> state -> Prop) (st : state) (r : flow * A)
    (st' : state) : Prop :=
  I (snd r) st'
  /\ (fst r = Continue ->
      same_lines st st' /\ (pos (self st) < pos (self st'))%nat).

(* A line that starts neither a Device Descriptor nor a Configuration
   Descriptor: parse() skips it. *)
Definition plain (line : LsusbLine) : Prop :=
  startswith (content line) "Device Descriptor:" = false
  /\ startswith (content line) "Configuration Descriptor:" = false.

(* What the parser guarantees of every endpoint it builds. *)
Definition endpoint_ok (ep : EndpointDescriptor.t) : Prop :=
  0 <= EndpointDescriptor.max_packet_size ep <= 0x7FF
  /\ 0 <= EndpointDescriptor.address ep
  /\ (EndpointDescriptor.direction ep = "" /\ EndpointDescriptor.address ep = 0
      \/ EndpointDescriptor.direction ep
         = if EndpointDescriptor_is_input ep then "IN" else "OUT")
  /\ EndpointDescriptor.transfer_type ep
     ∈ [""; "Control"; "Isochronous"; "Bulk"; "Interrupt"].

Definition interface_ok (iface : InterfaceDescriptor.t) : Prop :=
  Forall endpoint_ok (InterfaceDescriptor.endpoints iface).

Definition configuration_ok (config : ConfigurationDescriptor.t) : Prop :=
  Forall interface_ok (ConfigurationDescriptor.interfaces config).

Definition device_ok (d : USBAudioDevice.t) : Prop :=
  match USBAudioDevice.configuration d with
  | Some config => configuration_ok config
  | None => True
  end.

Definition alternate_setting_ok (alt : AlternateSetting.t) : Prop :=
  match AlternateSetting.endpoint alt with
  | Some ep => endpoint_ok ep
  | None => True
  end
  /\ 0 <= AlternateSetting_bandwidth_bytes_per_frame alt <= 0x7FF
  /\ (AlternateSetting_is_zero_bandwidth alt = true
      <-> AlternateSetting_bandwidth_bytes_per_frame alt = 0).

(* Two streaming interfaces that differ in their format at most. *)
Definition same_but_format (s s' : AudioStreamingInterface.t) : Prop :=
  AudioStreamingInterface.with_format None s' = AudioStreamingInterface.with_format None s.

(* Two devices that differ in their streaming interfaces at most. *)
Definition same_but_streaming (d d' : USBAudioDevice.t) : Prop :=
  USBAudioDevice.with_streaming_interfaces [] d'
  = USBAudioDevice.with_streaming_interfaces [] d.




(* A text of three lines, the second blank. *)
Definition three_lines : string :=
  String "B" (String "u" (String "s" (String (ascii_of_nat 10)
    (String " " (String (ascii_of_nat 10) (String " " (String "x" EmptyString))))))).

(* An AudioStreaming interface with one isochronous IN endpoint. *)
Definition streaming_endpoint : string :=
  "Configuration Descriptor:
  Interface Descriptor:
    bInterfaceNumber        1
    bAlternateSetting       1
    AudioStreaming Interface Descriptor:
      bDescriptorSubtype      1 (AS_GENERAL)
      bTerminalLink           2
    Endpoint Descriptor:
      bEndpointAddress     0x81  EP 1 IN
      bmAttributes            5
      wMaxPacketSize     0x00c0  1x 192 bytes".

End ParserInvariants.

(** * Properties of the topology graph (topology.py) *)

Section TopologyFacts.

Import Topology TopologySpec.

Lemma for_each_cons {A S : Type} (body : S -> A -> S) (x : A) (xs : list A) (s : S) :
  for_each (x :: xs) body s = for_each xs body (body s x).
Proof. reflexivity. Qed.

Lemma for_each_invariant {A S : Type} (P : S -> Prop) (body : S -> A -> S)
    (xs : list A) (s : S) :
  (forall s' x, P s' -> P (body s' x)) -> P s -> P (for_each xs body s).
Proof.
  intros Hbody. revert s.
  induction xs as [|x xs IH]; intros s Hs; [exact Hs|].
  rewrite for_each_cons. apply IH, Hbody, Hs.
Qed.

(* A loop that only appends to its accumulator builds a flat_map. *)
Lemma for_each_appends {A B : Type} (new : A -> list B) (body : list B -> A -> list B)
    (xs : list A) (init : list B) :
  (forall acc x, body acc x = acc ++ new x) ->
  for_each xs body init = init ++ flat_map new xs.
Proof.
  intros Hbody. revert init.
  induction xs as [|x xs IH]; intros init.
  - cbn. by rewrite app_nil_r.
  - rewrite for_each_cons, IH, Hbody. cbn. by rewrite app_assoc.
Qed.

Lemma with_edges_nodes (es : list TopologyEdge) (g : TopologyGraph) :
  nodes (with_edges es g) = nodes g.
Proof. reflexivity. Qed.

Lemma with_edges_twice (es es' : list TopologyEdge) (g : TopologyGraph) :
  with_edges es (with_edges es' g) = with_edges es g.
Proof. reflexivity. Qed.

Lemma with_edges_same (g : TopologyGraph) : with_edges (edges g) g = g.
Proof. by destruct g. Qed.

Lemma signal_edge_with_edges (es : list TopologyEdge) (g : TopologyGraph) (s t : Z) :
  signal_edge (with_edges es g) s t = signal_edge g s t.
Proof. reflexivity. Qed.

(* A loop whose body appends edges computed from the node map alone. *)
Lemma for_each_with_edges {A : Type} (new : A -> list TopologyEdge)
    (body : TopologyGraph -> A -> TopologyGraph) (xs : list A) (g : TopologyGraph) :
  (forall es x, body (with_edges es g) x = with_edges (es ++ new x) g) ->
  forall es,
    for_each xs body (with_edges es g) = with_edges (es ++ flat_map new xs) g.
Proof.
  intros Hbody.
  induction xs as [|x xs IH]; intros es.
  - cbn. by rewrite app_nil_r.
  - rewrite for_each_cons, Hbody, IH. cbn. by rewrite app_assoc.
Qed.

Lemma add_source_list_edges_eq (sources : list Z) (target : Z) (g : TopologyGraph)
    (es : list TopologyEdge) :
  add_source_list_edges sources target (with_edges es g)
  = with_edges (es ++ list_ref_edges g (signal_edge g) sources target) g.
Proof.
  unfold add_source_list_edges, list_ref_edges.
  apply for_each_with_edges. intros es' s.
  rewrite with_edges_nodes. destruct (dict_contains (nodes g) s).
  - reflexivity.
  - by rewrite app_nil_r.
Qed.

(* _build_edges leaves everything but the edge list alone, and appends
   exactly [new_edges]. *)
Lemma build_edges_eq (g : TopologyGraph) (ac : AudioControlInterface.t) :
  _build_edges g ac = with_edges (edges g ++ new_edges g ac) g.
Proof.
  unfold _build_edges, new_edges.
  rewrite <- (with_edges_same g) at 1.
  rewrite (for_each_with_edges
             (fun t => scalar_ref_edges g (signal_edge g)
                         (OutputTerminal.source_id t) (OutputTerminal.terminal_id t))).
  2:{ intros es t. unfold scalar_ref_edges. rewrite with_edges_nodes.
      destruct (_ && _); [reflexivity | by rewrite app_nil_r]. }
  rewrite (for_each_with_edges
             (fun u => scalar_ref_edges g (signal_edge g)
                         (FeatureUnit.source_id u) (FeatureUnit.unit_id u))).
  2:{ intros es t. unfold scalar_ref_edges. rewrite with_edges_nodes.
      destruct (_ && _); [reflexivity | by rewrite app_nil_r]. }
  rewrite (for_each_with_edges
             (fun u => list_ref_edges g (signal_edge g)
                         (MixerUnit.source_ids u) (MixerUnit.unit_id u))).
  2:{ intros es u. apply add_source_list_edges_eq. }
  rewrite (for_each_with_edges
             (fun u => list_ref_edges g (signal_edge g)
                         (SelectorUnit.source_ids u) (SelectorUnit.unit_id u))).
  2:{ intros es u. apply add_source_list_edges_eq. }
  rewrite (for_each_with_edges
             (fun u => list_ref_edges g (signal_edge g)
                         (ProcessingUnit.source_ids u) (ProcessingUnit.unit_id u))).
  2:{ intros es u. apply add_source_list_edges_eq. }
  rewrite (for_each_with_edges
             (fun u => list_ref_edges g (signal_edge g)
                         (ExtensionUnit.source_ids u) (ExtensionUnit.unit_id u))).
  2:{ intros es u. apply add_source_list_edges_eq. }
  rewrite (for_each_with_edges
             (fun c => list_ref_edges g clock_edge
                         (ClockSelector.clock_pin_ids c) (ClockSelector.clock_id c))).
  2:{ intros es c. unfold list_ref_edges. apply for_each_with_edges.
      intros es' s. rewrite with_edges_nodes.
      destruct (dict_contains (nodes g) s); [reflexivity | by rewrite app_nil_r]. }
  rewrite (for_each_with_edges
             (fun c => scalar_ref_edges g clock_edge
                         (ClockMultiplier.clock_source_id c) (ClockMultiplier.clock_id c))).
  2:{ intros es t. unfold scalar_ref_edges. rewrite with_edges_nodes.
      destruct (_ && _); [reflexivity | by rewrite app_nil_r]. }
  by rewrite <- !app_assoc.
Qed.

Lemma dict_contains_spec {V : Type} (d : gmap Z V) (k : Z) :
  dict_contains d k = true <-> is_Some (d !! k).
Proof. unfold dict_contains. by rewrite bool_decide_eq_true. Qed.

Lemma scalar_ref_edges_elem (g : TopologyGraph) (mk : Z -> Z -> TopologyEdge)
    (s t : Z) (e : TopologyEdge) :
  e ∈ scalar_ref_edges g mk s t <-> e = mk s t /\ s <> 0 /\ is_Some (nodes g !! s).
Proof.
  unfold scalar_ref_edges.
  destruct (Z.eqb_spec s 0) as [->|Hs]; cbn.
  - rewrite elem_of_nil. naive_solver.
  - destruct (dict_contains (nodes g) s) eqn:Hd.
    + apply dict_contains_spec in Hd. rewrite list_elem_of_singleton. naive_solver.
    + rewrite elem_of_nil. split; [done|]. intros (_ & _ & Hsome).
      apply dict_contains_spec in Hsome. congruence.
Qed.

Lemma list_ref_edges_elem (g : TopologyGraph) (mk : Z -> Z -> TopologyEdge)
    (ss : list Z) (t : Z) (e : TopologyEdge) :
  e ∈ list_ref_edges g mk ss t
  <-> exists s, s ∈ ss /\ e = mk s t /\ is_Some (nodes g !! s).
Proof.
  unfold list_ref_edges. rewrite list_elem_of_In, in_flat_map. split.
  - intros (s & Hin & He). exists s. rewrite list_elem_of_In. split; [done|].
    destruct (dict_contains (nodes g) s) eqn:Hd; [|by destruct He].
    apply dict_contains_spec in Hd. destruct He as [<-|[]]. done.
  - intros (s & Hin & -> & Hsome). exists s. rewrite <- list_elem_of_In. split; [done|].
    apply dict_contains_spec in Hsome. rewrite Hsome. by left.
Qed.

(** ** Loops that may exhaust the budget *)

Lemma for_each_opt_cons {A S : Type} (body : S -> A -> option S) (x : A) (xs : list A)
    (s : S) :
  for_each_opt (x :: xs) body s
  = match body s x with
    | Some s' => for_each_opt xs body s'
    | None => None
    end.
Proof.
  unfold for_each_opt. cbn. destruct (body s x) as [s'|]; [reflexivity|].
  induction xs as [|y ys IH]; [reflexivity | exact IH].
Qed.

(* A budgeted loop whose body appends what [f] finds for each element. *)
Lemma for_each_opt_appends {A B : Type} (f : A -> option (list B))
    (body : list B -> A -> option (list B)) (xs : list A) (init : list B) :
  (forall acc x, body acc x = match f x with
                              | Some found => Some (acc ++ found)
                              | None => None
                              end) ->
  for_each_opt xs body init
  = match mapM f xs with
    | Some founds => Some (init ++ concat founds)
    | None => None
    end.
Proof.
  intros Hbody. revert init.
  induction xs as [|x xs IH]; intros init.
  - cbn. by rewrite app_nil_r.
  - rewrite for_each_opt_cons, Hbody. cbn.
    destruct (f x) as [found|]; [|reflexivity].
    rewrite IH. cbn. destruct (mapM f xs) as [founds|]; [|reflexivity].
    cbn. by rewrite app_assoc.
Qed.

Lemma mapM_concat_elem {A B : Type} (f : A -> option (list B)) (xs : list A)
    (founds : list (list B)) (p : B) :
  mapM f xs = Some founds -> p ∈ concat founds ->
  exists x found, x ∈ xs /\ f x = Some found /\ p ∈ found.
Proof.
  intros Hmap Hp. apply mapM_Some in Hmap.
  induction Hmap as [|x found xs founds Hx _ IH]; cbn in Hp.
  - by apply elem_of_nil in Hp.
  - apply elem_of_app in Hp as [Hp|Hp].
    + exists x, found. split; [left|]; done.
    + destruct (IH Hp) as (x' & found' & Hin & Hf & Hp').
      exists x', found'. split; [by right|]; done.
Qed.

(** ** The backward trace *)

(* Every id list the trace returns extends the path under construction with
   pairwise distinct ids, none of which had been visited. *)
Lemma trace_back_rec_sound (g : TopologyGraph) (fuel : nat) :
  forall (node_id : Z) (current_path : list Z) (visited : gset Z) (ps : list (list Z)),
    _trace_back_rec fuel g node_id current_path visited = Some ps ->
    Forall (fun p => exists pre,
                p = pre ++ current_path /\ NoDup pre /\ (forall x, x ∈ pre -> x ∉ visited))
      ps.
Proof.
  induction fuel as [|fuel IH]; intros nid path visited ps Hrun; [discriminate|].
  cbn [_trace_back_rec] in Hrun.
  case_bool_decide as Hvis; [by inversion Hrun|].
  destruct (nodes g !! nid) as [node|]; [|by inversion Hrun].
  case_bool_decide as Hty.
  { inversion Hrun; subst ps. constructor; [|constructor].
    exists [nid]. split; [reflexivity|]. split; [apply NoDup_singleton|].
    intros x Hx. apply list_elem_of_singleton in Hx. by subst x. }
  destruct (get_sources g nid) as [|src srcs]; [by inversion Hrun|].
  rewrite (for_each_opt_appends
             (fun source => _trace_back_rec fuel g (id source) ([nid] ++ path)
                              (visited ∪ {[nid]}))) in Hrun by reflexivity.
  destruct (mapM _ (src :: srcs)) as [founds|] eqn:Hmap; [|discriminate].
  inversion Hrun; subst ps; clear Hrun. cbn [app].
  apply Forall_forall. intros p Hp.
  destruct (mapM_concat_elem _ _ _ _ Hmap Hp) as (source & found & _ & Hsrc & Hpf).
  apply IH in Hsrc. rewrite Forall_forall in Hsrc.
  destruct (Hsrc p Hpf) as (pre & -> & Hnd & Hfresh).
  exists (pre ++ [nid]). split; [by rewrite <- app_assoc|]. split.
  - apply NoDup_app. split; [done|]. split; [|apply NoDup_singleton].
    intros x Hx Hx'. apply list_elem_of_singleton in Hx'. subst x.
    apply (Hfresh nid Hx). set_solver.
  - intros x Hx. apply elem_of_app in Hx as [Hx|Hx].
    + specialize (Hfresh x Hx). set_solver.
    + apply list_elem_of_singleton in Hx. by subst x.
Qed.

(* One unit of budget per node not yet visited, and one more, is enough. *)
Lemma trace_back_rec_total (g : TopologyGraph) (fuel : nat) :
  forall (node_id : Z) (current_path : list Z) (visited : gset Z),
    (size (dom (nodes g) ∖ visited) < fuel)%nat ->
    is_Some (_trace_back_rec fuel g node_id current_path visited).
Proof.
  induction fuel as [|fuel IH]; intros nid path visited Hfuel; [lia|].
  cbn [_trace_back_rec].
  case_bool_decide as Hvis; [done|].
  destruct (nodes g !! nid) as [node|] eqn:Hnode; [|done].
  case_bool_decide as Hty; [done|].
  destruct (get_sources g nid) as [|src srcs]; [done|].
  rewrite (for_each_opt_appends
             (fun source => _trace_back_rec fuel g (id source) ([nid] ++ path)
                              (visited ∪ {[nid]}))) by reflexivity.
  assert (Hall : is_Some (mapM (fun source =>
                                  _trace_back_rec fuel g (id source) ([nid] ++ path)
                                    (visited ∪ {[nid]})) (src :: srcs))).
  { apply mapM_is_Some, Forall_forall. intros source _. apply IH.
    assert (Hsub : dom (nodes g) ∖ (visited ∪ {[nid]}) ⊂ dom (nodes g) ∖ visited).
    { assert (nid ∈ dom (nodes g)) by (apply elem_of_dom; eauto). set_solver. }
    apply subset_size in Hsub. lia. }
  destruct Hall as [founds ->]. done.
Qed.

Lemma trace_back_total (g : TopologyGraph) (node_id : Z) (current_path : list Z)
    (visited : gset Z) :
  is_Some (_trace_back g node_id current_path visited).
Proof.
  apply trace_back_rec_total.
  assert (size (dom (nodes g) ∖ visited) <= size (dom (nodes g)))%nat
    by (apply subseteq_size; set_solver).
  rewrite size_dom in H. lia.
Qed.

Lemma trace_back_cycle (g : TopologyGraph) (node_id : Z) (current_path : list Z)
    (visited : gset Z) :
  node_id ∈ visited -> _trace_back g node_id current_path visited = Some [].
Proof.
  intros Hvis. unfold _trace_back. cbn [_trace_back_rec].
  by rewrite bool_decide_eq_true_2.
Qed.

Lemma trace_back_NoDup (g : TopologyGraph) (node_id : Z) (ps : list (list Z)) :
  _trace_back g node_id [] ∅ = Some ps -> Forall NoDup ps.
Proof.
  intros Hrun. apply trace_back_rec_sound in Hrun.
  eapply Forall_impl; [exact Hrun|]. cbn.
  intros p (pre & -> & Hnd & _). by rewrite app_nil_r.
Qed.

(** ** From id lists to signal paths *)

Lemma find_signal_paths_eq (g : TopologyGraph) :
  _find_signal_paths g
  = match mapM (fun ot => match _trace_back g (id ot) [] ∅ with
                          | Some found_paths => Some (paths_of g found_paths)
                          | None => None
                          end) (output_terminals g) with
    | Some founds => Some (concat founds)
    | None => None
    end.
Proof.
  unfold _find_signal_paths.
  rewrite (for_each_opt_appends
             (fun ot => match _trace_back g (id ot) [] ∅ with
                        | Some found_paths => Some (paths_of g found_paths)
                        | None => None
                        end)).
  - reflexivity.
  - intros acc ot. destruct (_trace_back g (id ot) [] ∅) as [found|]; [|reflexivity].
    f_equal. unfold paths_of. apply for_each_appends.
    intros acc' ids. destruct (omap _ ids); [by rewrite app_nil_r | reflexivity].
Qed.

Lemma find_signal_paths_total (g : TopologyGraph) : is_Some (_find_signal_paths g).
Proof.
  rewrite find_signal_paths_eq.
  assert (Hall : is_Some (mapM (fun ot => match _trace_back g (id ot) [] ∅ with
                                          | Some found_paths => Some (paths_of g found_paths)
                                          | None => None
                                          end) (output_terminals g))).
  { apply mapM_is_Some, Forall_forall. intros ot _. unfold compose.
    destruct (trace_back_total g (id ot) [] ∅) as [found ->]. done. }
  destruct Hall as [founds ->]. done.
Qed.

(* The ids of the nodes looked up along a duplicate-free id list are
   duplicate-free, when every node sits under its own id. *)
Lemma omap_lookup_ids (m : gmap Z TopologyNode) (ids : list Z) :
  map_Forall (fun k n => id n = k) m ->
  forall x, x ∈ id <$> omap (fun nid => m !! nid) ids -> x ∈ ids.
Proof.
  intros Hkeyed. induction ids as [|i ids IH]; cbn; intros x Hx; [done|].
  destruct (m !! i) as [n|] eqn:Hn; cbn in Hx.
  - apply elem_of_cons in Hx as [->|Hx].
    + rewrite (Hkeyed i n Hn). by left.
    + right. by apply IH.
  - right. by apply IH.
Qed.

Lemma omap_lookup_NoDup (m : gmap Z TopologyNode) (ids : list Z) :
  map_Forall (fun k n => id n = k) m ->
  NoDup ids -> NoDup (id <$> omap (fun nid => m !! nid) ids).
Proof.
  intros Hkeyed. induction 1 as [|i ids Hi Hnd IH]; cbn; [constructor|].
  destruct (m !! i) as [n|] eqn:Hn; cbn; [|exact IH].
  constructor; [|exact IH].
  rewrite (Hkeyed i n Hn). intros Hin. apply Hi. by eapply omap_lookup_ids.
Qed.

Lemma find_signal_paths_NoDup (g : TopologyGraph) (paths : list SignalPath) :
  map_Forall (fun k n => id n = k) (nodes g) ->
  _find_signal_paths g = Some paths ->
  Forall (fun p => NoDup (path_ids p)) paths.
Proof.
  intros Hkeyed. rewrite find_signal_paths_eq.
  destruct (mapM _ (output_terminals g)) as [founds|] eqn:Hmap; [|discriminate].
  intros [= <-]. apply Forall_forall. intros p Hp.
  destruct (mapM_concat_elem _ _ _ _ Hmap Hp) as (ot & found & _ & Hot & Hpf).
  destruct (_trace_back g (id ot) [] ∅) as [idss|] eqn:Htb; [|discriminate].
  injection Hot as <-. apply trace_back_NoDup in Htb.
  unfold paths_of in Hpf. apply list_elem_of_In, in_flat_map in Hpf as (ids & Hids & Hp').
  apply list_elem_of_In in Hids. rewrite Forall_forall in Htb. specialize (Htb ids Hids).
  pose proof (omap_lookup_NoDup (nodes g) ids Hkeyed Htb) as Hnd.
  destruct (omap _ ids) as [|n ns]; [by destruct Hp'|].
  destruct Hp' as [<-|[]]. exact Hnd.
Qed.

(** ** The graph that build_topology returns *)

Lemma add_node_keyed (key : Z) (node : TopologyNode)
    (its ots us cs uits uots : list TopologyNode -> list TopologyNode)
    (g : TopologyGraph) :
  id node = key ->
  map_Forall (fun k n => id n = k) (nodes g) ->
  map_Forall (fun k n => id n = k) (nodes (add_node key node its ots us cs uits uots g)).
Proof. intros Hid Hg. cbn. by apply map_Forall_insert_2. Qed.

Lemma graph_before_paths_keyed (ac : AudioControlInterface.t) :
  map_Forall (fun k n => id n = k) (nodes (graph_before_paths ac)).
Proof.
  unfold graph_before_paths. rewrite build_edges_eq, with_edges_nodes.
  unfold _add_clock_entities, _add_extension_units, _add_processing_units,
    _add_selector_units, _add_mixer_units, _add_feature_units, _add_output_terminals,
    _add_input_terminals.
  repeat (apply for_each_invariant;
          [intros g x Hg; by apply add_node_keyed|]).
  apply map_Forall_empty.
Qed.

Lemma build_topology_eq (device : USBAudioDevice.t) :
  build_topology device
  = match USBAudioDevice.audio_control device with
    | None => Some empty_graph
    | Some ac =>
        match _find_signal_paths (graph_before_paths ac) with
        | Some paths => Some (with_signal_paths paths (graph_before_paths ac))
        | None => None
        end
    end.
Proof. reflexivity. Qed.

Lemma build_topology_total (device : USBAudioDevice.t) : is_Some (build_topology device).
Proof.
  rewrite build_topology_eq.
  destruct (USBAudioDevice.audio_control device) as [ac|]; [|done].
  destruct (find_signal_paths_total (graph_before_paths ac)) as [paths ->]. done.
Qed.

Lemma graph_before_paths_edges (ac : AudioControlInterface.t) :
  exists g0, nodes g0 = nodes (graph_before_paths ac)
             /\ edges (graph_before_paths ac) = new_edges g0 ac.
Proof.
  unfold graph_before_paths. rewrite build_edges_eq.
  eexists. split; [reflexivity|]. cbn [edges with_edges].
  assert (Hedges : forall g, edges g = [] ->
            edges (_add_clock_entities
                     (_add_extension_units
                        (_add_processing_units
                           (_add_selector_units
                              (_add_mixer_units
                                 (_add_feature_units
                                    (_add_output_terminals
                                       (_add_input_terminals g ac) ac) ac) ac) ac) ac) ac)
                     ac) = []).
  { intros g Hg.
    unfold _add_clock_entities, _add_extension_units, _add_processing_units,
      _add_selector_units, _add_mixer_units, _add_feature_units, _add_output_terminals,
      _add_input_terminals.
    repeat (apply (for_each_invariant (fun g => edges g = [])); [intros g' x Hg'; exact Hg'|]).
    exact Hg. }
  by rewrite Hedges.
Qed.

Lemma new_edges_resolved (g : TopologyGraph) (ac : AudioControlInterface.t) :
  Forall (fun e => is_Some (nodes g !! source_id e)) (new_edges g ac).
Proof.
  unfold new_edges. repeat apply Forall_app_2; apply Forall_forall; intros e He;
    apply list_elem_of_In, in_flat_map in He as (x & _ & He); apply list_elem_of_In in He.
  all: first [ apply scalar_ref_edges_elem in He as (-> & _ & Hs); exact Hs
             | apply list_ref_edges_elem in He as (s & _ & -> & Hs); exact Hs ].
Qed.

(** C4: the graph of the scenario with input terminals 1 and 2, output
    terminals 6 (source 5) and 7 (source 4), and feature units 4 (source 2)
    and 5 (source 1) has exactly 6 nodes, exactly 4 edges and exactly the two
    signal paths [1, 5, 6] and [2, 4, 7], whatever the other attributes of
    these terminals and units are. *)
Theorem C4_scenario_graph
    (it1 it2 : InputTerminal.t) (ot6 ot7 : OutputTerminal.t) (fu4 fu5 : FeatureUnit.t) :
  InputTerminal.terminal_id it1 = 1 -> InputTerminal.terminal_id it2 = 2 ->
  OutputTerminal.terminal_id ot6 = 6 -> OutputTerminal.source_id ot6 = 5 ->
  OutputTerminal.terminal_id ot7 = 7 -> OutputTerminal.source_id ot7 = 4 ->
  FeatureUnit.unit_id fu4 = 4 -> FeatureUnit.source_id fu4 = 2 ->
  FeatureUnit.unit_id fu5 = 5 -> FeatureUnit.source_id fu5 = 1 ->
  summary <$> build_topology (device_of (interface_of [it1; it2] [ot6; ot7] [fu4; fu5] []))
  = Some (6%nat, 4%nat, [[1; 5; 6]; [2; 4; 7]]).
Proof.
  destruct it1, it2, ot6, ot7, fu4, fu5. intros. simpl in *. subst.
  vm_compute. reflexivity.
Qed.

Lemma C4_scenario_graph_witness :
  summary <$> build_topology
                (device_of (interface_of [input_terminal 1; input_terminal 2]
                              [output_terminal 6 5; output_terminal 7 4]
                              [feature_unit 4 2; feature_unit 5 1] []))
  = Some (6%nat, 4%nat, [[1; 5; 6]; [2; 4; 7]]).
Proof.
  apply C4_scenario_graph; reflexivity.
Defined.

(** C7: no signal path repeats a node id.  The id lists that the backward
    trace returns from any node of any graph are duplicate-free, and so are
    the id sequences of the signal paths of every graph that build_topology
    returns (which it always does). *)
Theorem C7_paths_are_acyclic :
  (forall (g : TopologyGraph) (node_id : Z),
      exists ps, _trace_back g node_id [] ∅ = Some ps /\ Forall NoDup ps)
  /\ (forall device : USBAudioDevice.t,
         exists g, build_topology device = Some g
                   /\ Forall (fun p => NoDup (path_ids p)) (signal_paths g)).
Proof.
  split.
  - intros g nid. destruct (trace_back_total g nid [] ∅) as [ps Hps].
    exists ps. split; [exact Hps|]. by eapply trace_back_NoDup.
  - intros device. destruct (build_topology_total device) as [g Hg].
    exists g. split; [exact Hg|].
    rewrite build_topology_eq in Hg.
    destruct (USBAudioDevice.audio_control device) as [ac|].
    + destruct (_find_signal_paths (graph_before_paths ac)) as [paths|] eqn:Hpaths;
        [|discriminate].
      injection Hg as <-. cbn [signal_paths with_signal_paths].
      eapply find_signal_paths_NoDup; [|exact Hpaths].
      apply graph_before_paths_keyed.
    + injection Hg as <-. constructor.
Qed.

(** C8: the backward trace terminates on every graph, cyclic or not: within
    its budget of one step per node it returns a list of paths, each of
    which extends the path under construction by fresh, pairwise distinct
    ids; reaching a node that is already on the path under construction
    yields no path; build_topology returns a graph for every device.  With
    two units naming each other as source no path is produced, and a
    feedback loop beside a real route leaves exactly the real route. *)
Theorem C8_trace_terminates_on_cycles :
  (forall (g : TopologyGraph) (node_id : Z) (current_path : list Z) (visited : gset Z),
      exists ps,
        _trace_back g node_id current_path visited = Some ps
        /\ Forall (fun p => exists pre,
                       p = pre ++ current_path /\ NoDup pre
                       /\ (forall x, x ∈ pre -> x ∉ visited)) ps)
  /\ (forall (g : TopologyGraph) (node_id : Z) (current_path : list Z) (visited : gset Z),
         node_id ∈ visited -> _trace_back g node_id current_path visited = Some [])
  /\ (forall device : USBAudioDevice.t, is_Some (build_topology device))
  /\ summary <$> build_topology two_unit_cycle = Some (4%nat, 3%nat, [])
  /\ summary <$> build_topology mixer_feedback = Some (4%nat, 4%nat, [[1; 2; 4]]).
Proof.
  split; [|split; [|split; [|split]]].
  - intros g nid path visited.
    destruct (trace_back_total g nid path visited) as [ps Hps].
    exists ps. split; [exact Hps|]. by eapply trace_back_rec_sound.
  - apply trace_back_cycle.
  - apply build_topology_total.
  - vm_compute. reflexivity.
  - vm_compute. reflexivity.
Qed.

Lemma C8_trace_terminates_on_cycles_witness :
  _trace_back empty_graph 3 [4] {[3]} = Some [].
Proof.
  apply (proj1 (proj2 C8_trace_terminates_on_cycles)). apply elem_of_singleton_2. reflexivity.
Defined.

(** C9: a source reference whose id has no node produces no edge and no
    error.  _build_edges is a total function that changes nothing but the
    edge list, to which it appends only edges whose source is a key of
    graph.nodes; every edge of a graph that build_topology returns (which it
    always does) starts at an existing node; a feature unit naming the
    missing entity 9 yields no edge for that reference. *)
Theorem C9_dangling_references_dropped :
  (forall (g : TopologyGraph) (ac : AudioControlInterface.t),
      exists new,
        _build_edges g ac = with_edges (edges g ++ new) g
        /\ Forall (fun e => is_Some (nodes g !! source_id e)) new)
  /\ (forall device : USBAudioDevice.t,
         exists g, build_topology device = Some g
                   /\ Forall (fun e => is_Some (nodes g !! source_id e)) (edges g))
  /\ edge_triples <$> build_topology dangling_source = Some [(5, 6, false)].
Proof.
  split; [|split].
  - intros g ac. exists (new_edges g ac). split; [apply build_edges_eq|].
    apply new_edges_resolved.
  - intros device. destruct (build_topology_total device) as [g Hg].
    exists g. split; [exact Hg|].
    rewrite build_topology_eq in Hg.
    destruct (USBAudioDevice.audio_control device) as [ac|].
    + destruct (_find_signal_paths (graph_before_paths ac)) as [paths|]; [|discriminate].
      injection Hg as <-. cbn [edges nodes with_signal_paths].
      destruct (graph_before_paths_edges ac) as (g0 & <- & ->).
      apply new_edges_resolved.
    + injection Hg as <-. constructor.
  - vm_compute. reflexivity.
Qed.

Lemma source_id_signal_edge (g : TopologyGraph) (s t : Z) : source_id (signal_edge g s t) = s.
Proof. reflexivity. Qed.

Lemma list_ref_edges_zero (g : TopologyGraph) (mk : Z -> Z -> TopologyEdge)
    (ss : list Z) (t : Z) :
  is_Some (nodes g !! 0) -> 0 ∈ ss -> mk 0 t ∈ list_ref_edges g mk ss t.
Proof. intros Hnode Hin. apply list_ref_edges_elem. by exists 0. Qed.

Lemma elem_of_flat_map_2 {A B : Type} (f : A -> list B) (xs : list A) (x : A) (y : B) :
  x ∈ xs -> y ∈ f x -> y ∈ flat_map f xs.
Proof.
  intros Hx Hy. apply list_elem_of_In, in_flat_map. exists x.
  by rewrite <- !list_elem_of_In.
Qed.

(** C10: the zero guard.  Among the edges that _build_edges appends, one
    that starts at id 0 never comes from the scalar source reference of an
    output terminal, feature unit or clock multiplier: it comes from an entry
    0 of a mixer, selector, processing or extension unit's source list or of
    a clock selector's pin list.  Those lists have no such guard: when a node
    with id 0 exists, every entry 0 in them does produce its edge.  In the
    example, where input terminal 0 exists, only the mixer gets an edge. *)
Theorem C10_zero_guard_on_scalar_references_only :
  (forall (g : TopologyGraph) (ac : AudioControlInterface.t),
      exists new,
        _build_edges g ac = with_edges (edges g ++ new) g
        /\ Forall
             (fun e =>
                source_id e = 0 ->
                (exists u, u ∈ AudioControlInterface.mixer_units ac
                           /\ 0 ∈ MixerUnit.source_ids u
                           /\ e = signal_edge g 0 (MixerUnit.unit_id u))
                \/ (exists u, u ∈ AudioControlInterface.selector_units ac
                              /\ 0 ∈ SelectorUnit.source_ids u
                              /\ e = signal_edge g 0 (SelectorUnit.unit_id u))
                \/ (exists u, u ∈ AudioControlInterface.processing_units ac
                              /\ 0 ∈ ProcessingUnit.source_ids u
                              /\ e = signal_edge g 0 (ProcessingUnit.unit_id u))
                \/ (exists u, u ∈ AudioControlInterface.extension_units ac
                              /\ 0 ∈ ExtensionUnit.source_ids u
                              /\ e = signal_edge g 0 (ExtensionUnit.unit_id u))
                \/ (exists c, c ∈ AudioControlInterface.clock_selectors ac
                              /\ 0 ∈ ClockSelector.clock_pin_ids c
                              /\ e = clock_edge 0 (ClockSelector.clock_id c)))
             new)
  /\ (forall (g : TopologyGraph) (ac : AudioControlInterface.t),
         is_Some (nodes g !! 0) ->
         (forall u, u ∈ AudioControlInterface.mixer_units ac ->
                    0 ∈ MixerUnit.source_ids u ->
                    signal_edge g 0 (MixerUnit.unit_id u) ∈ edges (_build_edges g ac))
         /\ (forall u, u ∈ AudioControlInterface.selector_units ac ->
                       0 ∈ SelectorUnit.source_ids u ->
                       signal_edge g 0 (SelectorUnit.unit_id u) ∈ edges (_build_edges g ac))
         /\ (forall u, u ∈ AudioControlInterface.processing_units ac ->
                       0 ∈ ProcessingUnit.source_ids u ->
                       signal_edge g 0 (ProcessingUnit.unit_id u)
                       ∈ edges (_build_edges g ac))
         /\ (forall u, u ∈ AudioControlInterface.extension_units ac ->
                       0 ∈ ExtensionUnit.source_ids u ->
                       signal_edge g 0 (ExtensionUnit.unit_id u)
                       ∈ edges (_build_edges g ac))
         /\ (forall c, c ∈ AudioControlInterface.clock_selectors ac ->
                       0 ∈ ClockSelector.clock_pin_ids c ->
                       clock_edge 0 (ClockSelector.clock_id c)
                       ∈ edges (_build_edges g ac)))
  /\ (summary <$> build_topology zero_sources = Some (4%nat, 1%nat, [])
      /\ edge_triples <$> build_topology zero_sources = Some [(0, 2, false)]).
Proof.
  split; [|split].
  - intros g ac. exists (new_edges g ac). split; [apply build_edges_eq|].
    unfold new_edges. repeat apply Forall_app_2; apply Forall_forall; intros e He Hzero;
      apply list_elem_of_In, in_flat_map in He as (x & Hx & He);
      apply list_elem_of_In in He; apply list_elem_of_In in Hx.
    + apply scalar_ref_edges_elem in He as (-> & Hne & _). by destruct Hne.
    + apply scalar_ref_edges_elem in He as (-> & Hne & _). by destruct Hne.
    + apply list_ref_edges_elem in He as (s & Hs & -> & _). cbn in Hzero. subst s.
      left. by exists x.
    + apply list_ref_edges_elem in He as (s & Hs & -> & _). cbn in Hzero. subst s.
      right; left. by exists x.
    + apply list_ref_edges_elem in He as (s & Hs & -> & _). cbn in Hzero. subst s.
      do 2 right; left. by exists x.
    + apply list_ref_edges_elem in He as (s & Hs & -> & _). cbn in Hzero. subst s.
      do 3 right; left. by exists x.
    + apply list_ref_edges_elem in He as (s & Hs & -> & _). cbn in Hzero. subst s.
      do 4 right. by exists x.
    + apply scalar_ref_edges_elem in He as (-> & Hne & _). by destruct Hne.
  - intros g ac Hnode. rewrite build_edges_eq. cbn [edges with_edges]. unfold new_edges.
    repeat split; intros x Hx Hzero; rewrite !elem_of_app.
    + do 3 right; left.
      eapply elem_of_flat_map_2; [exact Hx|]. by apply list_ref_edges_zero.
    + do 4 right; left.
      eapply elem_of_flat_map_2; [exact Hx|]. by apply list_ref_edges_zero.
    + do 5 right; left.
      eapply elem_of_flat_map_2; [exact Hx|]. by apply list_ref_edges_zero.
    + do 6 right; left.
      eapply elem_of_flat_map_2; [exact Hx|]. by apply list_ref_edges_zero.
    + do 7 right; left.
      eapply elem_of_flat_map_2; [exact Hx|]. by apply list_ref_edges_zero.
  - split; vm_compute; reflexivity.
Qed.

Lemma C10_zero_guard_on_scalar_references_only_witness :
  signal_edge node_zero_graph 0 2
  ∈ edges (_build_edges node_zero_graph (interface_of [] [] [] [mixer_unit 2 [0]])).
Proof.
  refine (proj1 (proj1 (proj2 C10_zero_guard_on_scalar_references_only)
                   node_zero_graph (interface_of [] [] [] [mixer_unit 2 [0]]) _)
            (mixer_unit 2 [0]) _ _).
  - cbn. rewrite lookup_insert_eq. by eexists.
  - cbn. apply list_elem_of_singleton. reflexivity.
  - cbn. apply list_elem_of_singleton. reflexivity.
Defined.

End TopologyFacts.

(** * Properties of the parser (parser.py) *)

Section ParserFacts.

Import Py Parser ParserSpec.

Lemma ends_bind {A B : Type} (allowed : exn -> Prop) (Q' : A -> state -> Prop)
    (Q : B -> state -> Prop) (m : M A) (k : A -> M B) (st : state) :
  ends allowed Q' (m st) ->
  (forall a st', Q' a st' -> ends allowed Q (k a st')) ->
  ends allowed Q ((x ← m; k x) st).
Proof.
  unfold mbind, M_bind, bind. intros Hm Hk.
  destruct (m st) as [[a st']| |]; cbn in *; [by apply Hk | done | done].
Qed.

Lemma ends_weaken {A : Type} (allowed allowed' : exn -> Prop) (Q Q' : A -> state -> Prop)
    (o : outcome (A * state)) :
  ends allowed Q o ->
  (forall e, allowed e -> allowed' e) ->
  (forall a st, Q a st -> Q' a st) ->
  ends allowed' Q' o.
Proof. destruct o as [[a st]| |]; cbn; auto. Qed.

Lemma ends_ret {A : Type} (allowed : exn -> Prop) (Q : A -> state -> Prop) (a : A)
    (st : state) :
  Q a st -> ends allowed Q ((mret a : M A) st).
Proof. done. Qed.

Lemma only_pos_refl (st : state) : only_pos st st.
Proof. by destruct st as [[] ?]. Qed.

Lemma only_pos_trans (st1 st2 st3 : state) :
  only_pos st1 st2 -> only_pos st2 st3 -> only_pos st1 st3.
Proof. unfold only_pos. intros -> ->. reflexivity. Qed.

Lemma only_pos_same_lines (st st' : state) : only_pos st st' -> same_lines st st'.
Proof. unfold only_pos, same_lines. by intros ->. Qed.

Lemma only_pos_device (st st' : state) : only_pos st st' -> device st' = device st.
Proof. unfold only_pos. by intros ->. Qed.

Lemma same_lines_trans (st1 st2 st3 : state) :
  same_lines st1 st2 -> same_lines st2 st3 -> same_lines st1 st3.
Proof. unfold same_lines. congruence. Qed.

Lemma consumed_refl (ls : list LsusbLine) (c : LsusbLine -> bool) (p : nat) :
  consumed ls c p p.
Proof. split; [lia|]. intros i l Hi. lia. Qed.

Lemma consumed_trans (ls : list LsusbLine) (c : LsusbLine -> bool) (p q r : nat) :
  consumed ls c p q -> consumed ls c q r -> consumed ls c p r.
Proof.
  intros [Hpq Hc1] [Hqr Hc2]. split; [lia|]. intros i l Hi Hl.
  destruct (decide (i < q)%nat); [apply (Hc1 i) | apply (Hc2 i)]; [lia|done|lia|done].
Qed.

Lemma consumed_one (ls : list LsusbLine) (c : LsusbLine -> bool) (p : nat) (l : LsusbLine) :
  ls !! p = Some l -> c l = true -> consumed ls c p (S p).
Proof.
  intros Hl Hc. split; [lia|]. intros i l' Hi Hl'.
  assert (i = p) by lia. subst i. congruence.
Qed.

(* The lines of a nested section lie in the block of the enclosing one. *)
Lemma consumed_nested (ls : list LsusbLine) (outer : nat) (header : LsusbLine) (p q : nat) :
  ls !! p = Some header -> in_block outer header = true ->
  consumed ls (in_block (indent header)) (S p) q ->
  consumed ls (in_block outer) p q.
Proof.
  intros Hh Hin [Hpq Hc]. split; [lia|]. intros i l Hi Hl.
  destruct (decide (i = p)) as [->|Hne]; [congruence|].
  specialize (Hc i l ltac:(lia) Hl). unfold in_block in *.
  apply Nat.ltb_lt in Hin, Hc. apply Nat.ltb_lt. lia.
Qed.

(** ** The loops *)

(* One unfolding of the loop. *)
Lemma while_rec_S {A : Type} (fuel : nat) (cond : LsusbLine -> bool)
    (body : LsusbLine -> A -> M (flow * A)) (a : A) (st : state) :
  while_rec (S fuel) cond body a st
  = match current_line st with
    | Some line =>
        if cond line
        then match body line a st with
             | Return ((Continue, a'), st') => while_rec fuel cond body a' st'
             | Return ((Break, a'), st') => Return (a', st')
             | Raise e => Raise e
             | OutOfFuel => OutOfFuel
             end
        else Return (a, st)
    | None => Return (a, st)
    end.
Proof.
  cbn [while_rec]. unfold mbind, M_bind, bind, _current.
  destruct (current_line st) as [line|]; [|reflexivity].
  destruct (cond line); [|reflexivity].
  destruct (body line a st) as [[[[] a'] st']| |]; reflexivity.
Qed.

Lemma advance_ret {A : Type} (x : A) (st : state) :
  (_advance;; (mret x : M A)) st = Return (x, set_pos (S (pos (self st))) st).
Proof.
  unfold mbind, M_bind, bind, _advance, mret, M_ret, ret.
  by rewrite Nat.add_1_r.
Qed.

Section Loops.

Context {A : Type} (allowed : exn -> Prop) (R : state -> state -> Prop).
Context (cond : LsusbLine -> bool) (brk : LsusbLine -> Prop).
Context (body : LsusbLine -> A -> M (flow * A)).

Hypothesis R_refl : forall st, R st st.
Hypothesis R_trans : forall st1 st2 st3, R st1 st2 -> R st2 st3 -> R st1 st3.
Hypothesis R_lines : forall st st', R st st' -> same_lines st st'.

Hypothesis body_iteration :
  forall line a st,
    current_line st = Some line -> cond line = true ->
    ends allowed (iteration R cond brk line st) (body line a st).

Lemma while_rec_exit (fuel : nat) :
  forall (a : A) (st : state),
    (length (lines (self st)) - pos (self st) < fuel)%nat ->
    ends allowed (fun _ st' => loop_exit R cond brk st st') (while_rec fuel cond body a st).
Proof.
  induction fuel as [|fuel IH]; intros a st Hfuel; [lia|].
  rewrite while_rec_S.
  destruct (current_line st) as [line|] eqn:Hcur.
  2:{ cbn. split; [apply R_refl|]. split; [apply consumed_refl|].
      left. intros l Hl. unfold current_line in Hcur. congruence. }
  destruct (cond line) eqn:Hcond.
  2:{ cbn. split; [apply R_refl|]. split; [apply consumed_refl|].
      left. intros l Hl. unfold current_line in Hcur. congruence. }
  pose proof (body_iteration line a st Hcur Hcond) as Hbody.
  destruct (body line a st) as [[[fl a'] st']| |]; cbn in Hbody; [|done|done].
  unfold iteration in Hbody. cbn [fst] in Hbody. destruct fl.
  - destruct Hbody as (HR & Hlt & Hcons).
    pose proof (R_lines _ _ HR) as Hlines. unfold same_lines in Hlines.
    assert (Hpos : (pos (self st) < length (lines (self st)))%nat).
    { unfold current_line in Hcur. by apply lookup_lt_Some in Hcur. }
    specialize (IH a' st' ltac:(rewrite Hlines; lia)).
    eapply ends_weaken; [exact IH | done |].
    intros _ st'' (HR' & Hcons' & Hstop). rewrite Hlines in Hcons', Hstop.
    split; [by eapply R_trans|]. split; [by eapply consumed_trans|]. exact Hstop.
  - destruct Hbody as [-> Hbrk]. cbn.
    split; [apply R_refl|]. split; [apply consumed_refl|].
    right. by exists line.
Qed.

Lemma while_exit (a : A) (st : state) :
  ends allowed (fun _ st' => loop_exit R cond brk st st') (while_ cond body a st).
Proof. unfold while_. apply while_rec_exit. unfold budget. lia. Qed.

End Loops.

Lemma only_pos_set_pos (st : state) (p : nat) : only_pos st (set_pos p st).
Proof. reflexivity. Qed.

Lemma same_lines_set_pos (st : state) (p : nat) : same_lines st (set_pos p st).
Proof. reflexivity. Qed.

Lemma same_lines_refl (st : state) : same_lines st st.
Proof. reflexivity. Qed.

Lemma set_pos_current (st : state) : set_pos (pos (self st)) st = st.
Proof. by destruct st as [[] ?]. Qed.

(* An iteration that ends with self._advance(), whatever it computed. *)
Lemma advance_iteration {A : Type} (allowed : exn -> Prop) (R : state -> state -> Prop)
    (cond : LsusbLine -> bool) (brk : LsusbLine -> Prop) (line : LsusbLine) (x : A)
    (st : state) :
  (forall st p, R st (set_pos p st)) ->
  current_line st = Some line -> cond line = true ->
  ends allowed (iteration R cond brk line st)
    ((_advance;; (mret (Continue, x) : M (flow * A))) st).
Proof.
  intros HR Hcur Hcond. rewrite advance_ret. cbn. unfold iteration. cbn [fst].
  split; [apply HR|].
  change (pos (self (set_pos (S (pos (self st))) st))) with (S (pos (self st))).
  split; [lia|]. by eapply consumed_one.
Qed.

(* An iteration that hands the line to the method of a nested section. *)
Lemma nested_iteration {A B : Type} (allowed : exn -> Prop) (brk : LsusbLine -> Prop)
    (outer : nat) (line : LsusbLine) (p : M B) (k : B -> A) (st : state) :
  indentation_law allowed p ->
  current_line st = Some line -> in_block outer line = true ->
  ends allowed (iteration same_lines (in_block outer) brk line st)
    ((x ← p; (mret (Continue, k x) : M (flow * A))) st).
Proof.
  intros Hlaw Hcur Hin.
  eapply ends_bind; [exact (Hlaw st line Hcur)|].
  intros b st' (Hlines & Hcons & _). cbn. unfold iteration. cbn.
  split; [exact Hlines|]. split; [destruct Hcons; lia|].
  by eapply consumed_nested.
Qed.

Lemma slice_empty (ls : list LsusbLine) (p : nat) : slice ls p p = [].
Proof. unfold slice. by rewrite Nat.sub_diag. Qed.

Lemma slice_cons (ls : list LsusbLine) (p q : nat) (l : LsusbLine) :
  ls !! p = Some l -> (p < q)%nat -> slice ls p q = l :: slice ls (S p) q.
Proof.
  intros Hl Hpq. unfold slice. rewrite (drop_S ls l p Hl).
  replace (q - p)%nat with (S (q - S p)) by lia. reflexivity.
Qed.

(** ** Leaf descriptors: a loop of field decodes *)

(* The loop folds the field decoder over the lines of the block, in order,
   and moves nothing but the cursor. *)
Lemma field_loop_fold {A : Type} (start_indent : nat) (field : string -> A -> A)
    (fuel : nat) :
  forall (a : A) (st : state),
    (length (lines (self st)) - pos (self st) < fuel)%nat ->
    exists q,
      while_rec fuel (in_block start_indent)
        (fun line a => let a := field (content line) a in
                       _advance;; mret (Continue, a)) a st
      = Return (foldl (fun a l => field (content l) a) a
                  (slice (lines (self st)) (pos (self st)) q),
                set_pos q st)
      /\ consumed (lines (self st)) (in_block start_indent) (pos (self st)) q
      /\ stops_at (lines (self st)) (in_block start_indent) q.
Proof.
  set (body := fun line a => let a := field (content line) a in
                            _advance;; (mret (Continue, a) : M (flow * A))).
  induction fuel as [|fuel IH]; intros a st Hfuel; [lia|].
  rewrite while_rec_S.
  destruct (current_line st) as [line|] eqn:Hcur.
  2:{ exists (pos (self st)). rewrite slice_empty, set_pos_current.
      split; [reflexivity|]. split; [apply consumed_refl|].
      intros l Hl. unfold current_line in Hcur. congruence. }
  destruct (in_block start_indent line) eqn:Hcond.
  2:{ exists (pos (self st)). rewrite slice_empty, set_pos_current.
      split; [reflexivity|]. split; [apply consumed_refl|].
      intros l Hl. unfold current_line in Hcur. congruence. }
  assert (Hpos : (pos (self st) < length (lines (self st)))%nat).
  { unfold current_line in Hcur. by apply lookup_lt_Some in Hcur. }
  change (body line a st)
    with ((_advance;; (mret (Continue, field (content line) a) : M (flow * A))) st).
  rewrite advance_ret.
  destruct (IH (field (content line) a) (set_pos (S (pos (self st))) st))
    as (q & Hrun & Hcons & Hstop); [cbn; lia|].
  change (lines (self (set_pos (S (pos (self st))) st))) with (lines (self st))
    in Hrun, Hcons, Hstop.
  change (pos (self (set_pos (S (pos (self st))) st))) with (S (pos (self st)))
    in Hrun, Hcons.
  exists q. split; [|split].
  - rewrite Hrun.
    rewrite (slice_cons _ _ q line Hcur) by (destruct Hcons; lia). reflexivity.
  - eapply consumed_trans; [|exact Hcons]. by eapply consumed_one.
  - exact Hstop.
Qed.

Lemma field_loop_spec {A : Type} (start_indent : nat) (field : string -> A -> A) (a : A)
    (st : state) :
  exists q,
    field_loop start_indent field a st
    = Return (foldl (fun a l => field (content l) a) a
                (slice (lines (self st)) (pos (self st)) q),
              set_pos q st)
    /\ consumed (lines (self st)) (in_block start_indent) (pos (self st)) q
    /\ stops_at (lines (self st)) (in_block start_indent) q.
Proof. unfold field_loop, while_. apply field_loop_fold. unfold budget. lia. Qed.

(* A leaf method: the field loop, then the entity stored by [k]. *)
Lemma leaf_spec {A B : Type} (start_indent : nat) (field : string -> A -> A) (a : A)
    (k : A -> B) (st : state) :
  exists q,
    (x ← field_loop start_indent field a; (mret (k x) : M B)) st
    = Return (k (foldl (fun a l => field (content l) a) a
                   (slice (lines (self st)) (pos (self st)) q)),
              set_pos q st)
    /\ consumed (lines (self st)) (in_block start_indent) (pos (self st)) q
    /\ stops_at (lines (self st)) (in_block start_indent) q.
Proof.
  destruct (field_loop_spec start_indent field a st) as (q & Hrun & Hcons & Hstop).
  exists q. split; [|done]. unfold mbind, M_bind, bind. by rewrite Hrun.
Qed.

(* The subtype scan stops in the block, at its end or on the subtype line. *)
Lemma read_subtype_exit (start_indent : nat) (st : state) :
  ends no_exn
    (fun _ st' =>
       loop_exit only_pos (in_block start_indent)
         (fun l => startswith (content l) "bDescriptorSubtype" = true) st st')
    (read_subtype start_indent st).
Proof.
  unfold read_subtype. apply while_exit.
  - apply only_pos_refl.
  - apply only_pos_trans.
  - apply only_pos_same_lines.
  - intros line subtype st0 Hcur Hcond. cbv zeta.
    destruct (startswith (content line) "bDescriptorSubtype") eqn:Hsub.
    + cbn. unfold iteration. cbn. done.
    + apply advance_iteration; [apply only_pos_set_pos|done|done].
Qed.

Lemma skip_block_exit (start_indent : nat) (st : state) :
  ends no_exn
    (fun _ st' => loop_exit only_pos (in_block start_indent) never_breaks st st')
    (skip_block start_indent st).
Proof.
  unfold skip_block. apply while_exit.
  - apply only_pos_refl.
  - apply only_pos_trans.
  - apply only_pos_same_lines.
  - intros line u st0 Hcur Hcond.
    apply advance_iteration; [apply only_pos_set_pos|done|done].
Qed.


(** ** Sections: a header line, then a block *)

(* A method that starts with
     start_indent = self._current().indent
     self._advance()
   on a header line goes on from the next line with the header's indent. *)
Lemma header_call {A : Type} (rest : nat -> M A) (st : state) (header : LsusbLine) :
  current_line st = Some header ->
  (start_indent ← current_indent; _advance;; rest start_indent) st
  = rest (indent header) (set_pos (S (pos (self st))) st).
Proof.
  intros Hcur. unfold current_indent.
  unfold mbind, M_bind, bind, _current, _advance. cbv beta.
  rewrite Hcur. cbn. by rewrite Nat.add_1_r.
Qed.

Lemma loop_exit_block (R : state -> state -> Prop) (start_indent : nat) (st st' : state) :
  (forall st st', R st st' -> same_lines st st') ->
  loop_exit R (in_block start_indent) never_breaks st st' ->
  same_lines st st'
  /\ consumed (lines (self st)) (in_block start_indent) (pos (self st)) (pos (self st'))
  /\ stops_at (lines (self st)) (in_block start_indent) (pos (self st')).
Proof.
  intros HR (Hrel & Hcons & [Hstop|(l & _ & _ & [])]). split; [by apply HR|]. done.
Qed.

(* The if/elif chains: one case per branch, outermost test first. *)
Ltac branch :=
  match goal with
  | |- ends _ _ ((if ?b then _ else _) _) => destruct b eqn:?
  end.

Ltac advances :=
  apply advance_iteration; [apply same_lines_set_pos | assumption | assumption].

Lemma leaf_reads_block {A B : Type} (start_indent : nat) (field : string -> A -> A) (a : A)
    (k : A -> B) :
  reads_block start_indent (x ← field_loop start_indent field a; (mret (k x) : M B)).
Proof.
  intros st. destruct (leaf_spec start_indent field a k st) as (q & Hrun & Hc & Hs).
  eauto.
Qed.

Lemma audio_endpoint_law (ep : EndpointDescriptor.t) :
  indentation_law no_exn (_parse_audio_endpoint_descriptor ep).
Proof.
  intros st header Hcur. unfold _parse_audio_endpoint_descriptor.
  rewrite (header_call _ st header Hcur).
  destruct (field_loop_spec (indent header) audio_endpoint_field ep
              (set_pos (S (pos (self st))) st)) as (q & -> & Hcons & Hstop).
  cbn. done.
Qed.

Lemma endpoint_law : indentation_law no_exn _parse_endpoint_descriptor.
Proof.
  intros st header Hcur. unfold _parse_endpoint_descriptor. cbv zeta.
  rewrite (header_call _ st header Hcur).
  eapply ends_weaken; [apply (while_exit no_exn same_lines _ never_breaks) | done |].
  - apply same_lines_refl.
  - apply same_lines_trans.
  - done.
  - intros line ep st0 Hline Hin. repeat branch; try advances.
    apply (nested_iteration no_exn never_breaks (indent header) line
             (_parse_audio_endpoint_descriptor ep) (fun ep => ep));
      [apply audio_endpoint_law | assumption | assumption].
  - intros a st' Hexit. apply loop_exit_block in Hexit; [exact Hexit | done].
Qed.

(* A call p(device.audio_control, start_indent) of a leaf method *)
Lemma on_audio_control_block (start_indent : nat)
    (p : AudioControlInterface.t -> M AudioControlInterface.t) (st : state) :
  is_Some (USBAudioDevice.audio_control (device st)) ->
  (forall ac, reads_block start_indent (p ac)) ->
  ends no_exn
    (fun _ st' =>
       same_lines st st'
       /\ consumed (lines (self st)) (in_block start_indent) (pos (self st)) (pos (self st'))
       /\ stops_at (lines (self st)) (in_block start_indent) (pos (self st')))
    (on_audio_control p st).
Proof.
  intros [ac Hac] Hp. unfold on_audio_control.
  unfold mbind, M_bind, bind, get_device. cbv beta. rewrite Hac.
  destruct (Hp ac st) as (ac' & q & -> & Hcons & Hstop). cbn. done.
Qed.

Lemma skip_block_block (start_indent : nat) (st : state) :
  ends no_exn
    (fun _ st' =>
       same_lines st st'
       /\ consumed (lines (self st)) (in_block start_indent) (pos (self st)) (pos (self st'))
       /\ stops_at (lines (self st)) (in_block start_indent) (pos (self st')))
    (skip_block start_indent st).
Proof.
  eapply ends_weaken; [apply skip_block_exit | done |].
  intros a st' Hexit. apply loop_exit_block in Hexit; [exact Hexit|].
  apply only_pos_same_lines.
Qed.

(* The subtype scan followed by the method for that subtype stays in the
   block and ends on its boundary. *)
Lemma subtype_dispatch {A : Type} (start_indent : nat) (dispatch : Z -> M A) (st : state)
    (P : state -> Prop) :
  P st -> (forall st st', only_pos st st' -> P st -> P st') ->
  (forall subtype st1,
      P st1 ->
      ends no_exn
        (fun _ st' =>
           same_lines st1 st'
           /\ consumed (lines (self st1)) (in_block start_indent)
                (pos (self st1)) (pos (self st'))
           /\ stops_at (lines (self st1)) (in_block start_indent) (pos (self st')))
        (dispatch subtype st1)) ->
  ends no_exn
    (fun _ st' =>
       same_lines st st'
       /\ consumed (lines (self st)) (in_block start_indent) (pos (self st)) (pos (self st'))
       /\ stops_at (lines (self st)) (in_block start_indent) (pos (self st')))
    ((subtype ← read_subtype start_indent; dispatch subtype) st).
Proof.
  intros HP Hkeep Hdispatch.
  eapply ends_bind; [apply read_subtype_exit|].
  intros subtype st1 (Hrel & Hcons & _).
  pose proof (only_pos_same_lines _ _ Hrel) as Hlines.
  eapply ends_weaken; [apply (Hdispatch subtype st1); by eapply Hkeep | done |].
  intros a st' (Hlines' & Hcons' & Hstop'). unfold same_lines in *.
  rewrite Hlines in Hcons', Hstop'.
  split; [congruence|]. split; [by eapply consumed_trans | done].
Qed.

Lemma audio_control_law : indentation_law no_exn _parse_audio_control_descriptor.
Proof.
  intros st header Hcur. unfold _parse_audio_control_descriptor.
  eapply (ends_bind _ (fun d st' => st' = st /\ d = device st)); [done|].
  intros d st' [-> ->].
  eapply (ends_bind _ (fun _ st1 =>
                         self st1 = self st
                         /\ is_Some (USBAudioDevice.audio_control (device st1)))).
  { destruct (USBAudioDevice.audio_control (device st)) eqn:Hac; cbn; [|done].
    split; [done|]. by rewrite Hac. }
  intros u st1 [Hself Hac].
  assert (Hcur1 : current_line st1 = Some header)
    by (unfold current_line in *; by rewrite Hself).
  rewrite (header_call _ st1 header Hcur1).
  eapply ends_weaken.
  - apply (subtype_dispatch (indent header) _ _
             (fun s => is_Some (USBAudioDevice.audio_control (device s)))).
    + exact Hac.
    + intros s s' Hrel. by rewrite (only_pos_device _ _ Hrel).
    + intros subtype s Hs. repeat branch;
        first [ apply skip_block_block
              | apply on_audio_control_block;
                [exact Hs | intros ac; apply leaf_reads_block] ].
  - done.
  - intros a st' (Hlines & Hcons & Hstop). unfold same_lines in *. cbn in *.
    rewrite Hself in *. done.
Qed.

Lemma as_general_block (iface : InterfaceDescriptor.t) (start_indent : nat) (st : state) :
  ends no_exn
    (fun _ st' =>
       same_lines st st'
       /\ consumed (lines (self st)) (in_block start_indent) (pos (self st)) (pos (self st'))
       /\ stops_at (lines (self st)) (in_block start_indent) (pos (self st')))
    (_parse_as_general iface start_indent st).
Proof.
  unfold _parse_as_general. cbv zeta.
  unfold mbind, M_bind, bind.
  match goal with
  | |- context [field_loop ?si ?f ?a st] =>
      destruct (field_loop_spec si f a st) as (q & -> & Hcons & Hstop)
  end.
  cbn. done.
Qed.

Lemma as_format_type_block (start_indent : nat) (st : state) :
  ends no_exn
    (fun _ st' =>
       same_lines st st'
       /\ consumed (lines (self st)) (in_block start_indent) (pos (self st)) (pos (self st'))
       /\ stops_at (lines (self st)) (in_block start_indent) (pos (self st')))
    (_parse_as_format_type start_indent st).
Proof.
  unfold _parse_as_format_type.
  unfold mbind, M_bind, bind.
  match goal with
  | |- context [field_loop ?si ?f ?a st] =>
      destruct (field_loop_spec si f a st) as (q & -> & Hcons & Hstop)
  end.
  cbn. done.
Qed.

Lemma audio_streaming_law (iface : InterfaceDescriptor.t) :
  indentation_law no_exn (_parse_audio_streaming_descriptor iface).
Proof.
  intros st header Hcur. unfold _parse_audio_streaming_descriptor.
  rewrite (header_call _ st header Hcur).
  eapply ends_weaken.
  - apply (subtype_dispatch (indent header) _ _ (fun _ => True)); [done | done |].
    intros subtype s _. repeat branch;
      first [ apply skip_block_block | apply as_general_block
            | apply as_format_type_block ].
  - done.
  - intros a st' H. exact H.
Qed.

Lemma interface_law : indentation_law no_exn _parse_interface_descriptor.
Proof.
  intros st header Hcur. unfold _parse_interface_descriptor. cbv zeta.
  rewrite (header_call _ st header Hcur).
  eapply ends_weaken; [apply (while_exit no_exn same_lines _ never_breaks) | done |].
  - apply same_lines_refl.
  - apply same_lines_trans.
  - done.
  - intros line iface st0 Hline Hin. repeat branch; try advances.
    + apply (nested_iteration no_exn never_breaks (indent header) line
               _parse_endpoint_descriptor
               (fun ep => InterfaceDescriptor.with_endpoints
                            (InterfaceDescriptor.endpoints iface ++ [ep]) iface));
        [apply endpoint_law | assumption | assumption].
    + apply (nested_iteration no_exn never_breaks (indent header) line
               _parse_audio_control_descriptor (fun _ => iface));
        [apply audio_control_law | assumption | assumption].
    + apply (nested_iteration no_exn never_breaks (indent header) line
               (_parse_audio_streaming_descriptor iface) (fun _ => iface));
        [apply audio_streaming_law | assumption | assumption].
  - intros a st' Hexit. apply loop_exit_block in Hexit; [exact Hexit | done].
Qed.

Lemma configuration_law : indentation_law no_exn _parse_configuration_descriptor.
Proof.
  intros st header Hcur. unfold _parse_configuration_descriptor. cbv zeta.
  rewrite (header_call _ st header Hcur).
  eapply ends_weaken; [apply (while_exit no_exn same_lines _ never_breaks) | done |].
  - apply same_lines_refl.
  - apply same_lines_trans.
  - done.
  - intros line config st0 Hline Hin. repeat branch; try advances.
    apply (nested_iteration no_exn never_breaks (indent header) line
             _parse_interface_descriptor
             (fun iface => ConfigurationDescriptor.with_interfaces
                             (ConfigurationDescriptor.interfaces config ++ [iface]) config));
      [apply interface_law | assumption | assumption].
  - intros a st' Hexit. apply loop_exit_block in Hexit; [exact Hexit | done].
Qed.

(** ** The Device Descriptor and the main loop *)

Lemma device_descriptor_line_spec (content : string) (desc : DeviceDescriptor.t)
    (st : state) :
  ends only_IndexError
    (fun r st' =>
       st' = st
       /\ (fst r = Break -> startswith content "Configuration Descriptor:" = true))
    (device_descriptor_line content desc st).
Proof.
  unfold device_descriptor_line. repeat branch; try (cbn; done).
  destruct (split (_parse_field content "bcdUSB")); cbn; done.
Qed.

Lemma device_descriptor_law :
  indentation_law_upto_configuration only_IndexError _parse_device_descriptor.
Proof.
  intros st header Hcur. unfold _parse_device_descriptor. cbv zeta.
  rewrite (header_call _ st header Hcur).
  eapply ends_weaken;
    [apply (while_exit only_IndexError same_lines _
              (fun l => startswith (content l) "Configuration Descriptor:" = true))
    | done |].
  - apply same_lines_refl.
  - apply same_lines_trans.
  - done.
  - intros line desc st0 Hline Hin.
    eapply ends_bind; [apply device_descriptor_line_spec|].
    intros [fl desc'] st' [-> Hbrk]. cbn [fst] in Hbrk. destruct fl.
    + advances.
    + cbn. unfold iteration. cbn. split; [done|]. by apply Hbrk.
  - intros a st' (Hlines & Hcons & Hstop). done.
Qed.

Lemma consumed_any (ls : list LsusbLine) (p q : nat) :
  (p <= q)%nat -> consumed ls (fun _ => true) p q.
Proof. intros Hpq. split; done. Qed.

(* parse() ends for every state: it returns the device that [finish] makes
   of the one the main loop has built, or raises IndexError. *)
Lemma parse_ends (st : state) :
  ends only_IndexError (fun d _ => exists d0, d = finish d0) (parse st).
Proof.
  unfold parse.
  eapply (ends_bind _ (fun _ _ => True)).
  - eapply ends_weaken;
      [apply (while_exit only_IndexError same_lines (fun _ => true) never_breaks)
      | done | done].
    + apply same_lines_refl.
    + apply same_lines_trans.
    + done.
    + intros line u st0 Hline _. cbv zeta.
      repeat branch;
        try (apply advance_iteration;
             [apply same_lines_set_pos | assumption | reflexivity]).
      * eapply ends_bind; [apply (device_descriptor_law st0 line Hline)|].
        intros desc st1 (Hlines & [Hle _] & _). cbn. unfold iteration. simpl.
        split; [exact Hlines|]. split; [lia|]. apply consumed_any. lia.
      * eapply ends_bind;
          [eapply ends_weaken;
           [apply (configuration_law st0 line Hline)
           | intros e He; exact (False_ind _ He) | done]|].
        intros config st1 (Hlines & [Hle _] & _). cbn. unfold iteration. simpl.
        split; [exact Hlines|]. split; [lia|]. apply consumed_any. lia.
  - intros u st1 _.
    unfold mbind, M_bind, bind, get_device, set_device, mret, M_ret, ret. cbv beta.
    destruct (_build_alternate_settings (device st1)) as [alts d] eqn:Hbuild.
    simpl. exists (device st1). unfold finish. by rewrite Hbuild.
Qed.

Lemma parse_lsusb_ends (text : string) :
  match parse_lsusb text with
  | Return d => exists d0, d = finish d0
  | Raise e => e = IndexError
  | OutOfFuel => False
  end.
Proof.
  unfold parse_lsusb. pose proof (parse_ends (initial_state text)) as H.
  unfold initial_state in H.
  destruct (parse _) as [[d st']| |]; cbn in H; done.
Qed.

(** ** The alternate settings *)

Lemma alternate_setting_of_spec (interfaces : list InterfaceDescriptor.t)
    (streaming : AudioStreamingInterface.t) :
  let '(s, alt) := alternate_setting_of interfaces streaming in
  alt_of_streaming alt s
  /\ alt_key alt = (AudioStreamingInterface.interface_number streaming,
                    AudioStreamingInterface.alternate_setting streaming)
  /\ (AlternateSetting.endpoint alt = None
      \/ AlternateSetting.endpoint alt = AudioStreamingInterface.endpoint s).
Proof.
  unfold alternate_setting_of, alt_of_streaming, alt_key.
  destruct (data_endpoint interfaces streaming) as [ep|]; cbn; auto 10.
Qed.

Lemma finish_spec (d0 : USBAudioDevice.t) :
  USBAudioDevice.configuration (finish d0) = USBAudioDevice.configuration d0
  /\ match USBAudioDevice.configuration d0 with
     | None =>
         USBAudioDevice.alternate_settings (finish d0) = []
         /\ USBAudioDevice.streaming_interfaces (finish d0)
            = USBAudioDevice.streaming_interfaces d0
     | Some _ =>
         Forall2 alt_of_streaming (USBAudioDevice.alternate_settings (finish d0))
           (USBAudioDevice.streaming_interfaces (finish d0))
         /\ alt_key <$> USBAudioDevice.alternate_settings (finish d0)
            = (fun s => (AudioStreamingInterface.interface_number s,
                         AudioStreamingInterface.alternate_setting s))
                <$> USBAudioDevice.streaming_interfaces d0
     end.
Proof.
  unfold finish, _build_alternate_settings.
  destruct (USBAudioDevice.configuration d0) as [c|] eqn:Hc; cbn; [|by rewrite Hc].
  split; [done|].
  induction (USBAudioDevice.streaming_interfaces d0) as [|s ss [IH1 IH2]].
  - split; [constructor | reflexivity].
  - rewrite !fmap_cons.
    pose proof (alternate_setting_of_spec (ConfigurationDescriptor.interfaces c) s) as Hs.
    destruct (alternate_setting_of (ConfigurationDescriptor.interfaces c) s) as [s' alt].
    destruct Hs as (Halt & Hkey & _). cbn [fst snd].
    split; [by constructor | by rewrite Hkey, IH2].
Qed.

(** ** Configurations *)

(** C1 (what the code does on a device with two configurations): parse()
    keeps a single configuration slot, which each Configuration Descriptor
    overwrites, so that only the last one (bConfigurationValue 2) is left;
    the entities of both configurations are merged into the one
    audio_control (input terminals 1 and 2), whose header is the last one
    read (UAC 2.0).  The first configuration is not retained, and nothing in
    the model can select it. *)
Theorem C1_only_last_configuration_kept :
  exists d,
    parse_lsusb two_configurations = Return d
    /\ ConfigurationDescriptor.config_value <$> USBAudioDevice.configuration d = Some 2
    /\ USBAudioDevice_uac_version d = UAC_2_0
    /\ (fmap InputTerminal.terminal_id ∘ AudioControlInterface.input_terminals)
         <$> USBAudioDevice.audio_control d
       = Some [1; 2].
Proof.
  eexists. split; [vm_compute; reflexivity|]. vm_compute. done.
Qed.

(** ** Error policy *)

(** C2 (what the code does): parse_lsusb ends for every text, with a device
    or with IndexError, and it does raise IndexError on a Device Descriptor
    whose bcdUSB line has no value: _parse_field returns the empty string,
    and [.split()[0]] indexes an empty list. *)
Theorem C2_parse_raises_on_bare_bcdUSB :
  (forall text : string,
      match parse_lsusb text with
      | Return _ => True
      | Raise e => e = IndexError
      | OutOfFuel => False
      end)
  /\ _parse_field "bcdUSB" "bcdUSB" = EmptyString
  /\ parse_lsusb bcdUSB_without_value = Raise IndexError.
Proof.
  split; [|split].
  - intros text. pose proof (parse_lsusb_ends text) as H.
    destruct (parse_lsusb text); done.
  - vm_compute. reflexivity.
  - vm_compute. reflexivity.
Qed.

(** ** Alternate settings *)

Lemma alt_keys_of_streaming (alts : list AlternateSetting.t)
    (ss : list AudioStreamingInterface.t) :
  Forall2 alt_of_streaming alts ss -> alt_key <$> alts = streaming_key <$> ss.
Proof.
  induction 1 as [|alt s alts ss (_ & Hn & Ha & _) _ IH]; [reflexivity|].
  rewrite !fmap_cons, IH. unfold alt_key, streaming_key. by rewrite Hn, Ha.
Qed.

(** C3 (as amended): for every input text on which parse returns, the
    AlternateSetting list has one entry per streaming interface of the
    device, in the order of device.streaming_interfaces, each entry referring
    to its streaming interface and repeating its interface number, alternate
    setting and (possibly absent) format; the list is empty when no
    configuration was parsed.  Its keys are those of the streaming
    interfaces, in the same order: nothing sorts them. *)
Theorem C3_alternate_settings_follow_streaming_interfaces (text : string) :
  match parse_lsusb text with
  | Return d =>
      match USBAudioDevice.configuration d with
      | Some _ =>
          Forall2 alt_of_streaming (USBAudioDevice.alternate_settings d)
            (USBAudioDevice.streaming_interfaces d)
          /\ alt_key <$> USBAudioDevice.alternate_settings d
             = streaming_key <$> USBAudioDevice.streaming_interfaces d
      | None => USBAudioDevice.alternate_settings d = []
      end
  | Raise e => e = IndexError
  | OutOfFuel => False
  end.
Proof.
  pose proof (parse_lsusb_ends text) as H.
  destruct (parse_lsusb text) as [d| |]; [|done|done].
  destruct H as [d0 ->].
  destruct (finish_spec d0) as [Hconf Hfin]. rewrite Hconf.
  destruct (USBAudioDevice.configuration d0); [|by destruct Hfin].
  destruct Hfin as [Hall _]. split; [exact Hall|]. by apply alt_keys_of_streaming.
Qed.

(** C3 as stated fails: a configuration that lists interface 2 before
    interface 1 yields the keys (2, 1), (1, 1), in that order. *)
Lemma C3_alternate_settings_not_sorted :
  exists d,
    parse_lsusb interface_2_before_1 = Return d
    /\ alt_key <$> USBAudioDevice.alternate_settings d = [(2, 1); (1, 1)]
    /\ sorted_keys (alt_key <$> USBAudioDevice.alternate_settings d) = false.
Proof.
  eexists. split; [vm_compute; reflexivity|]. vm_compute. done.
Qed.

(** ** Indentation *)




(** ** The AudioControl header version *)








End ParserFacts.

(** * The repository's tests, run on the model *)

Section Tests.

Import Py Parser ParserSpec Topology TopologySpec.

(* tests/test_parser.py::TestTerminalTypes *)
Example test_common_terminal_types :
  get_terminal_type_name 0x0101 = "USB Streaming"%string
  /\ get_terminal_type_name 0x0201 = "Microphone"%string
  /\ get_terminal_type_name 0x0301 = "Speaker"%string
  /\ get_terminal_type_name 0x0302 = "Headphones"%string
  /\ get_terminal_type_name 0x0402 = "Headset"%string.
Proof. repeat split; vm_compute; reflexivity. Qed.

Example test_unknown_terminal_type :
  get_terminal_type_name 0x02FF = "Input (0x02FF)"%string.
Proof. vm_compute. reflexivity. Qed.

(* tests/test_parser.py::test_non_audio_device *)
Example test_non_audio_device :
  outcome_map device_summary (parse_lsusb non_audio_device)
  = Return (0x0123, "Test Manufacturer", "Test Product", "2.00", UNKNOWN, None)%string.
Proof. vm_compute. reflexivity. Qed.

(* tests/test_parser.py::test_partial_audio_device *)
Example test_partial_audio_device :
  outcome_map device_summary (parse_lsusb partial_audio_device)
  = Return (0x0123, "", "", "2.00", UAC_1_0, Some (0x0100, [1]))%string.
Proof. vm_compute. reflexivity. Qed.

(* tests/test_topology.py::test_empty_device *)
Example test_empty_device :
  outcome_map (fun d => summary <$> build_topology d) (parse_lsusb "")
  = Return (Some (0%nat, 0%nat, [])).
Proof. vm_compute. reflexivity. Qed.

(* the decoders on the field syntaxes of the dump *)
Example decode_fields :
  _parse_int_value "bMaxPacketSize0        64" = 64
  /\ _parse_int_value "bLength" = 0
  /\ _parse_hex_value "idVendor           0x0d8c C-Media Electronics Inc." = 0x0d8c
  /\ _parse_hex_value "bcdDevice            1.00" = 0
  /\ _parse_hex_value "wTerminalType      0101" = 0x0101
  /\ _parse_bcd_value "bcdADC               1.10" = 0x010A
  /\ _parse_field "bcdUSB               1.10" "bcdUSB" = "1.10"%string
  /\ label_after "iProduct" "iProduct                2 USB Audio Device"
     = Some "USB Audio Device"%string
  /\ indexed_value "baSourceID( 1)         13" = 13.
Proof. repeat split; vm_compute; reflexivity. Qed.

End Tests.

(** * Further properties of the topology graph (topology.py, model.py) *)

Section GraphFacts.

Import Topology TopologySpec GraphSpec.

(** ** Neighbours *)

Lemma get_sources_elem (g : TopologyGraph) (node_id : Z) (n : TopologyNode) :
  n ∈ get_sources g node_id
  <-> exists e, e ∈ edges g /\ target_id e = node_id /\ is_clock e = false
                /\ nodes g !! source_id e = Some n.
Proof.
  unfold get_sources.
  rewrite (for_each_appends
             (fun e => if (target_id e =? node_id) && negb (is_clock e)
                       then match nodes g !! source_id e with
                            | Some n => [n]
                            | None => []
                            end
                       else [])).
  2: { intros acc e. destruct (_ && _); [destruct (nodes g !! _)|];
         unfold list_append; by rewrite ?app_nil_r. }
  cbn [app]. rewrite list_elem_of_In, in_flat_map. split.
  - intros (e & He & Hn). exists e. rewrite list_elem_of_In. split; [done|].
    destruct (Z.eqb_spec (target_id e) node_id); cbn in Hn; [|done].
    destruct (is_clock e); cbn in Hn; [done|].
    destruct (nodes g !! source_id e); [|done]. destruct Hn as [->|[]]. done.
  - intros (e & He & Ht & Hc & Hn). exists e. rewrite <- list_elem_of_In. split; [done|].
    rewrite Ht, Z.eqb_refl, Hc, Hn. cbn. by left.
Qed.

Lemma get_targets_elem (g : TopologyGraph) (node_id : Z) (n : TopologyNode) :
  n ∈ get_targets g node_id
  <-> exists e, e ∈ edges g /\ source_id e = node_id /\ is_clock e = false
                /\ nodes g !! target_id e = Some n.
Proof.
  unfold get_targets.
  rewrite (for_each_appends
             (fun e => if (source_id e =? node_id) && negb (is_clock e)
                       then match nodes g !! target_id e with
                            | Some n => [n]
                            | None => []
                            end
                       else [])).
  2: { intros acc e. destruct (_ && _); [destruct (nodes g !! _)|];
         unfold list_append; by rewrite ?app_nil_r. }
  cbn [app]. rewrite list_elem_of_In, in_flat_map. split.
  - intros (e & He & Hn). exists e. rewrite list_elem_of_In. split; [done|].
    destruct (Z.eqb_spec (source_id e) node_id); cbn in Hn; [|done].
    destruct (is_clock e); cbn in Hn; [done|].
    destruct (nodes g !! target_id e); [|done]. destruct Hn as [->|[]]. done.
  - intros (e & He & Ht & Hc & Hn). exists e. rewrite <- list_elem_of_In. split; [done|].
    rewrite Ht, Z.eqb_refl, Hc, Hn. cbn. by left.
Qed.

(** X1: on every graph, the nodes get_sources returns for an id are exactly
    the nodes stored under the source id of some non-clock edge into that
    id, and the nodes get_targets returns are exactly the nodes stored under
    the target id of some non-clock edge out of it; clock edges and edges
    whose other end is no key of graph.nodes contribute nothing. *)
Theorem X1_neighbours_follow_signal_edges (g : TopologyGraph) (node_id : Z)
    (n : TopologyNode) :
  (n ∈ get_sources g node_id
   <-> exists e, e ∈ edges g /\ target_id e = node_id /\ is_clock e = false
                 /\ get_node g (source_id e) = Some n)
  /\ (n ∈ get_targets g node_id
      <-> exists e, e ∈ edges g /\ source_id e = node_id /\ is_clock e = false
                    /\ get_node g (target_id e) = Some n).
Proof. split; [apply get_sources_elem | apply get_targets_elem]. Qed.

(** X2: get_sources and get_targets are converse to each other on a graph
    whose nodes sit under their own ids: for two nodes s and t of such a
    graph, s is among the sources of t's id exactly when t is among the
    targets of s's id. *)
Theorem X2_sources_and_targets_are_converse (g : TopologyGraph) (s t : TopologyNode) :
  map_Forall (fun k n => id n = k) (nodes g) ->
  get_node g (id s) = Some s ->
  get_node g (id t) = Some t ->
  s ∈ get_sources g (id t) <-> t ∈ get_targets g (id s).
Proof.
  intros Hkeyed Hs Ht. unfold get_node in *.
  rewrite get_sources_elem, get_targets_elem. split.
  - intros (e & He & Htgt & Hc & Hsrc). exists e.
    pose proof (Hkeyed _ _ Hsrc) as Hid. cbn in Hid.
    repeat split; try done. by rewrite Htgt.
  - intros (e & He & Hsrc & Hc & Htgt). exists e.
    pose proof (Hkeyed _ _ Htgt) as Hid. cbn in Hid.
    repeat split; try done. by rewrite Hsrc.
Qed.

Lemma X2_sources_and_targets_are_converse_witness :
  let g := graph_before_paths
             (interface_of [input_terminal 1] [output_terminal 2 1] [] []) in
  exists s t, get_node g 1 = Some s /\ get_node g 2 = Some t
              /\ (s ∈ get_sources g (id t) <-> t ∈ get_targets g (id s)).
Proof.
  cbv zeta. eexists. eexists.
  split; [vm_compute; reflexivity|]. split; [vm_compute; reflexivity|].
  apply X2_sources_and_targets_are_converse.
  - apply graph_before_paths_keyed.
  - vm_compute. reflexivity.
  - vm_compute. reflexivity.
Defined.

(** ** The backward trace finds exactly the duplicate-free chains *)

Lemma mapM_elem_concat {A B : Type} (f : A -> option (list B)) (xs : list A)
    (founds : list (list B)) (x : A) :
  mapM f xs = Some founds -> x ∈ xs ->
  exists found, f x = Some found /\ forall p, p ∈ found -> p ∈ concat founds.
Proof.
  intros Hmap Hx. apply mapM_Some in Hmap.
  induction Hmap as [|y found ys founds Hy _ IH].
  - by apply elem_of_nil in Hx.
  - apply elem_of_cons in Hx as [->|Hx].
    + exists found. split; [done|]. intros p Hp. cbn. apply elem_of_app. by left.
    + destruct (IH Hx) as (found' & Hf & Hsub). exists found'. split; [done|].
      intros p Hp. cbn. apply elem_of_app. right. by apply Hsub.
Qed.

Lemma trace_back_rec_chain (g : TopologyGraph) (fuel : nat) :
  forall (node_id : Z) (current_path : list Z) (visited : gset Z) (ps : list (list Z)),
    _trace_back_rec fuel g node_id current_path visited = Some ps ->
    forall p, p ∈ ps ->
      exists chain, p = chain ++ current_path /\ signal_chain g chain node_id.
Proof.
  induction fuel as [|fuel IH]; intros nid path visited ps Hrun p Hp; [discriminate|].
  cbn [_trace_back_rec] in Hrun.
  case_bool_decide as Hvis; [inversion Hrun; subst; by apply elem_of_nil in Hp|].
  destruct (nodes g !! nid) as [node|] eqn:Hnode;
    [|inversion Hrun; subst; by apply elem_of_nil in Hp].
  case_bool_decide as Hty.
  { inversion Hrun; subst ps. apply list_elem_of_singleton in Hp. subst p.
    exists [nid]. split; [reflexivity|]. by eapply chain_input. }
  destruct (get_sources g nid) as [|src srcs] eqn:Hsources;
    [inversion Hrun; subst; by apply elem_of_nil in Hp|].
  rewrite (for_each_opt_appends
             (fun source => _trace_back_rec fuel g (id source) ([nid] ++ path)
                              (visited ∪ {[nid]}))) in Hrun by reflexivity.
  destruct (mapM _ (src :: srcs)) as [founds|] eqn:Hmap; [|discriminate].
  inversion Hrun; subst ps; clear Hrun. cbn [app] in Hp.
  destruct (mapM_concat_elem _ _ _ _ Hmap Hp) as (source & found & Hin & Hsrc & Hpf).
  destruct (IH _ _ _ _ Hsrc p Hpf) as (chain & -> & Hchain).
  exists (chain ++ [nid]). split; [by rewrite <- app_assoc|].
  eapply chain_step; [exact Hnode | exact Hty | | exact Hchain].
  by rewrite Hsources.
Qed.

Lemma trace_back_rec_complete (g : TopologyGraph) (chain : list Z) (node_id : Z) :
  signal_chain g chain node_id ->
  forall (fuel : nat) (current_path : list Z) (visited : gset Z) (ps : list (list Z)),
    NoDup chain -> (forall x, x ∈ chain -> x ∉ visited) ->
    _trace_back_rec fuel g node_id current_path visited = Some ps ->
    chain ++ current_path ∈ ps.
Proof.
  induction 1 as [nid node Hnode Hty|nid node source chain Hnode Hty Hsource Hchain IH];
    intros fuel path visited ps Hnd Hfresh Hrun.
  - destruct fuel as [|fuel]; [discriminate|]. cbn [_trace_back_rec] in Hrun.
    rewrite bool_decide_eq_false_2 in Hrun by (apply Hfresh; set_solver).
    rewrite Hnode, bool_decide_eq_true_2 in Hrun by done.
    inversion Hrun. set_solver.
  - destruct fuel as [|fuel]; [discriminate|]. cbn [_trace_back_rec] in Hrun.
    rewrite bool_decide_eq_false_2 in Hrun by (apply Hfresh; set_solver).
    rewrite Hnode, bool_decide_eq_false_2 in Hrun by done.
    destruct (get_sources g nid) as [|src srcs] eqn:Hsources;
      [by apply elem_of_nil in Hsource|].
    rewrite (for_each_opt_appends
               (fun source => _trace_back_rec fuel g (id source) ([nid] ++ path)
                                (visited ∪ {[nid]}))) in Hrun by reflexivity.
    destruct (mapM _ (src :: srcs)) as [founds|] eqn:Hmap; [|discriminate].
    inversion Hrun; subst ps; clear Hrun. cbn [app].
    destruct (mapM_elem_concat _ _ _ _ Hmap Hsource) as (found & Hfound & Hsub).
    rewrite <- app_assoc. apply Hsub.
    apply NoDup_app in Hnd as (Hnd & Hnot & _).
    eapply IH; [exact Hnd | | exact Hfound].
    intros x Hx Hvis. apply elem_of_union in Hvis as [Hvis|Hvis].
    + apply (Hfresh x); [set_solver | done].
    + apply (Hnot x Hx). set_solver.
Qed.

Lemma trace_back_exact (g : TopologyGraph) (node_id : Z) (ps : list (list Z)) :
  _trace_back g node_id [] ∅ = Some ps ->
  forall p, p ∈ ps <-> signal_chain g p node_id /\ NoDup p.
Proof.
  intros Hrun p. split.
  - intros Hp. split.
    + destruct (trace_back_rec_chain _ _ _ _ _ _ Hrun p Hp) as (chain & -> & Hchain).
      by rewrite app_nil_r.
    + apply trace_back_NoDup in Hrun. rewrite Forall_forall in Hrun. by apply Hrun.
  - intros [Hchain Hnd].
    rewrite <- (app_nil_r p).
    eapply (trace_back_rec_complete g p node_id Hchain _ [] ∅);
      [exact Hnd | intros x _; apply not_elem_of_empty | exact Hrun].
Qed.

(** X3: on every graph, cyclic or not, _trace_back from a node id with an
    empty path and an empty visited set returns, and the id lists it returns
    are exactly the duplicate-free backward chains of that id: the lists
    that start at an input terminal node, end at the id, and in which every
    id has the node of the id before it among its get_sources, no id but the
    first belonging to an input terminal node. *)
Theorem X3_trace_back_finds_exactly_the_simple_chains (g : TopologyGraph) (node_id : Z) :
  exists ps, _trace_back g node_id [] ∅ = Some ps
             /\ forall p, p ∈ ps <-> signal_chain g p node_id /\ NoDup p.
Proof.
  destruct (trace_back_total g node_id [] ∅) as [ps Hrun].
  exists ps. split; [exact Hrun|]. by apply trace_back_exact.
Qed.

(** ** Nodes and entities *)

Lemma first_entity_app (k : Z) (l1 l2 : list Entity) :
  first_entity k (l1 ++ l2)
  = match first_entity k l1 with
    | Some e => Some e
    | None => first_entity k l2
    end.
Proof.
  unfold first_entity. induction l1 as [|e l1 IH]; cbn; [reflexivity|].
  by destruct (entity_id e =? k).
Qed.

Lemma first_entity_fmap {A : Type} (wrap : A -> Entity) (key : A -> Z) (k : Z)
    (xs : list A) :
  (forall x, entity_id (wrap x) = key x) ->
  first_entity k (wrap <$> xs) = wrap <$> first_with_id key k xs.
Proof.
  intros Hkey. unfold first_entity, first_with_id.
  induction xs as [|x xs IH]; cbn; [reflexivity|].
  rewrite Hkey. by destruct (key x =? k).
Qed.

Lemma first_entity_Some (k : Z) (l : list Entity) (e : Entity) :
  first_entity k l = Some e -> e ∈ l /\ entity_id e = k.
Proof.
  intros Hfind. apply find_some in Hfind as [Hin Hid].
  split; [by apply list_elem_of_In | by apply Z.eqb_eq].
Qed.

Lemma first_entity_None (k : Z) (l : list Entity) :
  first_entity k l = None <-> k ∉ entity_id <$> l.
Proof.
  unfold first_entity. induction l as [|e l IH]; cbn.
  - split; [intros _; apply not_elem_of_nil | done].
  - rewrite not_elem_of_cons. destruct (Z.eqb_spec (entity_id e) k) as [Heq|Hne].
    + split; [done | intros [Hne _]; congruence].
    + rewrite IH. split; [intros Hk; split; [congruence | done] | by intros [_ Hk]].
Qed.

Lemma first_entity_is_Some (k : Z) (l : list Entity) :
  is_Some (first_entity k l) <-> k ∈ entity_id <$> l.
Proof.
  destruct (first_entity k l) as [e|] eqn:Hfind.
  - split; [intros _ | by eauto].
    apply first_entity_Some in Hfind as [Hin <-]. by apply list_elem_of_fmap_2.
  - split; [by intros [? ?]|]. intros Hin. by apply first_entity_None in Hfind.
Qed.

(* Where ids are pairwise distinct, the one entity with an id is the first
   with it. *)
Lemma first_entity_unique (k : Z) (l : list Entity) (e : Entity) :
  NoDup (entity_id <$> l) -> e ∈ l -> entity_id e = k -> first_entity k l = Some e.
Proof.
  unfold first_entity. induction l as [|e' l IH]; cbn; intros Hnd Hin Hid.
  - by apply elem_of_nil in Hin.
  - apply NoDup_cons in Hnd as [Hfresh Hnd].
    apply elem_of_cons in Hin as [->|Hin]; [by rewrite Hid, Z.eqb_refl|].
    destruct (Z.eqb_spec (entity_id e') k) as [Heq|Hne]; [|by apply IH].
    exfalso. apply Hfresh. rewrite Heq, <- Hid. by apply list_elem_of_fmap_2.
Qed.

Lemma last_entity_unique (k : Z) (l : list Entity) :
  NoDup (entity_id <$> l) -> last_entity k l = first_entity k l.
Proof.
  intros Hnd. unfold last_entity.
  destruct (first_entity k l) as [e|] eqn:Hfind.
  - apply first_entity_Some in Hfind as [Hin Hid].
    apply first_entity_unique; [|by apply elem_of_reverse|done].
    by rewrite fmap_reverse, reverse_Permutation.
  - apply first_entity_None. apply first_entity_None in Hfind.
    by rewrite fmap_reverse, elem_of_reverse.
Qed.

Lemma last_entity_snoc (k : Z) (l : list Entity) (e : Entity) :
  last_entity k (l ++ [e]) = if entity_id e =? k then Some e else last_entity k l.
Proof. unfold last_entity. by rewrite reverse_snoc. Qed.

Lemma nodes_follow_step (g g' : TopologyGraph) (l : list Entity) (e : Entity)
    (n : TopologyNode) :
  nodes g' = <[entity_id e := n]> (nodes g) ->
  node_of (entity_id e) e n ->
  nodes_follow g l -> nodes_follow g' (l ++ [e]).
Proof.
  intros Hnodes Hnode Hg k. rewrite Hnodes, last_entity_snoc.
  destruct (Z.eqb_spec (entity_id e) k) as [<-|Hne].
  - rewrite lookup_insert_eq. by exists e.
  - rewrite lookup_insert_ne by done. apply Hg.
Qed.

Lemma nodes_follow_loop {A : Type} (wrap : A -> Entity)
    (body : TopologyGraph -> A -> TopologyGraph) (xs : list A) :
  (forall g x, exists n, nodes (body g x) = <[entity_id (wrap x) := n]> (nodes g)
                         /\ node_of (entity_id (wrap x)) (wrap x) n) ->
  forall (g : TopologyGraph) (l : list Entity),
    nodes_follow g l -> nodes_follow (for_each xs body g) (l ++ (wrap <$> xs)).
Proof.
  intros Hbody. induction xs as [|x xs IH]; intros g l Hg.
  - cbn. by rewrite app_nil_r.
  - rewrite for_each_cons, fmap_cons, (cons_middle (wrap x)), app_assoc.
    apply IH. destruct (Hbody g x) as (n & Hnodes & Hnode).
    by eapply nodes_follow_step.
Qed.

Lemma graph_before_paths_nodes (ac : AudioControlInterface.t) :
  nodes_follow (graph_before_paths ac) (entities ac).
Proof.
  assert (Hloops : nodes_follow
                     (_add_clock_entities
                        (_add_extension_units
                           (_add_processing_units
                              (_add_selector_units
                                 (_add_mixer_units
                                    (_add_feature_units
                                       (_add_output_terminals
                                          (_add_input_terminals empty_graph ac) ac) ac)
                                    ac) ac) ac) ac) ac)
                     ([] ++ entities ac)).
  { unfold entities. rewrite !app_assoc.
    unfold _add_clock_entities, _add_extension_units, _add_processing_units,
      _add_selector_units, _add_mixer_units, _add_feature_units, _add_output_terminals,
      _add_input_terminals.
    repeat (apply nodes_follow_loop;
            [intros g x; eexists; split; [reflexivity | by repeat split]|]).
    intros k. cbn [nodes empty_graph]. by rewrite lookup_empty. }
  intros k. specialize (Hloops k). unfold graph_before_paths.
  by rewrite build_edges_eq, with_edges_nodes.
Qed.

Lemma built_graph (device : USBAudioDevice.t) (ac : AudioControlInterface.t)
    (g : TopologyGraph) :
  USBAudioDevice.audio_control device = Some ac ->
  build_topology device = Some g ->
  exists paths, _find_signal_paths (graph_before_paths ac) = Some paths
                /\ g = with_signal_paths paths (graph_before_paths ac).
Proof.
  intros Hac. rewrite build_topology_eq, Hac.
  destruct (_find_signal_paths (graph_before_paths ac)) as [paths|]; [|discriminate].
  intros [= <-]. by exists paths.
Qed.

(** X4: in the graph build_topology returns for a device with an
    AudioControl interface, the keys of graph.nodes are exactly the ids of
    the interface's terminals, units and clock entities, and the node under
    a key was made from the last entity with that id in creation order
    (input terminals, output terminals, feature, mixer, selector, processing
    and extension units, clock sources, selectors and multipliers): it
    refers to that entity, carries its id and has the node type of its
    kind. *)
Theorem X4_nodes_are_made_from_the_entities (device : USBAudioDevice.t)
    (ac : AudioControlInterface.t) (g : TopologyGraph) :
  USBAudioDevice.audio_control device = Some ac ->
  build_topology device = Some g ->
  (forall k, is_Some (get_node g k) <-> k ∈ entity_ids ac)
  /\ (forall k n, get_node g k = Some n ->
        exists e, last_entity k (entities ac) = Some e /\ e ∈ entities ac
                  /\ entity n = Some e /\ id n = k /\ entity_id e = k
                  /\ node_type n = kind e).
Proof.
  intros Hac Hbuild. destruct (built_graph _ _ _ Hac Hbuild) as (paths & _ & ->).
  unfold get_node. cbn [nodes with_signal_paths].
  pose proof (graph_before_paths_nodes ac) as Hnodes. split.
  - intros k. specialize (Hnodes k). unfold entity_ids.
    rewrite <- (elem_of_reverse k), <- fmap_reverse, <- first_entity_is_Some.
    fold (last_entity k (entities ac)).
    destruct (nodes (graph_before_paths ac) !! k) as [n|].
    + destruct Hnodes as (e & -> & _). split; eauto.
    + rewrite Hnodes. split; by intros [? ?].
  - intros k n Hn. specialize (Hnodes k). rewrite Hn in Hnodes.
    destruct Hnodes as (e & Hlast & He & Hid & Hk & Hty).
    exists e. repeat split; try done.
    apply first_entity_Some in Hlast as [Hin _]. by apply elem_of_reverse.
Qed.

Lemma X4_nodes_are_made_from_the_entities_witness :
  let ac := interface_of [input_terminal 1] [output_terminal 2 1] [] [] in
  exists g, build_topology (device_of ac) = Some g
            /\ (forall k, is_Some (get_node g k) <-> k ∈ entity_ids ac).
Proof.
  cbv zeta.
  destruct (build_topology_total
              (device_of (interface_of [input_terminal 1] [output_terminal 2 1] [] [])))
    as [g Hg].
  exists g. split; [exact Hg|].
  exact (proj1 (X4_nodes_are_made_from_the_entities
                  (device_of (interface_of [input_terminal 1] [output_terminal 2 1] [] []))
                  _ g eq_refl Hg)).
Defined.

Lemma get_entity_by_id_eq (ac : AudioControlInterface.t) (k : Z) :
  AudioControlInterface_get_entity_by_id ac k = first_entity k (entities ac).
Proof.
  unfold AudioControlInterface_get_entity_by_id, entities.
  rewrite !first_entity_app.
  rewrite (first_entity_fmap EInputTerminal InputTerminal.terminal_id) by done.
  rewrite (first_entity_fmap EOutputTerminal OutputTerminal.terminal_id) by done.
  rewrite (first_entity_fmap EFeatureUnit FeatureUnit.unit_id) by done.
  rewrite (first_entity_fmap EMixerUnit MixerUnit.unit_id) by done.
  rewrite (first_entity_fmap ESelectorUnit SelectorUnit.unit_id) by done.
  rewrite (first_entity_fmap EProcessingUnit ProcessingUnit.unit_id) by done.
  rewrite (first_entity_fmap EExtensionUnit ExtensionUnit.unit_id) by done.
  rewrite (first_entity_fmap EClockSource ClockSource.clock_id) by done.
  rewrite (first_entity_fmap EClockSelector ClockSelector.clock_id) by done.
  rewrite (first_entity_fmap EClockMultiplier ClockMultiplier.clock_id) by done.
  repeat match goal with
         | |- context [first_with_id ?key k ?xs] => destruct (first_with_id key k xs)
         end; reflexivity.
Qed.

(** X5: get_entity_by_id finds an entity exactly for the ids that some
    terminal, unit or clock entity of the interface carries, and what it
    returns is the first entity with that id in its search order (input
    terminals, output terminals, feature, mixer, selector, processing and
    extension units, clock sources, selectors and multipliers). *)
Theorem X5_get_entity_by_id_finds_the_first (ac : AudioControlInterface.t) (k : Z) :
  (is_Some (AudioControlInterface_get_entity_by_id ac k) <-> k ∈ entity_ids ac)
  /\ (forall e, AudioControlInterface_get_entity_by_id ac k = Some e ->
        e ∈ entities ac /\ entity_id e = k
        /\ exists before after,
             entities ac = before ++ e :: after /\ k ∉ entity_id <$> before).
Proof.
  rewrite get_entity_by_id_eq. split; [apply first_entity_is_Some|].
  intros e Hfind. pose proof (first_entity_Some _ _ _ Hfind) as [Hin Hid].
  split; [done|]. split; [done|].
  revert Hfind. clear Hin. generalize (entities ac) as l.
  unfold first_entity. induction l as [|e' l IH]; cbn; [discriminate|].
  destruct (Z.eqb_spec (entity_id e') k) as [Heq|Hne].
  - intros [= ->]. exists [], l. split; [reflexivity | apply not_elem_of_nil].
  - intros Hfind. destruct (IH Hfind) as (before & after & -> & Hfresh).
    exists (e' :: before), after. split; [reflexivity|].
    cbn. rewrite not_elem_of_cons. split; [congruence | done].
Qed.

(** X6: where the ids of the interface's entities are pairwise distinct,
    the nodes of the graph build_topology returns refer to the same
    entities as get_entity_by_id: for every id, the entity of the node
    under that id is what get_entity_by_id returns for it, and there is no
    node exactly when get_entity_by_id returns None. *)
Theorem X6_nodes_agree_with_get_entity_by_id (device : USBAudioDevice.t)
    (ac : AudioControlInterface.t) (g : TopologyGraph) :
  USBAudioDevice.audio_control device = Some ac ->
  build_topology device = Some g ->
  NoDup (entity_ids ac) ->
  forall k, entity <$> get_node g k
            = Some <$> AudioControlInterface_get_entity_by_id ac k.
Proof.
  intros Hac Hbuild Hnd k. destruct (built_graph _ _ _ Hac Hbuild) as (paths & _ & ->).
  unfold get_node. cbn [nodes with_signal_paths].
  rewrite get_entity_by_id_eq, <- last_entity_unique by exact Hnd.
  pose proof (graph_before_paths_nodes ac k) as Hnodes.
  destruct (nodes (graph_before_paths ac) !! k) as [n|].
  - destruct Hnodes as (e & -> & He & _). cbn. by rewrite He.
  - by rewrite Hnodes.
Qed.

Lemma X6_nodes_agree_with_get_entity_by_id_witness :
  let ac := interface_of [input_terminal 1] [output_terminal 2 1] [] [] in
  exists g, build_topology (device_of ac) = Some g
            /\ forall k, entity <$> get_node g k
                         = Some <$> AudioControlInterface_get_entity_by_id ac k.
Proof.
  cbv zeta.
  destruct (build_topology_total
              (device_of (interface_of [input_terminal 1] [output_terminal 2 1] [] [])))
    as [g Hg].
  exists g. split; [exact Hg|].
  apply (X6_nodes_agree_with_get_entity_by_id
           (device_of (interface_of [input_terminal 1] [output_terminal 2 1] [] []))
           _ g eq_refl Hg).
  vm_compute. repeat constructor; set_solver.
Defined.

(* With a shared id the two disagree: the node is made from the entity
   created last, the lookup returns the entity found first. *)
Example shared_id_node_and_lookup :
  (entity <$> (build_topology (device_of shared_id) ≫= fun g => get_node g 1)
   = Some (Some (EFeatureUnit (feature_unit 1 0))))
  /\ AudioControlInterface_get_entity_by_id shared_id 1
     = Some (EInputTerminal (input_terminal 1)).
Proof. split; vm_compute; reflexivity. Qed.

(** ** The category lists *)

Lemma made_from_keep {A : Type} (proj : TopologyGraph -> list TopologyNode)
    (body : TopologyGraph -> A -> TopologyGraph) (xs : list A) (g : TopologyGraph)
    (l : list Entity) :
  (forall g x, proj (body g x) = proj g) ->
  made_from (proj g) l -> made_from (proj (for_each xs body g)) l.
Proof.
  intros Hbody Hg.
  apply (for_each_invariant (fun g' => made_from (proj g') l)); [|exact Hg].
  intros g' x Hg'. by rewrite Hbody.
Qed.

Lemma made_from_loop {A : Type} (proj : TopologyGraph -> list TopologyNode)
    (wrap : A -> Entity) (body : TopologyGraph -> A -> TopologyGraph) (xs : list A) :
  (forall g x, exists n, proj (body g x) = proj g ++ [n]
                         /\ node_of (entity_id (wrap x)) (wrap x) n) ->
  forall (g : TopologyGraph) (l : list Entity),
    made_from (proj g) l -> made_from (proj (for_each xs body g)) (l ++ (wrap <$> xs)).
Proof.
  intros Hbody. induction xs as [|x xs IH]; intros g l Hg.
  - cbn. by rewrite app_nil_r.
  - rewrite for_each_cons, fmap_cons, (cons_middle (wrap x)), app_assoc.
    apply IH. destruct (Hbody g x) as (n & -> & Hnode).
    apply Forall2_app; [exact Hg|]. constructor; [exact Hnode | constructor].
Qed.

Ltac category_list :=
  unfold _add_clock_entities, _add_extension_units, _add_processing_units,
    _add_selector_units, _add_mixer_units, _add_feature_units, _add_output_terminals,
    _add_input_terminals;
  repeat first
    [ apply made_from_keep; [intros ? ?; reflexivity|]
    | apply made_from_loop;
      [intros ? ?; eexists; split; [reflexivity | by repeat split]|] ];
  constructor.

Lemma usb_lists_step (c : bool) (node : TopologyNode) (usb all : list TopologyNode) :
  is_usb_streaming node = c ->
  usb = List.filter is_usb_streaming all ->
  (if c then list_append node else keep) usb
  = List.filter is_usb_streaming (list_append node all).
Proof.
  intros Hc ->. unfold list_append, keep. rewrite List.filter_app. cbn. rewrite Hc.
  destruct c; [reflexivity | by rewrite app_nil_r].
Qed.

Lemma graph_before_paths_usb_lists (ac : AudioControlInterface.t) :
  usb_input_terminals (graph_before_paths ac)
  = List.filter is_usb_streaming (input_terminals (graph_before_paths ac))
  /\ usb_output_terminals (graph_before_paths ac)
     = List.filter is_usb_streaming (output_terminals (graph_before_paths ac)).
Proof.
  unfold graph_before_paths. rewrite build_edges_eq.
  cbn [usb_input_terminals usb_output_terminals input_terminals output_terminals
         with_edges].
  unfold _add_clock_entities, _add_extension_units, _add_processing_units,
    _add_selector_units, _add_mixer_units, _add_feature_units, _add_output_terminals,
    _add_input_terminals.
  repeat (apply (for_each_invariant
                   (fun g => usb_input_terminals g
                             = List.filter is_usb_streaming (input_terminals g)
                             /\ usb_output_terminals g
                                = List.filter is_usb_streaming (output_terminals g)));
          [intros g x [Hin Hout];
           cbn [usb_input_terminals usb_output_terminals input_terminals output_terminals
                  add_node];
           split; first [exact Hin | exact Hout | by apply usb_lists_step]|]).
  by split.
Qed.

(** X7: in the graph build_topology returns for a device with an
    AudioControl interface, the category lists hold the nodes made from the
    interface's entities, one for one and in order: input_terminals from
    the input terminals, output_terminals from the output terminals, units
    from the feature, mixer, selector, processing and extension units,
    clock_entities from the clock sources, selectors and multipliers; and
    usb_input_terminals and usb_output_terminals are the USB streaming
    nodes of input_terminals and output_terminals, in the same order. *)
Theorem X7_category_lists_follow_the_interface (device : USBAudioDevice.t)
    (ac : AudioControlInterface.t) (g : TopologyGraph) :
  USBAudioDevice.audio_control device = Some ac ->
  build_topology device = Some g ->
  made_from (input_terminals g)
    (EInputTerminal <$> AudioControlInterface.input_terminals ac)
  /\ made_from (output_terminals g)
       (EOutputTerminal <$> AudioControlInterface.output_terminals ac)
  /\ made_from (units g)
       ((EFeatureUnit <$> AudioControlInterface.feature_units ac)
        ++ (EMixerUnit <$> AudioControlInterface.mixer_units ac)
        ++ (ESelectorUnit <$> AudioControlInterface.selector_units ac)
        ++ (EProcessingUnit <$> AudioControlInterface.processing_units ac)
        ++ (EExtensionUnit <$> AudioControlInterface.extension_units ac))
  /\ made_from (clock_entities g)
       ((EClockSource <$> AudioControlInterface.clock_sources ac)
        ++ (EClockSelector <$> AudioControlInterface.clock_selectors ac)
        ++ (EClockMultiplier <$> AudioControlInterface.clock_multipliers ac))
  /\ usb_input_terminals g = List.filter is_usb_streaming (input_terminals g)
  /\ usb_output_terminals g = List.filter is_usb_streaming (output_terminals g).
Proof.
  intros Hac Hbuild. destruct (built_graph _ _ _ Hac Hbuild) as (paths & _ & ->).
  cbn [input_terminals output_terminals units clock_entities usb_input_terminals
         usb_output_terminals with_signal_paths].
  unfold graph_before_paths at 1 2 3 4. rewrite build_edges_eq.
  cbn [input_terminals output_terminals units clock_entities with_edges].
  split; [|split; [|split; [|split]]].
  - change (EInputTerminal <$> AudioControlInterface.input_terminals ac)
      with ([] ++ (EInputTerminal <$> AudioControlInterface.input_terminals ac)).
    category_list.
  - change (EOutputTerminal <$> AudioControlInterface.output_terminals ac)
      with ([] ++ (EOutputTerminal <$> AudioControlInterface.output_terminals ac)).
    category_list.
  - rewrite !app_assoc.
    change (EFeatureUnit <$> AudioControlInterface.feature_units ac)
      with ([] ++ (EFeatureUnit <$> AudioControlInterface.feature_units ac)).
    category_list.
  - rewrite !app_assoc.
    change (EClockSource <$> AudioControlInterface.clock_sources ac)
      with ([] ++ (EClockSource <$> AudioControlInterface.clock_sources ac)).
    category_list.
  - apply graph_before_paths_usb_lists.
Qed.

Lemma X7_category_lists_follow_the_interface_witness :
  let ac := interface_of [input_terminal 1] [output_terminal 2 1] [] [] in
  exists g, build_topology (device_of ac) = Some g
            /\ made_from (input_terminals g)
                 (EInputTerminal <$> AudioControlInterface.input_terminals ac).
Proof.
  cbv zeta.
  destruct (build_topology_total
              (device_of (interface_of [input_terminal 1] [output_terminal 2 1] [] [])))
    as [g Hg].
  exists g. split; [exact Hg|].
  exact (proj1 (X7_category_lists_follow_the_interface
                  (device_of (interface_of [input_terminal 1] [output_terminal 2 1] [] []))
                  _ g eq_refl Hg)).
Defined.

(** ** The signal paths of a built graph *)

Lemma signal_chain_with_signal_paths (paths : list SignalPath) (g : TopologyGraph)
    (chain : list Z) (node_id : Z) :
  signal_chain (with_signal_paths paths g) chain node_id <-> signal_chain g chain node_id.
Proof.
  split.
  - induction 1 as [nid node Hnode Hty|nid node source chain Hnode Hty Hsource _ IH].
    + by eapply chain_input.
    + eapply chain_step; [exact Hnode | exact Hty | exact Hsource | exact IH].
  - induction 1 as [nid node Hnode Hty|nid node source chain Hnode Hty Hsource _ IH].
    + by eapply chain_input.
    + eapply chain_step; [exact Hnode | exact Hty | exact Hsource | exact IH].
Qed.

(* A chain starts at an input terminal node, holds no other input terminal
   node, and ends at the id it was traced from; all its ids are keys. *)
Lemma signal_chain_shape (g : TopologyGraph) (chain : list Z) (node_id : Z) :
  signal_chain g chain node_id ->
  exists k rest,
    chain = k :: rest
    /\ (exists node, nodes g !! k = Some node /\ node_type node = INPUT_TERMINAL)
    /\ Forall (fun k' => exists node, nodes g !! k' = Some node
                                      /\ node_type node <> INPUT_TERMINAL) rest
    /\ last chain = Some node_id.
Proof.
  induction 1 as [nid node Hnode Hty|nid node source chain Hnode Hty Hsource _ IH].
  - exists nid, []. repeat split; [by exists node | constructor].
  - destruct IH as (k & rest & -> & Hfirst & Hrest & _).
    exists k, (rest ++ [nid]). split; [reflexivity|]. split; [exact Hfirst|]. split.
    + apply Forall_app. split; [exact Hrest|]. constructor; [by exists node | constructor].
    + apply last_snoc.
Qed.

Lemma signal_chain_keys (g : TopologyGraph) (chain : list Z) (node_id : Z) :
  signal_chain g chain node_id -> Forall (fun k => is_Some (nodes g !! k)) chain.
Proof.
  intros Hchain. destruct (signal_chain_shape _ _ _ Hchain)
    as (k & rest & -> & (node & Hnode & _) & Hrest & _).
  constructor; [by exists node|].
  eapply Forall_impl; [exact Hrest|]. cbn. intros k' (node' & Hnode' & _). by exists node'.
Qed.

(* Consecutive ids of a chain are the ends of a non-clock edge. *)
Lemma signal_chain_linked (g : TopologyGraph) (chain : list Z) (node_id : Z) :
  map_Forall (fun k n => id n = k) (nodes g) ->
  signal_chain g chain node_id ->
  forall (i : nat) (a b : Z),
    chain !! i = Some a -> chain !! S i = Some b ->
    exists e, e ∈ edges g /\ source_id e = a /\ target_id e = b /\ is_clock e = false.
Proof.
  intros Hkeyed.
  induction 1 as [nid node Hnode Hty|nid node source chain Hnode Hty Hsource Hchain IH];
    intros i a b Ha Hb.
  - by destruct i.
  - destruct (decide (S i < length chain)%nat) as [Hlt|Hge].
    + rewrite lookup_app_l in Ha by lia. rewrite lookup_app_l in Hb by lia.
      by eapply IH.
    + assert (Hlen : (S i < length (chain ++ [nid]))%nat)
        by (apply lookup_lt_is_Some; eauto).
      rewrite length_app in Hlen. cbn in Hlen.
      assert (Hi : S i = length chain) by lia.
      rewrite lookup_app_r in Hb by lia. rewrite Hi, Nat.sub_diag in Hb.
      injection Hb as <-.
      rewrite lookup_app_l in Ha by lia.
      destruct (signal_chain_shape _ _ _ Hchain) as (_ & _ & _ & _ & _ & Hlast).
      rewrite last_lookup, <- Hi in Hlast. cbn in Hlast. rewrite Ha in Hlast.
      injection Hlast as ->.
      apply get_sources_elem in Hsource as (e & He & Htgt & Hclock & Hsrc).
      exists e. repeat split; try done. symmetry. exact (Hkeyed _ _ Hsrc).
Qed.

Lemma omap_lookup_all (m : gmap Z TopologyNode) (ids : list Z) :
  map_Forall (fun k n => id n = k) m ->
  Forall (fun k => is_Some (m !! k)) ids ->
  id <$> omap (fun nid => m !! nid) ids = ids
  /\ Forall (fun n => m !! id n = Some n) (omap (fun nid => m !! nid) ids).
Proof.
  intros Hkeyed. induction 1 as [|k ids [n Hn] _ [IHids IHself]]; cbn.
  - split; [reflexivity | constructor].
  - rewrite Hn. cbn. pose proof (Hkeyed _ _ Hn) as Hid. cbn in Hid. split.
    + by rewrite Hid, IHids.
    + constructor; [by rewrite Hid | exact IHself].
Qed.

Lemma omap_lookup_self (m : gmap Z TopologyNode) (ns : list TopologyNode) :
  Forall (fun n => m !! id n = Some n) ns ->
  omap (fun nid => m !! nid) (id <$> ns) = ns.
Proof.
  induction 1 as [|n ns Hn _ IH]; cbn; [reflexivity|]. by rewrite Hn, IH.
Qed.

Lemma find_signal_paths_elem (g : TopologyGraph) (paths : list SignalPath) :
  map_Forall (fun k n => id n = k) (nodes g) ->
  _find_signal_paths g = Some paths ->
  forall p, p ∈ paths
            <-> (exists ot, ot ∈ output_terminals g /\ signal_chain g (path_ids p) (id ot))
                /\ NoDup (path_ids p)
                /\ Forall (fun n => nodes g !! id n = Some n) (path_nodes p)
                /\ path_description p = _describe_path (path_nodes p).
Proof.
  intros Hkeyed. rewrite find_signal_paths_eq.
  destruct (mapM _ (output_terminals g)) as [founds|] eqn:Hmap; [|discriminate].
  intros [= <-] p. split.
  - intros Hp.
    destruct (mapM_concat_elem _ _ _ _ Hmap Hp) as (ot & found & Hin & Hot & Hpf).
    destruct (_trace_back g (id ot) [] ∅) as [idss|] eqn:Htb; [|discriminate].
    injection Hot as <-.
    unfold paths_of in Hpf. apply list_elem_of_In, in_flat_map in Hpf as (ids & Hids & Hp').
    apply list_elem_of_In in Hids.
    apply (trace_back_exact _ _ _ Htb) in Hids as [Hchain Hnd].
    destruct (omap_lookup_all (nodes g) ids Hkeyed (signal_chain_keys _ _ _ Hchain))
      as [Hids Hself].
    destruct (omap _ ids) as [|n ns]; [by destruct Hp'|].
    destruct Hp' as [<-|[]]. unfold path_ids. cbn [path_nodes path_description].
    rewrite Hids. split; [by exists ot|]. done.
  - intros ((ot & Hot & Hchain) & Hnd & Hself & Hdesc).
    destruct (mapM_elem_concat _ _ _ _ Hmap Hot) as (found & Hfound & Hsub).
    apply Hsub.
    destruct (_trace_back g (id ot) [] ∅) as [idss|] eqn:Htb; [|discriminate].
    injection Hfound as <-.
    unfold paths_of. apply list_elem_of_In, in_flat_map. exists (path_ids p). split.
    + apply list_elem_of_In. by apply (trace_back_exact _ _ _ Htb).
    + unfold path_ids. rewrite (omap_lookup_self _ _ Hself).
      destruct p as [ns desc]. cbn in *. subst desc.
      destruct ns as [|n ns]; [|by left].
      apply signal_chain_shape in Hchain as (? & ? & ? & _). discriminate.
Qed.

Lemma built_graph_paths (device : USBAudioDevice.t) (g : TopologyGraph) :
  build_topology device = Some g ->
  forall p, p ∈ signal_paths g
            <-> (exists ot, ot ∈ output_terminals g /\ signal_chain g (path_ids p) (id ot))
                /\ NoDup (path_ids p)
                /\ Forall (fun n => nodes g !! id n = Some n) (path_nodes p)
                /\ path_description p = _describe_path (path_nodes p).
Proof.
  rewrite build_topology_eq.
  destruct (USBAudioDevice.audio_control device) as [ac|].
  - destruct (_find_signal_paths (graph_before_paths ac)) as [paths|] eqn:Hfind;
      [|discriminate].
    intros [= <-] p. cbn [signal_paths output_terminals nodes with_signal_paths].
    rewrite (find_signal_paths_elem _ _ (graph_before_paths_keyed ac) Hfind p).
    by setoid_rewrite signal_chain_with_signal_paths.
  - intros [= <-] p. cbn. split; [by intros ?%elem_of_nil|].
    by intros ((ot & ?%elem_of_nil & _) & _).
Qed.

Lemma built_graph_keyed (device : USBAudioDevice.t) (g : TopologyGraph) :
  build_topology device = Some g -> map_Forall (fun k n => id n = k) (nodes g).
Proof.
  rewrite build_topology_eq.
  destruct (USBAudioDevice.audio_control device) as [ac|].
  - destruct (_find_signal_paths (graph_before_paths ac)) as [paths|]; [|discriminate].
    intros [= <-]. apply graph_before_paths_keyed.
  - intros [= <-]. apply map_Forall_empty.
Qed.

(** X8: the signal paths of the graph build_topology returns are exactly
    the duplicate-free backward chains of its output terminals: a SignalPath
    is in graph.signal_paths exactly when its nodes sit in graph.nodes under
    their ids, their id sequence has no repetition and is a chain from an
    input terminal node to the id of one of graph.output_terminals in which
    every node is among the get_sources of the next, and its description is
    _describe_path of its nodes. *)
Theorem X8_signal_paths_are_the_simple_chains (device : USBAudioDevice.t)
    (g : TopologyGraph) (p : SignalPath) :
  build_topology device = Some g ->
  p ∈ signal_paths g
  <-> (exists ot, ot ∈ output_terminals g /\ signal_chain g (path_ids p) (id ot))
      /\ NoDup (path_ids p)
      /\ Forall (fun n => get_node g (id n) = Some n) (path_nodes p)
      /\ path_description p = _describe_path (path_nodes p).
Proof. intros Hbuild. exact (built_graph_paths device g Hbuild p). Qed.

Lemma X8_signal_paths_are_the_simple_chains_witness :
  exists g p, build_topology
                (device_of (interface_of [input_terminal 1] [output_terminal 2 1] [] []))
              = Some g
              /\ path_ids p = [1; 2]
              /\ p ∈ signal_paths g
              /\ exists ot, ot ∈ output_terminals g /\ signal_chain g (path_ids p) (id ot).
Proof.
  eexists. eexists. split; [vm_compute; reflexivity|].
  assert (Hin : forall (p : SignalPath) (l : list SignalPath), p ∈ p :: l) by (intros; by left).
  split; [|split; [apply Hin|]]; [reflexivity|].
  eapply (proj1 (X8_signal_paths_are_the_simple_chains
                   (device_of (interface_of [input_terminal 1] [output_terminal 2 1] [] []))
                   _ _ ltac:(vm_compute; reflexivity))).
  apply Hin.
Defined.

(** X9: every signal path of the graph build_topology returns has a first
    and a last node; its first node is an input terminal node and the only
    input terminal node on the path, and its last node is the node stored
    under the id of one of graph.output_terminals. *)
Theorem X9_signal_paths_run_from_input_to_output (device : USBAudioDevice.t)
    (g : TopologyGraph) (p : SignalPath) :
  build_topology device = Some g ->
  p ∈ signal_paths g ->
  exists first rest last ot,
    path_nodes p = first :: rest
    /\ input_node p = Some first /\ node_type first = INPUT_TERMINAL
    /\ Forall (fun n => node_type n <> INPUT_TERMINAL) rest
    /\ output_node p = Some last
    /\ ot ∈ output_terminals g /\ get_node g (id ot) = Some last.
Proof.
  intros Hbuild Hp.
  apply (built_graph_paths _ _ Hbuild) in Hp as ((ot & Hot & Hchain) & _ & Hself & _).
  destruct (signal_chain_shape _ _ _ Hchain)
    as (k & ids & Hids & (node & Hnode & Hty) & Hrest & Hlast).
  unfold path_ids in Hids, Hlast. unfold input_node, output_node, get_node.
  destruct (path_nodes p) as [|first rest]; [discriminate|].
  injection Hids as Hk Hids.
  rewrite fmap_last in Hlast.
  destruct (last (first :: rest)) as [final|] eqn:Hfinal; [|discriminate].
  injection Hlast as Hlast.
  exists first, rest, final, ot. split; [reflexivity|]. split; [reflexivity|].
  apply Forall_cons in Hself as [Hfirst Hself].
  split; [rewrite Hk, Hnode in Hfirst; by injection Hfirst as <-|].
  split.
  - subst ids. clear Hfinal. induction Hself as [|n ns Hn _ IH]; [constructor|].
    rewrite fmap_cons in Hrest. apply Forall_cons in Hrest as [(node' & Hnode' & Hty') Hrest].
    constructor; [|by apply IH]. rewrite Hn in Hnode'. by injection Hnode' as <-.
  - split; [reflexivity|]. split; [exact Hot|].
    rewrite <- Hlast.
    assert (Hin : final ∈ first :: rest).
    { apply last_Some in Hfinal as [l' ->]. set_solver. }
    rewrite Forall_forall in Hself.
    apply elem_of_cons in Hin as [->|Hin]; [done | by apply Hself].
Qed.

Lemma X9_signal_paths_run_from_input_to_output_witness :
  exists g p, build_topology
                (device_of (interface_of [input_terminal 1] [output_terminal 2 1] [] []))
              = Some g
              /\ p ∈ signal_paths g
              /\ exists first rest last ot,
                   path_nodes p = first :: rest
                   /\ input_node p = Some first /\ node_type first = INPUT_TERMINAL
                   /\ Forall (fun n => node_type n <> INPUT_TERMINAL) rest
                   /\ output_node p = Some last
                   /\ ot ∈ output_terminals g /\ get_node g (id ot) = Some last.
Proof.
  eexists. eexists. split; [vm_compute; reflexivity|].
  assert (Hin : forall (p : SignalPath) (l : list SignalPath), p ∈ p :: l) by (intros; by left).
  split; [apply Hin|].
  apply (X9_signal_paths_run_from_input_to_output
           (device_of (interface_of [input_terminal 1] [output_terminal 2 1] [] []))).
  - vm_compute. reflexivity.
  - apply Hin.
Defined.

(** X10: in every signal path of the graph build_topology returns, each
    node is a get_sources neighbour of the node after it, and each node is a
    get_targets neighbour of the node before it: consecutive nodes are the
    two ends of a non-clock edge of the graph. *)
Theorem X10_signal_paths_follow_edges (device : USBAudioDevice.t) (g : TopologyGraph)
    (p : SignalPath) (i : nat) (a b : TopologyNode) :
  build_topology device = Some g ->
  p ∈ signal_paths g ->
  path_nodes p !! i = Some a ->
  path_nodes p !! S i = Some b ->
  a ∈ get_sources g (id b) /\ b ∈ get_targets g (id a).
Proof.
  intros Hbuild Hp Ha Hb.
  apply (built_graph_paths _ _ Hbuild) in Hp as ((ot & Hot & Hchain) & _ & Hself & _).
  rewrite Forall_forall in Hself.
  pose proof (Hself a (list_elem_of_lookup_2 _ _ _ Ha)) as Hnode_a.
  pose proof (Hself b (list_elem_of_lookup_2 _ _ _ Hb)) as Hnode_b.
  destruct (signal_chain_linked g _ _ (built_graph_keyed _ _ Hbuild) Hchain i (id a) (id b))
    as (e & He & Hsrc & Htgt & Hclock).
  { unfold path_ids. by rewrite list_lookup_fmap, Ha. }
  { unfold path_ids. by rewrite list_lookup_fmap, Hb. }
  split.
  - apply get_sources_elem. exists e. by rewrite Hsrc.
  - apply get_targets_elem. exists e. by rewrite Htgt.
Qed.

Lemma X10_signal_paths_follow_edges_witness :
  exists g p a b, build_topology
                    (device_of (interface_of [input_terminal 1] [output_terminal 2 1] [] []))
                  = Some g
                  /\ p ∈ signal_paths g
                  /\ path_nodes p !! 0%nat = Some a /\ path_nodes p !! 1%nat = Some b
                  /\ a ∈ get_sources g (id b) /\ b ∈ get_targets g (id a).
Proof.
  do 4 eexists. split; [vm_compute; reflexivity|].
  assert (Hin : forall (p : SignalPath) (l : list SignalPath), p ∈ p :: l) by (intros; by left).
  split; [apply Hin|]. split; [reflexivity|]. split; [reflexivity|].
  eapply (X10_signal_paths_follow_edges
            (device_of (interface_of [input_terminal 1] [output_terminal 2 1] [] []))
            _ _ 0%nat).
  - vm_compute. reflexivity.
  - apply Hin.
  - reflexivity.
  - reflexivity.
Defined.

(** ** The edges of a built graph *)

Lemma consumer_is_entity (ac : AudioControlInterface.t) (k : Z) :
  k ∈ consumer_ids ac ->
  exists e after,
    entities ac = (EInputTerminal <$> AudioControlInterface.input_terminals ac) ++ after
    /\ e ∈ after /\ entity_id e = k
    /\ Forall (fun e' => kind e' <> INPUT_TERMINAL) after.
Proof.
  intros Hk. unfold consumer_ids in Hk.
  repeat (apply elem_of_app in Hk as [Hk|Hk]);
    apply list_elem_of_fmap in Hk as (x & -> & Hx);
    [ exists (EOutputTerminal x) | exists (EFeatureUnit x) | exists (EMixerUnit x)
    | exists (ESelectorUnit x) | exists (EProcessingUnit x) | exists (EExtensionUnit x)
    | exists (EClockSelector x) | exists (EClockMultiplier x) ];
    unfold entities; eexists; (split; [reflexivity|]); (split; [set_solver|]);
    (split; [reflexivity|]);
    repeat (apply Forall_app; split);
    apply Forall_forall; intros e' (y & -> & _)%list_elem_of_fmap; done.
Qed.

(* The node under the id of an entity that refers to a source is never an
   input terminal node: such entities are created after the input
   terminals, and a later entity with the same id replaces the node. *)
Lemma consumer_node_type (ac : AudioControlInterface.t) (k : Z) (n : TopologyNode) :
  k ∈ consumer_ids ac ->
  nodes (graph_before_paths ac) !! k = Some n ->
  node_type n <> INPUT_TERMINAL.
Proof.
  intros Hk Hn.
  destruct (consumer_is_entity _ _ Hk) as (e & after & Hsplit & Hin & Hid & Hafter).
  pose proof (graph_before_paths_nodes ac k) as Hnodes. rewrite Hn in Hnodes.
  destruct Hnodes as (e' & Hlast & _ & _ & _ & ->).
  unfold last_entity in Hlast. rewrite Hsplit, reverse_app, first_entity_app in Hlast.
  destruct (first_entity k (reverse after)) as [e''|] eqn:Hfind.
  - injection Hlast as <-. apply first_entity_Some in Hfind as [Hin' _].
    rewrite elem_of_reverse in Hin'. rewrite Forall_forall in Hafter. by apply Hafter.
  - exfalso. apply first_entity_None in Hfind. apply Hfind.
    rewrite fmap_reverse, elem_of_reverse, <- Hid. by apply list_elem_of_fmap_2.
Qed.

Lemma new_edges_elem (g : TopologyGraph) (ac : AudioControlInterface.t)
    (e : TopologyEdge) :
  e ∈ new_edges g ac ->
  target_id e ∈ consumer_ids ac
  /\ exists s, nodes g !! source_id e = Some s
               /\ edge_channels e = if is_clock e then 0 else channels s.
Proof.
  unfold new_edges, consumer_ids. intros He.
  repeat (apply elem_of_app in He as [He|He]);
    apply list_elem_of_In, in_flat_map in He as (x & Hx & He);
    apply list_elem_of_In in Hx, He;
    first [ apply scalar_ref_edges_elem in He as (-> & _ & [s Hs])
          | apply list_ref_edges_elem in He as (src & _ & -> & [s Hs]) ];
    (split; [cbn [target_id signal_edge clock_edge];
             rewrite !elem_of_app;
             eauto 10 using list_elem_of_fmap_2'
            |exists s; cbn [source_id edge_channels is_clock signal_edge clock_edge];
             split; [exact Hs | by rewrite ?Hs]]).
Qed.

(** X11: every edge of the graph build_topology returns joins two nodes of
    the graph; a clock edge carries channel count 0 and any other edge the
    channel count of its source node; and the node an edge leads into is
    never an input terminal node. *)
Theorem X11_edges_join_nodes (device : USBAudioDevice.t) (g : TopologyGraph)
    (e : TopologyEdge) :
  build_topology device = Some g ->
  e ∈ edges g ->
  exists s t,
    get_node g (source_id e) = Some s /\ get_node g (target_id e) = Some t
    /\ edge_channels e = (if is_clock e then 0 else channels s)
    /\ node_type t <> INPUT_TERMINAL.
Proof.
  rewrite build_topology_eq.
  destruct (USBAudioDevice.audio_control device) as [ac|];
    [|intros [= <-] He; by apply elem_of_nil in He].
  destruct (_find_signal_paths (graph_before_paths ac)) as [paths|]; [|discriminate].
  intros [= <-]. unfold get_node. cbn [edges nodes with_signal_paths]. intros He.
  destruct (graph_before_paths_edges ac) as (g0 & Hnodes & Hedges).
  rewrite Hedges in He. apply new_edges_elem in He as (Htarget & s & Hs & Hch).
  rewrite Hnodes in Hs.
  destruct (consumer_is_entity _ _ Htarget) as (e' & after & Hsplit & Hin & Hid & _).
  pose proof (graph_before_paths_nodes ac (target_id e)) as Ht.
  destruct (nodes (graph_before_paths ac) !! target_id e) as [t|] eqn:Hlookup.
  - exists s, t. repeat split; try done. by eapply consumer_node_type.
  - exfalso. apply first_entity_None in Ht. apply Ht.
    rewrite fmap_reverse, elem_of_reverse, <- Hid. apply list_elem_of_fmap_2.
    rewrite Hsplit. apply elem_of_app. by right.
Qed.

Lemma X11_edges_join_nodes_witness :
  exists g e, build_topology
                (device_of (interface_of [input_terminal 1] [output_terminal 2 1] [] []))
              = Some g
              /\ e ∈ edges g
              /\ exists s t,
                   get_node g (source_id e) = Some s /\ get_node g (target_id e) = Some t
                   /\ edge_channels e = (if is_clock e then 0 else channels s)
                   /\ node_type t <> INPUT_TERMINAL.
Proof.
  eexists. eexists. split; [vm_compute; reflexivity|].
  assert (Hin : forall (e : TopologyEdge) (l : list TopologyEdge), e ∈ e :: l)
    by (intros; by left).
  split; [apply Hin|].
  apply (X11_edges_join_nodes
           (device_of (interface_of [input_terminal 1] [output_terminal 2 1] [] []))).
  - vm_compute. reflexivity.
  - apply Hin.
Defined.

(** ** Playback, capture and internal paths *)

(** X12: on every graph, get_playback_paths, get_capture_paths and
    get_internal_paths return signal paths of the graph, and a signal path
    is internal exactly when it has at least one node and is neither a
    playback nor a capture path; a path without nodes is in none of the
    three. *)
Theorem X12_internal_paths_are_the_rest (g : TopologyGraph) (p : SignalPath) :
  (p ∈ get_playback_paths g -> p ∈ signal_paths g)
  /\ (p ∈ get_capture_paths g -> p ∈ signal_paths g)
  /\ (p ∈ get_internal_paths g
      <-> p ∈ signal_paths g /\ path_nodes p <> []
          /\ (p ∉ get_playback_paths g) /\ (p ∉ get_capture_paths g))
  /\ (path_nodes p = [] ->
      (p ∉ get_playback_paths g) /\ (p ∉ get_capture_paths g)
      /\ (p ∉ get_internal_paths g)).
Proof.
  unfold get_playback_paths, get_capture_paths, get_internal_paths.
  rewrite !list_elem_of_In, !filter_In, <- !list_elem_of_In.
  unfold input_node, output_node.
  destruct (path_nodes p) as [|n ns] eqn:Hnodes.
  - cbn. naive_solver.
  - destruct (last (n :: ns)) as [final|] eqn:Hlast;
      [|by apply last_None in Hlast].
    cbn [head].
    destruct (is_usb_streaming n), (is_usb_streaming final); cbn; naive_solver.
Qed.

End GraphFacts.

(** * Further properties of the parser (parser.py) *)

Section ParserInvariantFacts.

Import Py Parser ParserSpec ParserInvariants.

#[local] Open Scope string_scope.
#[local] Open Scope list_scope.
#[local] Open Scope Z_scope.

(** ** The tokenizer *)

Lemma lstrip_length (s : string) : (String.length (lstrip s) <= String.length s)%nat.
Proof.
  induction s as [|c s IH]; cbn; [lia|]. destruct (is_space c); cbn; lia.
Qed.

(* len(raw) - len(raw.lstrip()) counts the leading whitespace. *)
Lemma indent_counts_leading_space (s : string) :
  (String.length s - String.length (lstrip s))%nat = run is_space s.
Proof.
  induction s as [|c s IH]; cbn; [reflexivity|].
  destruct (is_space c); cbn [String.length].
  - pose proof (lstrip_length s). rewrite <- IH. lia.
  - lia.
Qed.

Lemma tokenize_from_elem (i : nat) (ls : list string) (line : LsusbLine) :
  line ∈ _tokenize_from i ls ->
  (i <= line_number line)%nat
  /\ ls !! (line_number line - i)%nat = Some (raw line)
  /\ content line = strip (raw line)
  /\ content line <> EmptyString
  /\ indent line = run is_space (raw line).
Proof.
  revert i. induction ls as [|l ls IH]; intros i Hin; cbn in Hin.
  - by apply elem_of_nil in Hin.
  - assert (Hrest : line ∈ _tokenize_from (S i) ls ->
                    (i <= line_number line)%nat
                    /\ (l :: ls) !! (line_number line - i)%nat = Some (raw line)
                    /\ content line = strip (raw line)
                    /\ content line <> EmptyString
                    /\ indent line = run is_space (raw line)).
    { intros Hin'. destruct (IH _ Hin') as (Hle & Hraw & Hrest). split; [lia|].
      split; [|exact Hrest].
      replace (line_number line - i)%nat with (S (line_number line - S i)) by lia.
      exact Hraw. }
    destruct (strip l) as [|c s] eqn:Hstrip; [by apply Hrest|].
    apply elem_of_cons in Hin as [->|Hin]; [|by apply Hrest].
    cbn. rewrite Nat.sub_diag, Hstrip. repeat split; try done.
    apply indent_counts_leading_space.
Qed.

Lemma tokenize_from_sorted (i : nat) (ls : list string) :
  StronglySorted (fun a b => (line_number a < line_number b)%nat) (_tokenize_from i ls).
Proof.
  revert i. induction ls as [|l ls IH]; intros i; cbn; [constructor|].
  destruct (strip l) as [|c s]; [apply IH|].
  constructor; [apply IH|]. apply Forall_forall. intros line Hin.
  apply tokenize_from_elem in Hin as [Hle _]. cbn. lia.
Qed.

Lemma tokenize_from_raw (i : nat) (ls : list string) :
  raw <$> _tokenize_from i ls = List.filter not_blank ls.
Proof.
  revert i. induction ls as [|l ls IH]; intros i; cbn; [reflexivity|].
  unfold not_blank at 1. destruct (strip l) as [|c s]; cbn; [apply IH|].
  by rewrite IH.
Qed.

(** X13: for every text, the tokens of _tokenize are made of the lines of
    text.splitlines() that are not blank, in order and none left out; each
    token keeps its 1-based number among all the lines, blank ones
    included, so the numbers increase strictly; its content is the stripped
    line and is never empty, and its indent is the number of leading
    whitespace characters of the line. *)
Theorem X13_tokens_are_the_non_blank_lines (text : string) :
  raw <$> _tokenize text = List.filter not_blank (splitlines text)
  /\ StronglySorted (fun a b => (line_number a < line_number b)%nat) (_tokenize text)
  /\ forall line, line ∈ _tokenize text ->
       (1 <= line_number line)%nat
       /\ splitlines text !! (line_number line - 1)%nat = Some (raw line)
       /\ content line = strip (raw line)
       /\ content line <> EmptyString
       /\ indent line = run is_space (raw line).
Proof.
  unfold _tokenize. split; [apply tokenize_from_raw|].
  split; [apply tokenize_from_sorted|]. intros line. apply tokenize_from_elem.
Qed.

Lemma X13_tokens_are_the_non_blank_lines_witness :
  exists line,
    _tokenize three_lines !! 1%nat = Some line
    /\ (1 <= line_number line)%nat
    /\ splitlines three_lines !! (line_number line - 1)%nat = Some (raw line)
    /\ content line = strip (raw line)
    /\ content line <> EmptyString
    /\ indent line = run is_space (raw line).
Proof.
  eexists. split; [vm_compute; reflexivity|].
  apply (proj2 (proj2 (X13_tokens_are_the_non_blank_lines three_lines))).
  vm_compute. right. left.
Defined.

(** ** The cursor *)

(** X14: _current and _peek never raise and never move the cursor, for any
    offset, negative ones included; _peek(0) is _current, and _advance moves
    the cursor by exactly one line, leaves the rest of the parser alone and
    returns the line that _peek(1) showed before, which is the line
    _current shows afterwards (None from the end of the input on). *)
Theorem X14_peek_predicts_advance (st : state) (offset : Z) :
  (exists line, _peek offset st = Return (line, st)
                /\ (line <> None -> 0 <= Z.of_nat (pos (self st)) + offset
                                    /\ lines (self st)
                                         !! Z.to_nat (Z.of_nat (pos (self st)) + offset)
                                       = line))
  /\ _peek 0 st = _current st
  /\ exists line st',
       _advance st = Return (line, st')
       /\ st' = set_pos (S (pos (self st))) st
       /\ _peek 1 st = Return (line, st)
       /\ _current st' = Return (line, st').
Proof.
  split; [|split].
  - unfold _peek. cbv zeta.
    destruct (Z.leb_spec 0 (Z.of_nat (pos (self st)) + offset)) as [Hle|Hlt]; cbn.
    + destruct (_ <? _); eexists; (split; [reflexivity|]); done.
    + eexists. split; [reflexivity|]. done.
  - unfold _peek, _current, current_line. cbv zeta.
    rewrite Z.add_0_r, Nat2Z.id.
    destruct (Z.leb_spec 0 (Z.of_nat (pos (self st)))) as [_|Hlt]; [|lia]. cbn.
    destruct (Z.ltb_spec (Z.of_nat (pos (self st))) (Z.of_nat (length (lines (self st)))))
      as [Hlt|Hge]; [reflexivity|].
    rewrite lookup_ge_None_2 by lia. reflexivity.
  - unfold _advance, _peek, _current. cbv zeta. do 2 eexists.
    split; [reflexivity|]. split; [by rewrite Nat.add_1_r|]. split; [|reflexivity].
    unfold current_line. cbn [self set_pos lines pos].
    replace (Z.of_nat (pos (self st)) + 1) with (Z.of_nat (pos (self st) + 1)) by lia.
    rewrite Nat2Z.id.
    destruct (Z.leb_spec 0 (Z.of_nat (pos (self st) + 1))) as [_|Hlt]; [|lia]. cbn.
    destruct (Z.ltb_spec (Z.of_nat (pos (self st) + 1))
                (Z.of_nat (length (lines (self st))))) as [Hlt|Hge]; [reflexivity|].
    rewrite lookup_ge_None_2 by lia. reflexivity.
Qed.

Lemma X14_peek_predicts_advance_witness :
  exists line, _peek (-1) (state_at three_lines 1) = Return (line, state_at three_lines 1)
               /\ (line <> None ->
                   0 <= Z.of_nat (pos (self (state_at three_lines 1))) + -1
                   /\ lines (self (state_at three_lines 1))
                        !! Z.to_nat (Z.of_nat (pos (self (state_at three_lines 1))) + -1)
                      = line).
Proof. exact (proj1 (X14_peek_predicts_advance (state_at three_lines 1) (-1))). Defined.

(** ** The numeric decoders *)

Lemma int_acc_nonneg (base : Z) (val : ascii -> Z) (s : string) (acc : Z) :
  0 <= base -> (forall c, 0 <= val c) -> 0 <= acc -> 0 <= int_acc base val s acc.
Proof.
  intros Hbase Hval. revert acc.
  induction s as [|c s IH]; intros acc Hacc; cbn; [done|].
  apply IH. specialize (Hval c). nia.
Qed.

Lemma int10_nonneg (s : string) : 0 <= int10 s.
Proof.
  apply int_acc_nonneg; [lia | | lia]. intros c. unfold digit_val. lia.
Qed.

Lemma int16_nonneg (s : string) : 0 <= int16 s.
Proof.
  apply int_acc_nonneg; [lia | | lia]. intros c. unfold hex_val.
  destruct (is_digit c); [lia|]. destruct (in_range 97 102 c); lia.
Qed.

Lemma parse_hex_value_nonneg (t : string) : 0 <= _parse_hex_value t.
Proof.
  unfold _parse_hex_value. cbv zeta.
  destruct (re_search re_0x_hex (strip t)); [apply int16_nonneg|].
  destruct (split (strip t)) as [|? [|value_part ?]]; try lia.
  destruct (re_match re_hex_token value_part); [apply int16_nonneg | lia].
Qed.

Lemma parse_int_value_nonneg (t : string) : 0 <= _parse_int_value t.
Proof.
  unfold _parse_int_value. destruct (re_search re_int t); [apply int10_nonneg | lia].
Qed.

Lemma parse_bcd_value_nonneg (t : string) : 0 <= _parse_bcd_value t.
Proof.
  unfold _parse_bcd_value. destruct (re_search re_bcd t); [|lia]. cbv zeta.
  apply Z.lor_nonneg. split; [|apply int10_nonneg].
  apply Z.shiftl_nonneg, int10_nonneg.
Qed.

Lemma run_no_digit (s : string) : has_digit s = false -> run is_digit s = 0%nat.
Proof. destruct s as [|c s]; cbn; [done|]. by destruct (is_digit c). Qed.

Lemma search_int_no_digit (s : string) (prev : option ascii) :
  has_digit s = false -> search_from re_int prev s = None.
Proof.
  revert prev. induction s as [|c s IH]; intros prev Hs.
  - cbn. by destruct (at_word_boundary prev "").
  - cbn [search_from]. pose proof (run_no_digit _ Hs) as Hrun.
    cbn in Hs. apply orb_false_elim in Hs as [Hc Hs].
    assert (Hhere : match_here re_int prev (String c s) [] [] = None).
    { unfold re_int. cbn [match_here].
      destruct (at_word_boundary prev (String c s)); [|reflexivity].
      by rewrite Hrun. }
    rewrite Hhere. by apply IH.
Qed.

Lemma search_bcd_no_digit (s : string) (prev : option ascii) :
  has_digit s = false -> search_from re_bcd prev s = None.
Proof.
  revert prev. induction s as [|c s IH]; intros prev Hs.
  - reflexivity.
  - cbn [search_from]. pose proof (run_no_digit _ Hs) as Hrun.
    cbn in Hs. apply orb_false_elim in Hs as [Hc Hs].
    assert (Hhere : match_here re_bcd prev (String c s) [] [] = None).
    { unfold re_bcd. cbn [match_here]. by rewrite Hrun. }
    rewrite Hhere. by apply IH.
Qed.

(** X15: _parse_hex_value, _parse_int_value and _parse_bcd_value never
    return a negative number, whatever the text, and _parse_int_value and
    _parse_bcd_value return their default 0 on every text that holds no
    decimal digit. *)
Theorem X15_decoders_are_non_negative (t : string) :
  0 <= _parse_hex_value t /\ 0 <= _parse_int_value t /\ 0 <= _parse_bcd_value t
  /\ (has_digit t = false -> _parse_int_value t = 0 /\ _parse_bcd_value t = 0).
Proof.
  split; [apply parse_hex_value_nonneg|]. split; [apply parse_int_value_nonneg|].
  split; [apply parse_bcd_value_nonneg|]. intros Ht.
  unfold _parse_int_value, _parse_bcd_value, re_search.
  by rewrite search_int_no_digit, search_bcd_no_digit.
Qed.

Lemma X15_decoders_are_non_negative_witness :
  has_digit "bInterval  none" = false
  /\ _parse_int_value "bInterval  none" = 0 /\ _parse_bcd_value "bInterval  none" = 0.
Proof.
  split; [reflexivity|].
  exact (proj2 (proj2 (proj2 (X15_decoders_are_non_negative "bInterval  none"))) eq_refl).
Defined.

(** ** _collect_block *)

Lemma collect_block_fold (start_indent : nat) (fuel : nat) :
  forall (block : list LsusbLine) (st : state),
    (length (lines (self st)) - pos (self st) < fuel)%nat ->
    exists q,
      while_rec fuel (in_block start_indent)
        (fun line block => let block := block ++ [line] in
                           _advance;; mret (Continue, block)) block st
      = Return (block ++ slice (lines (self st)) (pos (self st)) q, set_pos q st)
      /\ consumed (lines (self st)) (in_block start_indent) (pos (self st)) q
      /\ stops_at (lines (self st)) (in_block start_indent) q.
Proof.
  set (body := fun (line : LsusbLine) (block : list LsusbLine) =>
                 let block := block ++ [line] in
                 _advance;; (mret (Continue, block) : M (flow * list LsusbLine))).
  induction fuel as [|fuel IH]; intros block st Hfuel; [lia|].
  rewrite while_rec_S.
  destruct (current_line st) as [line|] eqn:Hcur.
  2:{ exists (pos (self st)). rewrite slice_empty, set_pos_current, app_nil_r.
      split; [reflexivity|]. split; [apply consumed_refl|].
      intros l Hl. unfold current_line in Hcur. congruence. }
  destruct (in_block start_indent line) eqn:Hcond.
  2:{ exists (pos (self st)). rewrite slice_empty, set_pos_current, app_nil_r.
      split; [reflexivity|]. split; [apply consumed_refl|].
      intros l Hl. unfold current_line in Hcur. congruence. }
  assert (Hpos : (pos (self st) < length (lines (self st)))%nat).
  { unfold current_line in Hcur. by apply lookup_lt_Some in Hcur. }
  change (body line block st)
    with ((_advance;; (mret (Continue, block ++ [line]) : M (flow * list LsusbLine))) st).
  rewrite advance_ret.
  destruct (IH (block ++ [line]) (set_pos (S (pos (self st))) st))
    as (q & Hrun & Hcons & Hstop); [cbn; lia|].
  change (lines (self (set_pos (S (pos (self st))) st))) with (lines (self st))
    in Hrun, Hcons, Hstop.
  change (pos (self (set_pos (S (pos (self st))) st))) with (S (pos (self st)))
    in Hrun, Hcons.
  exists q. split; [|split].
  - rewrite Hrun.
    rewrite (slice_cons _ _ q line Hcur) by (destruct Hcons; lia).
    by rewrite <- app_assoc.
  - eapply consumed_trans; [|exact Hcons]. by eapply consumed_one.
  - exact Hstop.
Qed.

(** X16: for every parser state and every indentation, _collect_block
    returns, without raising, the lines from the cursor up to the first line
    that is not indented deeper than start_indent (or to the end of the
    input), in order; every line it returns is indented deeper than
    start_indent, and it changes nothing but the cursor, which it leaves on
    that boundary. *)
Theorem X16_collect_block_returns_the_block (start_indent : nat) (st : state) :
  exists q,
    _collect_block start_indent st
    = Return (slice (lines (self st)) (pos (self st)) q, set_pos q st)
    /\ (pos (self st) <= q)%nat
    /\ Forall (fun l => (start_indent < indent l)%nat)
         (slice (lines (self st)) (pos (self st)) q)
    /\ stops_at (lines (self st)) (in_block start_indent) q.
Proof.
  destruct (collect_block_fold start_indent (budget st) [] st) as (q & Hrun & Hcons & Hstop);
    [unfold budget; lia|].
  exists q. split; [exact Hrun|]. destruct Hcons as [Hle Hcons]. split; [exact Hle|].
  split; [|exact Hstop].
  apply Forall_forall. intros l Hl. unfold slice in Hl.
  apply list_elem_of_lookup in Hl as [i Hi].
  apply lookup_take_Some in Hi as [Hi Hlt]. rewrite lookup_drop in Hi.
  apply Nat.ltb_lt. apply (Hcons (pos (self st) + i)%nat l); [lia | exact Hi].
Qed.

(** ** Loops that keep an invariant *)

Lemma ends_conj {A : Type} (allowed : exn -> Prop) (P Q : A -> state -> Prop)
    (o : outcome (A * state)) :
  ends allowed P o -> ends allowed Q o -> ends allowed (fun a st => P a st /\ Q a st) o.
Proof. destruct o as [[a st]| |]; cbn; auto. Qed.

Section LoopInvariant.

Context {A : Type} (allowed : exn -> Prop) (I : A -> state -> Prop).
Context (cond : LsusbLine -> bool) (body : LsusbLine -> A -> M (flow * A)).

Hypothesis body_keeps :
  forall line a st,
    current_line st = Some line -> cond line = true -> I a st ->
    ends allowed (keeps I st) (body line a st).

Lemma while_rec_inv (fuel : nat) :
  forall (a : A) (st : state),
    (length (lines (self st)) - pos (self st) < fuel)%nat ->
    I a st -> ends allowed I (while_rec fuel cond body a st).
Proof.
  induction fuel as [|fuel IH]; intros a st Hfuel HI; [lia|].
  rewrite while_rec_S.
  destruct (current_line st) as [line|] eqn:Hcur; [|exact HI].
  destruct (cond line) eqn:Hcond; [|exact HI].
  pose proof (body_keeps line a st Hcur Hcond HI) as Hbody.
  destruct (body line a st) as [[[fl a'] st']| |]; cbn in Hbody; [|done|done].
  destruct Hbody as [HI' Hstep]. cbn [fst snd] in *. destruct fl; [|exact HI'].
  destruct (Hstep eq_refl) as [Hlines Hlt]. unfold same_lines in Hlines.
  assert (Hpos : (pos (self st) < length (lines (self st)))%nat).
  { unfold current_line in Hcur. by apply lookup_lt_Some in Hcur. }
  apply IH; [rewrite Hlines; lia | exact HI'].
Qed.

Lemma while_inv (a : A) (st : state) :
  I a st -> ends allowed I (while_ cond body a st).
Proof. unfold while_. apply while_rec_inv. unfold budget. lia. Qed.

End LoopInvariant.

(* An iteration that ends with self._advance(). *)
Lemma keeps_advance {A : Type} (allowed : exn -> Prop) (I : A -> state -> Prop) (x : A)
    (st : state) :
  I x (set_pos (S (pos (self st))) st) ->
  ends allowed (keeps I st) ((_advance;; (mret (Continue, x) : M (flow * A))) st).
Proof.
  intros HI. rewrite advance_ret. cbn. split; [exact HI|]. intros _.
  split; [reflexivity|]. cbn. lia.
Qed.

(* An iteration that hands the line to the method of a nested section. *)
Lemma keeps_nested {A B : Type} (allowed : exn -> Prop) (I : A -> state -> Prop)
    (J : B -> state -> Prop) (line : LsusbLine) (p : M B) (k : B -> A) (st : state) :
  indentation_law allowed p ->
  current_line st = Some line ->
  ends allowed J (p st) ->
  (forall b st', J b st' -> I (k b) st') ->
  ends allowed (keeps I st) ((x ← p; (mret (Continue, k x) : M (flow * A))) st).
Proof.
  intros Hlaw Hcur HJ Hk.
  eapply ends_bind; [apply ends_conj; [exact (Hlaw st line Hcur) | exact HJ]|].
  intros b st' [(Hlines & [Hle _] & _) Hb]. cbn. split; [by apply Hk|].
  intros _. split; [exact Hlines | lia].
Qed.

Lemma foldl_invariant {A B : Type} (P : A -> Prop) (f : A -> B -> A) (l : list B) (a : A) :
  (forall a b, P a -> P (f a b)) -> P a -> P (foldl f a l).
Proof.
  intros Hf. revert a. induction l as [|b l IH]; intros a Ha; [exact Ha|].
  cbn. apply IH, Hf, Ha.
Qed.

(** ** Text without descriptors *)

(** X17: on a text none of whose lines starts a Device Descriptor or a
    Configuration Descriptor, parse_lsusb returns, without raising, the
    device a bare USBAudioDevice() is: default device descriptor, no
    configuration, no audio control interface, no streaming interfaces and
    no alternate settings. *)
Theorem X17_text_without_descriptors_gives_the_default_device (text : string) :
  Forall plain (_tokenize text) ->
  parse_lsusb text = Return USBAudioDevice.default.
Proof.
  intros Hplain. unfold parse_lsusb. cbv zeta.
  assert (Hrun : ends no_exn (fun d _ => d = USBAudioDevice.default)
                   (parse {| self := LsusbParser_init text;
                             device := USBAudioDevice.default |})).
  { unfold parse.
    eapply (ends_bind _ (fun _ st => device st = USBAudioDevice.default)).
    - eapply ends_weaken;
        [apply (while_inv no_exn
                  (fun _ st => lines (self st) = _tokenize text
                               /\ device st = USBAudioDevice.default))
        | done | by intros a st [_ Hdev]].
      + intros line u st Hcur _ [Hlines Hdev].
        assert (Hline : plain line).
        { rewrite Forall_forall in Hplain. apply Hplain. rewrite <- Hlines.
          unfold current_line in Hcur. by eapply list_elem_of_lookup_2. }
        destruct Hline as [Hdesc Hconfig]. cbv beta zeta. rewrite Hdesc, Hconfig.
        destruct (startswith (content line) "Bus "); by apply keeps_advance.
      + done.
    - intros u st Hdev.
      unfold mbind, M_bind, bind, get_device, set_device, mret, M_ret, ret. cbv beta.
      rewrite Hdev. reflexivity. }
  destruct (parse _) as [[d st']| |]; cbn in Hrun; [by subst d | done | done].
Qed.

Lemma X17_text_without_descriptors_gives_the_default_device_witness :
  Forall plain (_tokenize three_lines)
  /\ parse_lsusb three_lines = Return USBAudioDevice.default.
Proof.
  assert (Hplain : Forall plain (_tokenize three_lines)).
  { vm_compute. repeat constructor. }
  split; [exact Hplain|].
  exact (X17_text_without_descriptors_gives_the_default_device three_lines Hplain).
Defined.

(** ** What every parsed endpoint satisfies *)

(* The if/elif chains again: one case per branch. *)
Ltac elif :=
  match goal with
  | |- ends _ _ ((if ?b then _ else _) _) => destruct b eqn:?
  end.

Lemma land_7FF_range (x : Z) : 0 <= Z.land x 0x7FF <= 0x7FF.
Proof.
  change 0x7FF with (Z.ones 11). rewrite Z.land_ones by lia.
  pose proof (Z.mod_pos_bound x (2 ^ 11) ltac:(lia)). change (Z.ones 11) with (2 ^ 11 - 1).
  lia.
Qed.

Lemma land_3_cases (x : Z) :
  Z.land x 0x03 = 0 \/ Z.land x 0x03 = 1 \/ Z.land x 0x03 = 2 \/ Z.land x 0x03 = 3.
Proof.
  assert (Hmod : Z.land x 0x03 = x mod 2 ^ 2)
    by (change 0x03 with (Z.ones 2); apply Z.land_ones; lia).
  rewrite Hmod. pose proof (Z.mod_pos_bound x (2 ^ 2) ltac:(lia)). lia.
Qed.

Lemma endpoint_ok_default : endpoint_ok EndpointDescriptor.default.
Proof.
  unfold endpoint_ok. cbn. split; [lia|]. split; [lia|]. split; [by left|]. set_solver.
Qed.

Lemma endpoint_ok_address (v : Z) (ep : EndpointDescriptor.t) :
  0 <= v -> endpoint_ok ep ->
  endpoint_ok
    (EndpointDescriptor.with_direction
       (if Z.land (EndpointDescriptor.address (EndpointDescriptor.with_address v ep)) 0x80
           =? 0
        then "OUT" else "IN")
       (EndpointDescriptor.with_address v ep)).
Proof.
  intros Hv (Hmps & _ & _ & Htt). unfold endpoint_ok, EndpointDescriptor_is_input.
  destruct ep. cbn in *. split; [exact Hmps|]. split; [exact Hv|]. split; [|exact Htt].
  right. by destruct (Z.land v 128 =? 0).
Qed.

Lemma endpoint_ok_attributes (content : string) (ep : EndpointDescriptor.t) :
  endpoint_ok ep -> endpoint_ok (endpoint_attributes content ep).
Proof.
  intros (Hmps & Haddr & Hdir & _). unfold endpoint_attributes. cbv zeta.
  assert (Htt : index4 ["Control"; "Isochronous"; "Bulk"; "Interrupt"]
                  (Z.land (_parse_int_value content) 0x03) EmptyString
                ∈ [""; "Control"; "Isochronous"; "Bulk"; "Interrupt"]).
  { unfold index4.
    destruct (land_3_cases (_parse_int_value content)) as [-> | [-> | [-> | ->]]];
      cbn; set_solver. }
  destruct (String.eqb _ "Isochronous");
    unfold endpoint_ok, EndpointDescriptor_is_input in *; destruct ep; cbn in *; done.
Qed.

Lemma endpoint_ok_max_packet_size (v : Z) (ep : EndpointDescriptor.t) :
  endpoint_ok ep ->
  endpoint_ok (EndpointDescriptor.with_max_packet_size (Z.land v 0x7FF) ep).
Proof.
  intros (_ & Haddr & Hdir & Htt). pose proof (land_7FF_range v).
  unfold endpoint_ok, EndpointDescriptor_is_input in *. destruct ep; cbn in *. done.
Qed.

Lemma endpoint_ok_audio_field (content : string) (ep : EndpointDescriptor.t) :
  endpoint_ok ep -> endpoint_ok (audio_endpoint_field content ep).
Proof.
  intros Hok. unfold audio_endpoint_field.
  repeat match goal with
         | |- context [if ?b then _ else _] => destruct b
         end;
    unfold endpoint_ok, EndpointDescriptor_is_input in *; destruct ep; cbn in *; done.
Qed.

Lemma audio_endpoint_ok (ep : EndpointDescriptor.t) (st : state) (header : LsusbLine) :
  current_line st = Some header ->
  endpoint_ok ep ->
  ends no_exn (fun ep' _ => endpoint_ok ep') (_parse_audio_endpoint_descriptor ep st).
Proof.
  intros Hcur Hok. unfold _parse_audio_endpoint_descriptor.
  rewrite (header_call _ st header Hcur).
  destruct (field_loop_spec (indent header) audio_endpoint_field ep
              (set_pos (S (pos (self st))) st)) as (q & -> & _ & _).
  cbn. apply foldl_invariant; [|exact Hok].
  intros a l. apply endpoint_ok_audio_field.
Qed.

Lemma endpoint_descriptor_ok (st : state) (header : LsusbLine) :
  current_line st = Some header ->
  ends no_exn (fun ep _ => endpoint_ok ep) (_parse_endpoint_descriptor st).
Proof.
  intros Hcur. unfold _parse_endpoint_descriptor. cbv zeta.
  rewrite (header_call _ st header Hcur).
  apply (while_inv no_exn (fun ep _ => endpoint_ok ep)); [|apply endpoint_ok_default].
  intros line ep st0 Hline Hin Hok. cbv beta zeta. repeat elif.
  - apply keeps_advance. apply endpoint_ok_address; [apply parse_hex_value_nonneg | done].
  - apply keeps_advance. by apply endpoint_ok_attributes.
  - apply keeps_advance. destruct (re_search re_0x_hex (content line)); [|done].
    by apply endpoint_ok_max_packet_size.
  - apply keeps_advance.
    unfold endpoint_ok, EndpointDescriptor_is_input in *. destruct ep; cbn in *; done.
  - apply keeps_advance.
    unfold endpoint_ok, EndpointDescriptor_is_input in *. destruct ep; cbn in *; done.
  - apply keeps_advance.
    unfold endpoint_ok, EndpointDescriptor_is_input in *. destruct ep; cbn in *; done.
  - apply (keeps_nested no_exn _ (fun ep' _ => endpoint_ok ep') line
             (_parse_audio_endpoint_descriptor ep) (fun ep => ep));
      [apply audio_endpoint_law | assumption | by eapply audio_endpoint_ok | done].
  - by apply keeps_advance.
Qed.

Lemma interface_ok_fields (iface iface' : InterfaceDescriptor.t) :
  InterfaceDescriptor.endpoints iface' = InterfaceDescriptor.endpoints iface ->
  interface_ok iface -> interface_ok iface'.
Proof. unfold interface_ok. by intros ->. Qed.

Lemma interface_descriptor_ok (st : state) (header : LsusbLine) :
  current_line st = Some header ->
  ends no_exn (fun iface _ => interface_ok iface) (_parse_interface_descriptor st).
Proof.
  intros Hcur. unfold _parse_interface_descriptor. cbv zeta.
  rewrite (header_call _ st header Hcur).
  apply (while_inv no_exn (fun iface _ => interface_ok iface)); [|by constructor].
  intros line iface st0 Hline Hin Hok. cbv beta zeta. repeat elif;
    try (apply keeps_advance; eapply interface_ok_fields; [|exact Hok];
         by destruct iface).
  - apply keeps_advance. eapply interface_ok_fields; [|exact Hok].
    destruct (label_after "iInterface" (content line)); by destruct iface.
  - apply (keeps_nested no_exn _ (fun ep _ => endpoint_ok ep) line
             _parse_endpoint_descriptor
             (fun ep => InterfaceDescriptor.with_endpoints
                          (InterfaceDescriptor.endpoints iface ++ [ep]) iface));
      [apply endpoint_law | assumption | by eapply endpoint_descriptor_ok |].
    intros ep _ Hep. unfold interface_ok in *. destruct iface; cbn in *.
    apply Forall_app. split; [exact Hok | by constructor].
  - apply (keeps_nested no_exn _ (fun _ _ => True) line
             _parse_audio_control_descriptor (fun _ => iface));
      [apply audio_control_law | assumption | | done].
    eapply ends_weaken; [apply (audio_control_law st0 line Hline) | done | done].
  - apply (keeps_nested no_exn _ (fun _ _ => True) line
             (_parse_audio_streaming_descriptor iface) (fun _ => iface));
      [apply audio_streaming_law | assumption | | done].
    eapply ends_weaken; [apply (audio_streaming_law iface st0 line Hline) | done | done].
Qed.

Lemma configuration_ok_fields (config config' : ConfigurationDescriptor.t) :
  ConfigurationDescriptor.interfaces config' = ConfigurationDescriptor.interfaces config ->
  configuration_ok config -> configuration_ok config'.
Proof. unfold configuration_ok. by intros ->. Qed.

Lemma configuration_descriptor_ok (st : state) (header : LsusbLine) :
  current_line st = Some header ->
  ends no_exn (fun config _ => configuration_ok config)
    (_parse_configuration_descriptor st).
Proof.
  intros Hcur. unfold _parse_configuration_descriptor. cbv zeta.
  rewrite (header_call _ st header Hcur).
  apply (while_inv no_exn (fun config _ => configuration_ok config)); [|by constructor].
  intros line config st0 Hline Hin Hok. cbv beta zeta. repeat elif;
    try (apply keeps_advance; eapply configuration_ok_fields; [|exact Hok];
         by destruct config).
  - apply keeps_advance. eapply configuration_ok_fields; [|exact Hok].
    destruct (label_after "iConfiguration" (content line)); by destruct config.
  - apply (keeps_nested no_exn _ (fun iface _ => interface_ok iface) line
             _parse_interface_descriptor
             (fun iface => ConfigurationDescriptor.with_interfaces
                             (ConfigurationDescriptor.interfaces config ++ [iface]) config));
      [apply interface_law | assumption | by eapply interface_descriptor_ok |].
    intros iface _ Hiface. unfold configuration_ok in *. destruct config; cbn in *.
    apply Forall_app. split; [exact Hok | by constructor].
Qed.

(* _parse_device_descriptor does not touch the device under construction. *)
Lemma device_descriptor_keeps_device (st : state) (header : LsusbLine) :
  current_line st = Some header ->
  ends only_IndexError (fun _ st' => device st' = device st) (_parse_device_descriptor st).
Proof.
  intros Hcur. unfold _parse_device_descriptor. cbv zeta.
  rewrite (header_call _ st header Hcur).
  apply (while_inv only_IndexError (fun _ st' => device st' = device st)); [|done].
  intros line desc st0 Hline Hin Hdev.
  eapply ends_bind; [apply device_descriptor_line_spec|].
  intros [fl desc'] st' [-> _]. destruct fl.
  - by apply keeps_advance.
  - cbn. split; [exact Hdev | done].
Qed.

Lemma data_endpoint_elem (interfaces : list InterfaceDescriptor.t)
    (streaming : AudioStreamingInterface.t) (ep : EndpointDescriptor.t) :
  data_endpoint interfaces streaming = Some ep ->
  exists before iface after,
    interfaces = before ++ iface :: after
    /\ InterfaceDescriptor.interface_number iface
       = AudioStreamingInterface.interface_number streaming
    /\ InterfaceDescriptor.alternate_setting iface
       = AudioStreamingInterface.alternate_setting streaming
    /\ Forall (fun i => InterfaceDescriptor.interface_number i
                        <> AudioStreamingInterface.interface_number streaming
                        \/ InterfaceDescriptor.alternate_setting i
                           <> AudioStreamingInterface.alternate_setting streaming) before
    /\ ep ∈ InterfaceDescriptor.endpoints iface
    /\ (EndpointDescriptor.usage_type ep = DATA
        \/ head (InterfaceDescriptor.endpoints iface) = Some ep
           /\ Forall (fun e => EndpointDescriptor.usage_type e <> DATA)
                (InterfaceDescriptor.endpoints iface)).
Proof.
  unfold data_endpoint.
  induction interfaces as [|i interfaces IH]; cbn [List.find]; [discriminate|].
  destruct (Z.eqb_spec (InterfaceDescriptor.interface_number i)
              (AudioStreamingInterface.interface_number streaming)) as [Hnum|Hnum].
  - destruct (Z.eqb_spec (InterfaceDescriptor.alternate_setting i)
                (AudioStreamingInterface.alternate_setting streaming)) as [Halt|Halt].
    + cbn [andb]. intros Hep. exists [], i, interfaces.
      split; [reflexivity|]. split; [exact Hnum|]. split; [exact Halt|].
      split; [constructor|].
      destruct (List.find _ (InterfaceDescriptor.endpoints i)) as [e|] eqn:Hfind.
      * injection Hep as <-. apply find_some in Hfind as [Hin Hdata].
        apply bool_decide_eq_true in Hdata. split; [by apply list_elem_of_In | by left].
      * split; [by apply head_Some_elem_of|]. right. split; [exact Hep|].
        apply Forall_forall. intros e He Hdata.
        apply list_elem_of_In in He.
        pose proof (find_none _ _ Hfind e He) as Hnone. cbn in Hnone.
        by rewrite bool_decide_eq_true_2 in Hnone.
    + cbn [andb]. intros Hep. destruct (IH Hep) as (b & iface & a & -> & Hrest).
      exists (i :: b), iface, a. split; [reflexivity|].
      destruct Hrest as (Hn & Ha & Hbefore & Hin & Husage).
      split; [exact Hn|]. split; [exact Ha|].
      split; [constructor; [by right | exact Hbefore]|]. by split.
  - cbn [andb]. intros Hep. destruct (IH Hep) as (b & iface & a & -> & Hrest).
    exists (i :: b), iface, a. split; [reflexivity|].
    destruct Hrest as (Hn & Ha & Hbefore & Hin & Husage).
    split; [exact Hn|]. split; [exact Ha|].
    split; [constructor; [by left | exact Hbefore]|]. by split.
Qed.

Lemma alternate_setting_ok_endpoint (alt : AlternateSetting.t) :
  match AlternateSetting.endpoint alt with
  | Some ep => endpoint_ok ep
  | None => True
  end ->
  alternate_setting_ok alt.
Proof.
  intros Hep. split; [exact Hep|].
  unfold AlternateSetting_bandwidth_bytes_per_frame, AlternateSetting_is_zero_bandwidth.
  destruct (AlternateSetting.endpoint alt) as [ep|]; [|done].
  destruct Hep as (Hmps & _). split; [exact Hmps|]. apply Z.eqb_eq.
Qed.

Lemma finish_ok (d0 : USBAudioDevice.t) :
  device_ok d0 ->
  device_ok (finish d0)
  /\ Forall alternate_setting_ok (USBAudioDevice.alternate_settings (finish d0)).
Proof.
  unfold device_ok, finish, _build_alternate_settings.
  destruct (USBAudioDevice.configuration d0) as [c|] eqn:Hc; cbn.
  - intros Hok. split; [by rewrite Hc|].
    apply Forall_fmap, Forall_fmap, Forall_forall. intros s _. cbn.
    apply alternate_setting_ok_endpoint.
    unfold alternate_setting_of. cbn.
    destruct (data_endpoint (ConfigurationDescriptor.interfaces c) s) as [ep|] eqn:Hep;
      [|done].
    apply data_endpoint_elem in Hep as (b & iface & a & Hsplit & _ & _ & _ & Hin & _).
    unfold configuration_ok in Hok. rewrite Hsplit in Hok.
    apply Forall_app in Hok as [_ Hok]. apply Forall_cons in Hok as [Hiface _].
    unfold interface_ok in Hiface. rewrite Forall_forall in Hiface. by apply Hiface.
  - intros _. rewrite Hc. split; [done | constructor].
Qed.

Lemma parse_ok (st : state) :
  device_ok (device st) ->
  ends only_IndexError
    (fun d _ => device_ok d /\ Forall alternate_setting_ok (USBAudioDevice.alternate_settings d))
    (parse st).
Proof.
  intros Hst. unfold parse.
  eapply (ends_bind _ (fun _ st' => device_ok (device st'))).
  - apply (while_inv only_IndexError (fun _ st' => device_ok (device st'))); [|exact Hst].
    intros line u st0 Hline _ Hok. cbv beta zeta. repeat elif;
      try (by apply keeps_advance).
    + eapply ends_bind;
        [apply ends_conj;
         [apply (device_descriptor_law st0 line Hline)
         | apply (device_descriptor_keeps_device st0 line Hline)]|].
      intros desc st1 [(Hlines & [Hle _] & _) Hdev]. cbn. split.
      * unfold device_ok in *. rewrite Hdev. by destruct (device st0).
      * intros _. split; [exact Hlines | simpl; lia].
    + eapply ends_bind;
        [apply ends_conj;
         [eapply ends_weaken;
          [apply (configuration_law st0 line Hline)
          | intros e He; exact (False_ind _ He) | done]
         | eapply ends_weaken;
           [apply (configuration_descriptor_ok st0 line Hline)
           | intros e He; exact (False_ind _ He) | done]]|].
      intros config st1 [(Hlines & [Hle _] & _) Hconfig]. cbn. split.
      * unfold device_ok. by destruct (device st1).
      * intros _. split; [exact Hlines | simpl; lia].
  - intros u st1 Hok.
    unfold mbind, M_bind, bind, get_device, set_device, mret, M_ret, ret. cbv beta.
    pose proof (finish_ok (device st1) Hok) as Hfinish. unfold finish in Hfinish.
    destruct (_build_alternate_settings (device st1)) as [alts d]. exact Hfinish.
Qed.

(** X18: every device parse_lsusb returns satisfies, in each endpoint of
    each interface of its configuration and in the endpoint of each of its
    alternate settings: max_packet_size lies in 0..0x7FF, the address is not
    negative, the direction is IN or OUT according to bit 7 of the address
    (or still empty, with address 0, when no bEndpointAddress line was
    read), and the transfer type is empty or one of Control, Isochronous,
    Bulk and Interrupt; and each alternate setting has
    bandwidth_bytes_per_frame in 0..0x7FF, being is_zero_bandwidth exactly
    when that is 0. *)
Theorem X18_parsed_endpoints_are_well_formed (text : string) (d : USBAudioDevice.t) :
  parse_lsusb text = Return d ->
  (forall config iface ep,
      USBAudioDevice.configuration d = Some config ->
      iface ∈ ConfigurationDescriptor.interfaces config ->
      ep ∈ InterfaceDescriptor.endpoints iface ->
      endpoint_ok ep)
  /\ Forall alternate_setting_ok (USBAudioDevice.alternate_settings d).
Proof.
  unfold parse_lsusb. cbv zeta. intros Hrun.
  pose proof (parse_ok {| self := LsusbParser_init text;
                          device := USBAudioDevice.default |} I) as Hok.
  destruct (parse _) as [[d' st']| |]; [|discriminate|discriminate].
  injection Hrun as ->. cbn in Hok. destruct Hok as [Hdev Halts]. split; [|exact Halts].
  intros config iface ep Hconfig Hiface Hep. unfold device_ok in Hdev.
  rewrite Hconfig in Hdev. unfold configuration_ok in Hdev.
  rewrite Forall_forall in Hdev. specialize (Hdev iface Hiface).
  unfold interface_ok in Hdev. rewrite Forall_forall in Hdev. by apply Hdev.
Qed.

Lemma X18_parsed_endpoints_are_well_formed_witness :
  exists d, parse_lsusb streaming_endpoint = Return d
            /\ Forall alternate_setting_ok (USBAudioDevice.alternate_settings d).
Proof.
  eexists. split; [vm_compute; reflexivity|].
  refine (proj2 (X18_parsed_endpoints_are_well_formed streaming_endpoint _ _)).
  vm_compute. reflexivity.
Defined.



(** ** AudioStreaming descriptors *)

Lemma update_last_snoc {A : Type} (f : A -> A) (pre : list A) (x : A) :
  update_last f (pre ++ [x]) = pre ++ [f x].
Proof.
  induction pre as [|y pre IH]; [reflexivity|].
  cbn [app update_last]. rewrite IH.
  destruct (pre ++ [x]) eqn:Hsnoc; [by destruct pre | reflexivity].
Qed.

Lemma as_general_field_keeps (content : string) (s : AudioStreamingInterface.t) :
  AudioStreamingInterface.interface_number (as_general_field content s)
  = AudioStreamingInterface.interface_number s
  /\ AudioStreamingInterface.alternate_setting (as_general_field content s)
     = AudioStreamingInterface.alternate_setting s
  /\ AudioStreamingInterface.format (as_general_field content s)
     = AudioStreamingInterface.format s
  /\ AudioStreamingInterface.endpoint (as_general_field content s)
     = AudioStreamingInterface.endpoint s.
Proof.
  unfold as_general_field.
  repeat match goal with
         | |- context [if ?b then _ else _] => destruct b
         end; by destruct s.
Qed.

(** X20: for every interface descriptor, indentation and parser state,
    _parse_as_general returns and appends exactly one streaming interface to
    device.streaming_interfaces, leaving the ones before it and every other
    attribute of the device alone; the new streaming interface carries the
    interface number and alternate setting the interface descriptor has at
    that moment, and has neither a format nor an endpoint yet. *)
Theorem X20_as_general_appends_one_streaming_interface (iface : InterfaceDescriptor.t)
    (start_indent : nat) (st : state) :
  exists q s st',
    _parse_as_general iface start_indent st = Return (tt, st')
    /\ self st' = self (set_pos q st)
    /\ same_but_streaming (device st) (device st')
    /\ USBAudioDevice.streaming_interfaces (device st')
       = USBAudioDevice.streaming_interfaces (device st) ++ [s]
    /\ AudioStreamingInterface.interface_number s
       = InterfaceDescriptor.interface_number iface
    /\ AudioStreamingInterface.alternate_setting s
       = InterfaceDescriptor.alternate_setting iface
    /\ AudioStreamingInterface.format s = None
    /\ AudioStreamingInterface.endpoint s = None.
Proof.
  unfold _parse_as_general. cbv zeta. unfold mbind, M_bind, bind.
  match goal with
  | |- context [field_loop ?si ?f ?a st] =>
      destruct (field_loop_spec si f a st) as (q & -> & _ & _)
  end.
  cbn. do 3 eexists. split; [reflexivity|]. cbn.
  split; [reflexivity|]. split; [by destruct (device st)|]. split; [reflexivity|].
  apply (foldl_invariant
           (fun s => AudioStreamingInterface.interface_number s
                     = InterfaceDescriptor.interface_number iface
                     /\ AudioStreamingInterface.alternate_setting s
                        = InterfaceDescriptor.alternate_setting iface
                     /\ AudioStreamingInterface.format s = None
                     /\ AudioStreamingInterface.endpoint s = None)); [|done].
  intros s l (Hn & Ha & Hf & He).
  destruct (as_general_field_keeps (content l) s) as (-> & -> & -> & ->). done.
Qed.

(** X21: for every indentation and parser state, _parse_as_format_type
    returns and changes, of the device, the last streaming interface only:
    with no streaming interface the device stays as it was and the decoded
    format is dropped; otherwise the last streaming interface gets a format
    (the decoded one, completed by attach_format) and keeps all its other
    attributes, and the streaming interfaces before it stay as they were. *)
Theorem X21_format_goes_to_the_last_streaming_interface (start_indent : nat)
    (st : state) :
  exists q fmt st',
    _parse_as_format_type start_indent st = Return (tt, st')
    /\ self st' = self (set_pos q st)
    /\ same_but_streaming (device st) (device st')
    /\ (USBAudioDevice.streaming_interfaces (device st) = [] -> device st' = device st)
    /\ (forall pre s,
          USBAudioDevice.streaming_interfaces (device st) = pre ++ [s] ->
          USBAudioDevice.streaming_interfaces (device st') = pre ++ [attach_format fmt s]
          /\ is_Some (AudioStreamingInterface.format (attach_format fmt s))
          /\ same_but_format s (attach_format fmt s)).
Proof.
  unfold _parse_as_format_type. unfold mbind, M_bind, bind.
  match goal with
  | |- context [field_loop ?si ?f ?a st] =>
      destruct (field_loop_spec si f a st) as (q & -> & _ & _)
  end.
  cbn. do 3 eexists. split; [reflexivity|]. cbn.
  split; [reflexivity|]. split; [by destruct (device st)|]. split.
  - intros Hnone. rewrite Hnone. destruct (device st); cbn in *. by subst.
  - intros pre s Hlast. rewrite Hlast, update_last_snoc. split; [reflexivity|].
    unfold attach_format, same_but_format. cbv zeta. cbn. split; [by eexists|].
    by destruct s.
Qed.

(** ** AudioControl descriptors *)









End ParserInvariantFacts.

(** * Properties of the model's helpers (model.py) and of node labels *)

Section ModelFacts.

Import Topology TopologySpec GraphSpec.

#[local] Open Scope string_scope.
#[local] Open Scope list_scope.
#[local] Open Scope Z_scope.

(** ** Feature unit controls *)

Lemma flag_elem (c : bool) (label x : string) :
  x ∈ (if c then [] else [label]) <-> c = false /\ x = label.
Proof.
  destruct c.
  - rewrite elem_of_nil. naive_solver.
  - rewrite list_elem_of_singleton. naive_solver.
Qed.

Lemma flag_sublist (c : bool) (label : string) (rest all : list string) :
  rest `sublist_of` all ->
  (if c then [] else [label]) ++ rest `sublist_of` label :: all.
Proof. intros Hrest. destruct c; cbn; by constructor. Qed.

(** X23: has_mute and has_volume agree with get_control_names: a feature
    unit has the master mute control exactly when get_control_names lists
    Mute, and the master volume control exactly when it lists Volume; and
    get_control_names never lists a name twice, lists at most the ten
    control names, and lists nothing for a unit without controls. *)
Theorem X23_control_names_agree_with_has_mute_and_has_volume (u : FeatureUnit.t) :
  (FeatureUnit_has_mute u = true <-> "Mute" ∈ FeatureUnit_get_control_names u)
  /\ (FeatureUnit_has_volume u = true <-> "Volume" ∈ FeatureUnit_get_control_names u)
  /\ FeatureUnit_get_control_names u
     `sublist_of` ["Mute"; "Volume"; "Bass"; "Mid"; "Treble"; "Graphic EQ"; "AGC"; "Delay";
                   "Bass Boost"; "Loudness"]
  /\ NoDup (FeatureUnit_get_control_names u)
  /\ (FeatureUnit.controls u = [] -> FeatureUnit_get_control_names u = []).
Proof.
  assert (Hsub : FeatureUnit_get_control_names u
                 `sublist_of` ["Mute"; "Volume"; "Bass"; "Mid"; "Treble"; "Graphic EQ";
                               "AGC"; "Delay"; "Bass Boost"; "Loudness"]).
  { unfold FeatureUnit_get_control_names.
    destruct (FeatureUnit.controls u) as [|master rest]; [apply sublist_nil_l|].
    cbv zeta. repeat apply flag_sublist.
    destruct (Z.land master 512 =? 0); by repeat constructor. }
  unfold FeatureUnit_has_mute, FeatureUnit_has_volume.
  split; [|split; [|split; [exact Hsub|split]]].
  - unfold FeatureUnit_get_control_names.
    destruct (FeatureUnit.controls u) as [|master rest];
      [rewrite elem_of_nil; naive_solver|].
    cbv zeta. rewrite !elem_of_app, !flag_elem, negb_true_iff. naive_solver.
  - unfold FeatureUnit_get_control_names.
    destruct (FeatureUnit.controls u) as [|master rest];
      [rewrite elem_of_nil; naive_solver|].
    cbv zeta. rewrite !elem_of_app, !flag_elem, negb_true_iff. naive_solver.
  - refine (sublist_NoDup _ _ _ Hsub).
    repeat (constructor; [set_solver|]). constructor.
  - unfold FeatureUnit_get_control_names. by intros ->.
Qed.

Lemma X23_control_names_agree_with_has_mute_and_has_volume_witness :
  FeatureUnit.controls FeatureUnit.default = []
  /\ FeatureUnit_get_control_names FeatureUnit.default = [].
Proof.
  split; [reflexivity|].
  exact (proj2 (proj2 (proj2 (proj2
           (X23_control_names_agree_with_has_mute_and_has_volume FeatureUnit.default))))
           eq_refl).
Defined.

(** ** Sample rate range *)

Lemma list_min_spec (x : Z) (rest : list Z) :
  list_min x rest <= x
  /\ Forall (fun f => list_min x rest <= f) rest
  /\ list_min x rest ∈ x :: rest.
Proof.
  unfold list_min. revert x. induction rest as [|y rest IH]; intros x; cbn.
  - split; [lia|]. split; [constructor | by left].
  - destruct (IH (Z.min x y)) as (Hle & Hall & Hin).
    split; [lia|]. split; [constructor; [lia | exact Hall]|].
    apply elem_of_cons in Hin as [Hin|Hin]; [|by do 2 right].
    rewrite Hin. destruct (Z.min_spec x y) as [[_ ->]|[_ ->]]; [by left | by right; left].
Qed.

Lemma list_max_spec (x : Z) (rest : list Z) :
  x <= list_max x rest
  /\ Forall (fun f => f <= list_max x rest) rest
  /\ list_max x rest ∈ x :: rest.
Proof.
  unfold list_max. revert x. induction rest as [|y rest IH]; intros x; cbn.
  - split; [lia|]. split; [constructor | by left].
  - destruct (IH (Z.max x y)) as (Hle & Hall & Hin).
    split; [lia|]. split; [constructor; [lia | exact Hall]|].
    apply elem_of_cons in Hin as [Hin|Hin]; [|by do 2 right].
    rewrite Hin. destruct (Z.max_spec x y) as [[_ ->]|[_ ->]]; [by right; left | by left].
Qed.

(** X24: sample_rate_range bounds the discrete sample frequencies: every
    listed frequency lies between the two values it returns, and when the
    list is not empty both values are listed frequencies, the first not
    above the second; with an empty list it returns (freq_min, freq_max)
    when both are non-zero and (0, 0) otherwise. *)
Theorem X24_sample_rate_range_bounds_the_frequencies (fmt : FormatTypeDescriptor.t) :
  Forall (fun f => fst (FormatTypeDescriptor_sample_rate_range fmt) <= f
                   <= snd (FormatTypeDescriptor_sample_rate_range fmt))
    (FormatTypeDescriptor.sample_frequencies fmt)
  /\ (FormatTypeDescriptor.sample_frequencies fmt <> [] ->
      fst (FormatTypeDescriptor_sample_rate_range fmt)
      ∈ FormatTypeDescriptor.sample_frequencies fmt
      /\ snd (FormatTypeDescriptor_sample_rate_range fmt)
         ∈ FormatTypeDescriptor.sample_frequencies fmt
      /\ fst (FormatTypeDescriptor_sample_rate_range fmt)
         <= snd (FormatTypeDescriptor_sample_rate_range fmt))
  /\ (FormatTypeDescriptor.sample_frequencies fmt = [] ->
      FormatTypeDescriptor_sample_rate_range fmt
      = if (FormatTypeDescriptor.freq_min fmt =? 0) || (FormatTypeDescriptor.freq_max fmt =? 0)
        then (0, 0)
        else (FormatTypeDescriptor.freq_min fmt, FormatTypeDescriptor.freq_max fmt)).
Proof.
  unfold FormatTypeDescriptor_sample_rate_range.
  destruct (FormatTypeDescriptor.sample_frequencies fmt) as [|f rest].
  - split; [constructor|]. split; [done|]. intros _.
    by destruct (_ =? 0), (_ =? 0).
  - cbn [fst snd].
    destruct (list_min_spec f rest) as (Hmin & Hmins & Hmin_in).
    destruct (list_max_spec f rest) as (Hmax & Hmaxs & Hmax_in).
    split; [|split; [|done]].
    + constructor; [lia|]. rewrite Forall_forall in Hmins, Hmaxs.
      apply Forall_forall. intros x Hx. split; [by apply Hmins | by apply Hmaxs].
    + intros _. split; [exact Hmin_in|]. split; [exact Hmax_in | lia].
Qed.

Lemma X24_sample_rate_range_bounds_the_frequencies_witness :
  FormatTypeDescriptor.sample_frequencies FormatTypeDescriptor.default = []
  /\ FormatTypeDescriptor_sample_rate_range FormatTypeDescriptor.default = (0, 0).
Proof.
  split; [reflexivity|].
  exact (proj2 (proj2 (X24_sample_rate_range_bounds_the_frequencies
                         FormatTypeDescriptor.default)) eq_refl).
Defined.

(** ** Endpoint address *)

Lemma land_bit_7 (a : Z) : (Z.land a 0x80 =? 0) = negb (Z.testbit a 7).
Proof.
  destruct (Z.testbit a 7) eqn:Hbit; cbn.
  - apply Z.eqb_neq. intros Hzero.
    assert (Hland : Z.testbit (Z.land a 0x80) 7 = true)
      by (rewrite Z.land_spec, Hbit; reflexivity).
    rewrite Hzero in Hland. discriminate.
  - apply Z.eqb_eq. apply Z.bits_inj'. intros n Hn.
    rewrite Z.land_spec, Z.bits_0. change 0x80 with (2 ^ 7).
    rewrite Z.pow2_bits_eqb by lia.
    destruct (Z.eqb_spec 7 n) as [<-|_]; [by rewrite Hbit | apply andb_false_r].
Qed.

(** X25: for every address, negative ones included, endpoint_number lies
    in 0..15 and is the address modulo 16, and is_input is bit 7 of the
    address. *)
Theorem X25_endpoint_number_and_direction_bit (ep : EndpointDescriptor.t) :
  0 <= EndpointDescriptor_endpoint_number ep <= 15
  /\ EndpointDescriptor_endpoint_number ep = EndpointDescriptor.address ep mod 16
  /\ EndpointDescriptor_is_input ep = Z.testbit (EndpointDescriptor.address ep) 7.
Proof.
  unfold EndpointDescriptor_endpoint_number, EndpointDescriptor_is_input.
  assert (Hmod : Z.land (EndpointDescriptor.address ep) 0x0F
                 = EndpointDescriptor.address ep mod 2 ^ 4)
    by (change 0x0F with (Z.ones 4); apply Z.land_ones; lia).
  rewrite Hmod, land_bit_7, negb_involutive.
  pose proof (Z.mod_pos_bound (EndpointDescriptor.address ep) (2 ^ 4) ltac:(lia)).
  split; [lia|]. done.
Qed.

(** ** Names that are never empty *)

Lemma append_nonempty_r (a b : string) : b <> "" -> (a ++ b)%string <> "".
Proof. intros Hb. destruct a; [exact Hb | discriminate]. Qed.

Lemma append_nonempty_l (a b : string) : a <> "" -> (a ++ b)%string <> "".
Proof. intros Ha. destruct a; [done | discriminate]. Qed.

Lemma str_or_nonempty (a b : string) : b <> "" -> str_or a b <> "".
Proof. intros Hb. destruct a; [exact Hb | discriminate]. Qed.

Lemma table_get_nonempty (table : list (Z * string)) (key : Z) (default : string) :
  Forall (fun kv => snd kv <> "") table ->
  default <> "" \/ table_mem table key = true ->
  table_get table key default <> "".
Proof.
  induction 1 as [|[k v] table Hv _ IH]; cbn.
  - intros [Hd|Hmem]; [exact Hd | discriminate].
  - destruct (k =? key); [intros _; exact Hv|]. cbn. exact IH.
Qed.

Lemma terminal_type_names_nonempty : Forall (fun kv => snd kv <> "") TERMINAL_TYPE_NAMES.
Proof. unfold TERMINAL_TYPE_NAMES. repeat (constructor; [discriminate|]). constructor. Qed.

Lemma get_terminal_type_name_nonempty (type_code : Z) :
  get_terminal_type_name type_code <> "".
Proof.
  unfold get_terminal_type_name.
  destruct (table_mem TERMINAL_TYPE_NAMES type_code) eqn:Hmem.
  - apply table_get_nonempty; [apply terminal_type_names_nonempty | by right].
  - cbv zeta. apply append_nonempty_r, append_nonempty_l. discriminate.
Qed.

(** X26: the display names of the model are never empty: for every device,
    device_name is the product string when there is one and a name made of
    the vendor and product ids otherwise, manufacturer_name is the
    manufacturer string or Unknown, and for every terminal type code
    get_terminal_type_name returns a non-empty name, as clock_type does for
    every clock source. *)
Theorem X26_display_names_are_never_empty (d : USBAudioDevice.t) (type_code : Z)
    (c : ClockSource.t) :
  USBAudioDevice_device_name d <> ""
  /\ USBAudioDevice_manufacturer_name d <> ""
  /\ get_terminal_type_name type_code <> ""
  /\ ClockSource_clock_type c <> "".
Proof.
  split; [|split; [|split]].
  - unfold USBAudioDevice_device_name.
    destruct (DeviceDescriptor.product (USBAudioDevice.device d)); discriminate.
  - unfold USBAudioDevice_manufacturer_name. by apply str_or_nonempty.
  - apply get_terminal_type_name_nonempty.
  - unfold ClockSource_clock_type. apply table_get_nonempty; [|by left].
    repeat (constructor; [discriminate|]). constructor.
Qed.

Lemma graph_before_paths_labelled (ac : AudioControlInterface.t) :
  map_Forall (fun _ n => name n <> "" /\ description n <> "")
    (nodes (graph_before_paths ac)).
Proof.
  unfold graph_before_paths. rewrite build_edges_eq, with_edges_nodes.
  unfold _add_clock_entities, _add_extension_units, _add_processing_units,
    _add_selector_units, _add_mixer_units, _add_feature_units, _add_output_terminals,
    _add_input_terminals.
  repeat (apply for_each_invariant;
          [intros g x Hg; cbn [nodes add_node]; apply map_Forall_insert_2; [|exact Hg];
           cbn [name description];
           split;
           first [ apply str_or_nonempty, get_terminal_type_name_nonempty
                 | apply get_terminal_type_name_nonempty
                 | apply str_or_nonempty; discriminate
                 | apply table_get_nonempty;
                   [repeat (constructor; [discriminate|]); constructor | left; discriminate]
                 | discriminate ]|]).
  apply map_Forall_empty.
Qed.

Lemma built_graph_labelled (device : USBAudioDevice.t) (g : TopologyGraph)
    (k : Z) (n : TopologyNode) :
  build_topology device = Some g ->
  nodes g !! k = Some n ->
  name n <> "" /\ description n <> "".
Proof.
  rewrite build_topology_eq.
  destruct (USBAudioDevice.audio_control device) as [ac|]; [|by intros [= <-]].
  destruct (_find_signal_paths (graph_before_paths ac)) as [paths|]; [|discriminate].
  intros [= <-]. cbn [nodes with_signal_paths].
  apply (graph_before_paths_labelled ac).
Qed.

(** X27: every node of the graph build_topology returns has a non-empty
    name and a non-empty description, whatever the names, type codes and
    counts of the entities it was made from. *)
Theorem X27_nodes_are_labelled (device : USBAudioDevice.t) (g : TopologyGraph)
    (k : Z) (n : TopologyNode) :
  build_topology device = Some g ->
  get_node g k = Some n ->
  name n <> "" /\ description n <> "".
Proof.
  intros Hbuild Hnode. by eapply built_graph_labelled.
Qed.

Lemma X27_nodes_are_labelled_witness :
  exists g n, build_topology
                (device_of (interface_of [input_terminal 1] [output_terminal 2 1] [] []))
              = Some g
              /\ get_node g 1 = Some n
              /\ name n <> "" /\ description n <> "".
Proof.
  do 2 eexists. split; [vm_compute; reflexivity|]. split; [vm_compute; reflexivity|].
  eapply (X27_nodes_are_labelled
            (device_of (interface_of [input_terminal 1] [output_terminal 2 1] [] []))
            _ 1).
  - vm_compute. reflexivity.
  - vm_compute. reflexivity.
Defined.

(** ** Path descriptions *)

Lemma string_append_empty (s : string) : (s ++ "")%string = s.
Proof.
  induction s as [|c s IH]; [reflexivity|].
  change (String c (s ++ "")%string = String c s). by rewrite IH.
Qed.

Lemma concat_cons_prefix (sep d : string) (l : list string) :
  exists suffix, String.concat sep (d :: l) = (d ++ suffix)%string.
Proof.
  destruct l as [|x l]; cbn.
  - exists "". by rewrite string_append_empty.
  - by eexists.
Qed.

(* The parts of a description are collected in order: what the loop was
   started with stays in front. *)
Lemma describe_loop_cons {A : Type} (body : list string -> A -> list string)
    (d : string) (ns : list A) (acc : list string) :
  (forall acc n, body (d :: acc) n = d :: body acc n) ->
  for_each ns body (d :: acc) = d :: for_each ns body acc.
Proof.
  intros Hbody. revert acc. induction ns as [|n ns IH]; intros acc; [reflexivity|].
  by rewrite !for_each_cons, Hbody, IH.
Qed.

Lemma describe_path_head (first : TopologyNode) (rest : list TopologyNode) :
  node_type first = INPUT_TERMINAL ->
  exists suffix, _describe_path (first :: rest) = (description first ++ suffix)%string.
Proof.
  intros Hty. unfold _describe_path. cbv beta iota zeta.
  rewrite for_each_cons. cbv beta. rewrite Hty. cbv beta iota.
  change (list_append (description first) []) with [description first].
  rewrite describe_loop_cons; [apply concat_cons_prefix|].
  intros acc n. destruct (node_type n); try reflexivity.
  by destruct (controls n).
Qed.

(** X28: the description of every signal path of the graph build_topology
    returns starts with the description of the path's input node, and is
    therefore never empty. *)
Theorem X28_path_descriptions_start_at_the_input (device : USBAudioDevice.t)
    (g : TopologyGraph) (p : SignalPath) :
  build_topology device = Some g ->
  p ∈ signal_paths g ->
  exists first suffix,
    input_node p = Some first
    /\ path_description p = (description first ++ suffix)%string
    /\ path_description p <> "".
Proof.
  intros Hbuild Hp.
  apply (built_graph_paths _ _ Hbuild) in Hp as ((ot & Hot & Hchain) & _ & Hself & Hdesc).
  destruct (signal_chain_shape _ _ _ Hchain)
    as (k & ids & Hids & (node & Hnode & Hty) & _ & _).
  unfold path_ids in Hids. unfold input_node. rewrite Hdesc.
  destruct (path_nodes p) as [|first rest]; [discriminate|].
  injection Hids as Hk _. apply Forall_cons in Hself as [Hfirst _].
  rewrite Hk, Hnode in Hfirst. injection Hfirst as ->.
  destruct (describe_path_head first rest Hty) as [suffix Hsuffix].
  exists first, suffix. split; [reflexivity|]. split; [exact Hsuffix|].
  rewrite Hsuffix. apply append_nonempty_l.
  rewrite <- Hk in Hnode.
  exact (proj2 (built_graph_labelled device g (id first) first Hbuild Hnode)).
Qed.

Lemma X28_path_descriptions_start_at_the_input_witness :
  exists g p first suffix,
    build_topology
      (device_of (interface_of [input_terminal 1] [output_terminal 2 1] [] []))
    = Some g
    /\ p ∈ signal_paths g
    /\ input_node p = Some first
    /\ path_description p = (description first ++ suffix)%string.
Proof.
  assert (Hrun : exists g p,
             build_topology
               (device_of (interface_of [input_terminal 1] [output_terminal 2 1] [] []))
             = Some g
             /\ head (signal_paths g) = Some p)
    by (do 2 eexists; split; vm_compute; reflexivity).
  destruct Hrun as (g & p & Hg & Hp).
  destruct (X28_path_descriptions_start_at_the_input _ g p Hg (head_Some_elem_of _ _ Hp))
    as (first & suffix & Hfirst & Hdesc & _).
  exists g, p, first, suffix. split; [exact Hg|]. split; [by apply head_Some_elem_of|].
  done.
Defined.

End ModelFacts.

(** * Properties of the interface summaries (bandwidth.py) *)

Section BandwidthFacts.

Lemma max_by_spec {A : Type} (key : A -> Z) (rest : list A) (x : A) :
  exists before after,
    x :: rest = before ++ max_by key x rest :: after
    /\ Forall (fun y => key y < key (max_by key x rest)) before
    /\ Forall (fun y => key y <= key (max_by key x rest)) after.
Proof.
  unfold max_by. induction rest as [|y rest IH] using rev_ind.
  - exists [], []. cbn. repeat split; constructor.
  - rewrite foldl_snoc. destruct IH as (before & after & Hsplit & Hbefore & Hafter).
    set (best := foldl (fun best y => if key best <? key y then y else best) x rest) in *.
    destruct (Z.ltb_spec (key best) (key y)) as [Hlt|Hge].
    + exists (x :: rest), []. split; [reflexivity|]. split; [|constructor].
      rewrite Hsplit. apply Forall_app. split.
      * eapply Forall_impl; [exact Hbefore|]. cbn. intros. lia.
      * constructor; [exact Hlt|]. eapply Forall_impl; [exact Hafter|]. cbn. intros. lia.
    + exists before, (after ++ [y]). split.
      * by rewrite app_comm_cons, Hsplit, <- app_assoc.
      * split; [exact Hbefore|]. apply Forall_app. split; [exact Hafter|].
        by constructor.
Qed.

(** X29: max_bandwidth_setting returns None exactly when every alternate
    setting of the summary is zero-bandwidth; otherwise it returns one of
    the summary's settings that is not zero-bandwidth and whose
    bytes_per_second no other such setting exceeds, and among several with
    that greatest value the first one. *)
Theorem X29_max_bandwidth_setting_is_the_first_greatest
    (summary : InterfaceBandwidthSummary.t) :
  match InterfaceBandwidthSummary_max_bandwidth_setting summary with
  | None =>
      Forall (fun s => BandwidthInfo_is_zero_bandwidth s = true)
        (InterfaceBandwidthSummary.alternate_settings summary)
  | Some best =>
      best ∈ InterfaceBandwidthSummary.alternate_settings summary
      /\ BandwidthInfo_is_zero_bandwidth best = false
      /\ Forall (fun s => BandwidthInfo_is_zero_bandwidth s = false ->
                          BandwidthInfo.bytes_per_second s
                          <= BandwidthInfo.bytes_per_second best)
           (InterfaceBandwidthSummary.alternate_settings summary)
      /\ exists before after,
           List.filter (fun s => negb (BandwidthInfo_is_zero_bandwidth s))
             (InterfaceBandwidthSummary.alternate_settings summary)
           = before ++ best :: after
           /\ Forall (fun s => BandwidthInfo.bytes_per_second s
                               < BandwidthInfo.bytes_per_second best) before
  end.
Proof.
  unfold InterfaceBandwidthSummary_max_bandwidth_setting. cbv zeta.
  destruct (List.filter _ (InterfaceBandwidthSummary.alternate_settings summary))
    as [|s rest] eqn:Hactive.
  - apply Forall_forall. intros s Hs.
    destruct (BandwidthInfo_is_zero_bandwidth s) eqn:Hzero; [reflexivity|].
    assert (Hin : In s []).
    { rewrite <- Hactive. apply filter_In. rewrite <- list_elem_of_In.
      by rewrite Hzero. }
    destruct Hin.
  - destruct (max_by_spec BandwidthInfo.bytes_per_second rest s)
      as (before & after & Hsplit & Hbefore & Hafter).
    set (best := max_by BandwidthInfo.bytes_per_second s rest) in *.
    assert (Hbest : In best (s :: rest)).
    { rewrite Hsplit. apply in_elt. }
    rewrite <- Hactive in Hbest. apply filter_In in Hbest as [Hin Hzero].
    apply negb_true_iff in Hzero.
    split; [by apply list_elem_of_In|]. split; [exact Hzero|]. split.
    + apply Forall_forall. intros s' Hs' Hzero'.
      assert (Hin' : In s' (before ++ best :: after)).
      { rewrite <- Hsplit, <- Hactive. apply filter_In. rewrite <- list_elem_of_In.
        by rewrite Hzero'. }
      apply in_app_or in Hin' as [Hin'|[->|Hin']].
      * rewrite Forall_forall in Hbefore. apply list_elem_of_In in Hin'.
        specialize (Hbefore s' Hin'). cbn in Hbefore. lia.
      * lia.
      * rewrite Forall_forall in Hafter. apply list_elem_of_In in Hin'.
        by apply Hafter.
    + by exists before, after.
Qed.

Lemma add_format_loop (settings : list BandwidthInfo.t) :
  forall (formats : list FormatInfo.t) (seen : gset (Z * Z * list Z)),
    (forall k, k ∈ seen <-> k ∈ format_key <$> formats) ->
    NoDup (format_key <$> formats) ->
    let result := fst (for_each settings add_format (formats, seen)) in
    NoDup (format_key <$> result)
    /\ formats `prefix_of` result
    /\ (forall f, f ∈ result ->
          f ∈ formats
          \/ exists s, s ∈ settings /\ BandwidthInfo.format s = Some f
                       /\ BandwidthInfo_is_zero_bandwidth s = false)
    /\ (forall s f, s ∈ settings -> BandwidthInfo.format s = Some f ->
          BandwidthInfo_is_zero_bandwidth s = false ->
          format_key f ∈ format_key <$> result).
Proof.
  induction settings as [|s settings IH]; intros formats seen Hseen Hnd; cbv zeta.
  - cbn. split; [exact Hnd|]. split; [reflexivity|]. split; [by left|].
    by intros s f ?%elem_of_nil.
  - rewrite for_each_cons.
    assert (Hstep : exists formats' seen',
               add_format (formats, seen) s = (formats', seen')
               /\ (forall k, k ∈ seen' <-> k ∈ format_key <$> formats')
               /\ NoDup (format_key <$> formats')
               /\ formats `prefix_of` formats'
               /\ (forall f, f ∈ formats' ->
                     f ∈ formats
                     \/ BandwidthInfo.format s = Some f
                        /\ BandwidthInfo_is_zero_bandwidth s = false)
               /\ (forall f, BandwidthInfo.format s = Some f ->
                     BandwidthInfo_is_zero_bandwidth s = false ->
                     format_key f ∈ format_key <$> formats')).
    { unfold add_format.
      destruct (BandwidthInfo.format s) as [fmt|];
        [|exists formats, seen; repeat split; try done; [by apply Hseen | by apply Hseen | by left]].
      destruct (BandwidthInfo_is_zero_bandwidth s) eqn:Hzero; cbn [negb];
        [exists formats, seen; repeat split; try done;
         [by apply Hseen | by apply Hseen | by left]|].
      cbv zeta. case_bool_decide as Hkey.
      - exists formats, seen. repeat split; try done;
          [by apply Hseen | by apply Hseen | by left |].
        intros f [= <-] _. by apply Hseen.
      - exists (formats ++ [fmt]), (seen ∪ {[format_key fmt]}).
        split; [reflexivity|]. rewrite fmap_app. cbn [fmap list_fmap]. split; [|split; [|split; [|split]]].
        + intros k. rewrite elem_of_union, elem_of_app, Hseen, elem_of_singleton,
            list_elem_of_singleton. done.
        + apply NoDup_app. split; [exact Hnd|]. split; [|apply NoDup_singleton].
          intros k Hk Hk'. apply list_elem_of_singleton in Hk'. subst k.
          apply Hkey. by apply Hseen.
        + by apply prefix_app_r.
        + intros f Hf. apply elem_of_app in Hf as [Hf|Hf]; [by left|].
          apply list_elem_of_singleton in Hf. subst f. by right.
        + intros f [= <-] _. apply elem_of_app. right. by apply list_elem_of_singleton. }
    destruct Hstep as (formats' & seen' & -> & Hseen' & Hnd' & Hpre & Hfrom & Hkey).
    destruct (IH formats' seen' Hseen' Hnd') as (Hnd'' & Hpre' & Hfrom' & Hkeys).
    split; [exact Hnd''|]. split; [by etrans|]. split.
    + intros f Hf. destruct (Hfrom' f Hf) as [Hin|(s' & Hs' & Hrest)].
      * destruct (Hfrom f Hin) as [?|[? ?]]; [by left|].
        right. exists s. split; [by left | done].
      * right. exists s'. split; [by right | done].
    + intros s' f Hs' Hf Hzero. apply elem_of_cons in Hs' as [->|Hs'].
      * specialize (Hkey f Hf Hzero). destruct Hpre' as [more ->].
        rewrite fmap_app. apply elem_of_app. by left.
      * by eapply Hkeys.
Qed.

(** X30: available_formats lists each format of the summary once per key
    (channels, bit depth, sample rates): the formats it returns have
    pairwise distinct keys, each is the format of an alternate setting that
    is not zero-bandwidth, and the key of every such setting's format is
    the key of a returned format. *)
Theorem X30_available_formats_are_distinct (summary : InterfaceBandwidthSummary.t) :
  NoDup (format_key <$> InterfaceBandwidthSummary_available_formats summary)
  /\ (forall f, f ∈ InterfaceBandwidthSummary_available_formats summary ->
        exists s, s ∈ InterfaceBandwidthSummary.alternate_settings summary
                  /\ BandwidthInfo.format s = Some f
                  /\ BandwidthInfo_is_zero_bandwidth s = false)
  /\ (forall s f,
        s ∈ InterfaceBandwidthSummary.alternate_settings summary ->
        BandwidthInfo.format s = Some f ->
        BandwidthInfo_is_zero_bandwidth s = false ->
        format_key f
        ∈ format_key <$> InterfaceBandwidthSummary_available_formats summary).
Proof.
  unfold InterfaceBandwidthSummary_available_formats.
  destruct (add_format_loop (InterfaceBandwidthSummary.alternate_settings summary) [] ∅)
    as (Hnd & _ & Hfrom & Hkeys).
  - intros k. cbn. by rewrite elem_of_empty, elem_of_nil.
  - constructor.
  - split; [exact Hnd|]. split; [|exact Hkeys].
    intros f Hf. destruct (Hfrom f Hf) as [Hnil|Hs]; [by apply elem_of_nil in Hnil | exact Hs].
Qed.

End BandwidthFacts.
